(** * Moderated mutations and the loan-request ticket workflow

    A shallow embedding of the back-office controllers:

    - [Tickets]: the loan-request handlers of
      [financeLoanRequestController.ts] and [adminLoanRequestController.ts]
      (take, status change, reassign, escalate and the bulk variants);
    - [Moderation]: the pending-change handlers of the employee property
      controller and of [adminPendingChangesController.ts]
      (submit, drafts, withdraw, approve with rollback, reject, request
      revision);
    - [RateLimit]: [checkRateLimit] and [createLoanRequest] of the customer
      loan-request controller;
    - [TicketDesk]: the comment handlers, the finance dashboard counters and
      the SLA setting of the two loan-request controllers;
    - [Banners]: the banner proposals of [employeeBannerController.ts];
    - [Accounts]: the admin handlers for agents and customers.

    Tables are lists of rows in storage order; [select ... limit 1] is the
    first matching row.  Row identifiers (uuid or serial columns) are natural
    numbers, timestamps are integers (milliseconds), and every handler takes
    the value of [new Date()] as an argument.  A handler returns the new
    database together with the HTTP response it sends.  A string holds a
    text in UTF-8. *)

From Stdlib Require Import ZArith List Bool Lia.
From Stdlib Require QArith.
From stdpp Require Import gmap strings list fin_maps pretty.
Import ListNotations.

Set Default Proof Using "Type".

(** ** JavaScript values and helpers shared by the controllers *)

(** [a || b] on an optional string: [undefined], [null] and the empty string
    are falsy. *)
Definition str_or (a : option string) (b : string) : string :=
  match a with
  | Some s => if decide (s = "") then b else s
  | None => b
  end.

(** [a || null] as used by [createAuditLog]. *)
Definition or_null (a : option string) : option string :=
  match a with
  | Some s => if decide (s = "") then None else Some s
  | None => None
  end.

(** Truthiness of an optional string ([!comment] is its negation). *)
Definition truthy_str (a : option string) : bool :=
  match a with
  | Some s => if decide (s = "") then false else true
  | None => false
  end.

(** Truthiness of an optional number: [null], [undefined] and [0] are falsy. *)
Definition truthy_num (a : option nat) : bool :=
  match a with
  | Some (S _) => true
  | _ => false
  end.

(** [n.toString()] for a non-negative integer. *)
Definition num_toString (n : nat) : string := pretty n.

(** [db.update(t).set(f).where(P)]: the table after the update. *)
Definition update_where {A} (P : A -> bool) (f : A -> A) (rows : list A) : list A :=
  map (fun r => if P r then f r else r) rows.

(** The rows handed back by [.returning()] of the same update. *)
Definition returning {A} (P : A -> bool) (f : A -> A) (rows : list A) : list A :=
  map f (List.filter P rows).

(** ** Text as JavaScript and the database measure it *)

(** A byte [10xxxxxx]: it continues the character begun by an earlier
    byte. *)
Definition continuation (a : Ascii.ascii) : bool :=
  let n := Ascii.nat_of_ascii a in (128 <=? n) && (n <? 192).

(** The first byte of a character above U+FFFF, which a JavaScript string
    holds as two code units (a surrogate pair). *)
Definition astral (a : Ascii.ascii) : bool := 240 <=? Ascii.nat_of_ascii a.

(** [s.length], and what [z.string().min(n)] and [.max(n)] compare: the
    number of UTF-16 code units. *)
Fixpoint js_length (s : string) : nat :=
  match s with
  | EmptyString => 0
  | String a rest =>
    (if continuation a then 0 else if astral a then 2 else 1) + js_length rest
  end.

(** U+FFFD, which the database driver sends for half a surrogate pair. *)
Definition REPLACEMENT : string :=
  String (Ascii.ascii_of_nat 239)
    (String (Ascii.ascii_of_nat 191) (String (Ascii.ascii_of_nat 189) EmptyString)).

(** [s.substring(0, n)] as it reaches the database: the first [n] code
    units of the text; when the cut falls inside a surrogate pair the half
    that is left is sent as U+FFFD. *)
Fixpoint js_substring (n : nat) (s : string) : string :=
  match s with
  | EmptyString => EmptyString
  | String a rest =>
    if continuation a then String a (js_substring n rest)
    else
      match n with
      | 0 => EmptyString
      | S n' =>
        if astral a then
          match n' with
          | 0 => REPLACEMENT
          | S n'' => String a (js_substring n'' rest)
          end
        else String a (js_substring n' rest)
      end
  end.

(** The text holds the character U+0000, which no [text], [varchar] or
    [jsonb] column takes: the statement that carries it fails. *)
Fixpoint has_nul (s : string) : bool :=
  match s with
  | EmptyString => false
  | String a rest => (Ascii.nat_of_ascii a =? 0) || has_nul rest
  end.

(** The number of characters, which is what the length of a [varchar(n)]
    column limits. *)
Fixpoint char_length (s : string) : nat :=
  match s with
  | EmptyString => 0
  | String a rest => (if continuation a then 0 else 1) + char_length rest
  end.

(** The first [n] characters of a text, and the rest. *)
Fixpoint split_chars (n : nat) (s : string) : string * string :=
  match s with
  | EmptyString => (EmptyString, EmptyString)
  | String a rest =>
    if continuation a then
      let (kept, cut) := split_chars n rest in (String a kept, cut)
    else
      match n with
      | 0 => (EmptyString, s)
      | S n' => let (kept, cut) := split_chars n' rest in (String a kept, cut)
      end
  end.

Fixpoint all_spaces (s : string) : bool :=
  match s with
  | EmptyString => true
  | String a rest => (Ascii.nat_of_ascii a =? 32) && all_spaces rest
  end.

(** What a [varchar(n)] column stores for a string: the string when it
    fits, its first [n] characters when all the others are spaces, and
    nothing (the statement fails) otherwise. *)
Definition varchar (n : nat) (s : string) : option string :=
  if char_length s <=? n then Some s
  else
    let (kept, cut) := split_chars n s in
    if all_spaces cut then Some kept else None.

(** Every character of the text is below U+0080. *)
Fixpoint is_ascii (s : string) : bool :=
  match s with
  | EmptyString => true
  | String a rest => (Ascii.nat_of_ascii a <? 128) && is_ascii rest
  end.

(* ===================================================================== *)
(** ** The loan-request ticket workflow *)
(* ===================================================================== *)

Module Tickets.

(** The handlers of this module are followed on the runs in which the
    database accepts every statement they send: the caller and the assignee
    are rows of [users] (the foreign keys of the ticket, assignment and
    audit tables), [version + 1] fits the [integer] column, and no text
    holds U+0000.  When a statement fails the handler answers 500, and what
    it wrote before stays written: it opens no transaction. *)

(** The five values allowed in the [status] column (and by the request
    schema [z.enum]). *)
Inductive Status := received | under_review | contacted | closed | rejected.

#[global] Instance Status_eq_dec : EqDecision Status.
Proof. solve_decision. Defined.

Definition status_name (s : Status) : string :=
  match s with
  | received => "received"
  | under_review => "under_review"
  | contacted => "contacted"
  | closed => "closed"
  | rejected => "rejected"
  end.

(** [ALLOWED_STATUS_TRANSITIONS]: a record keyed by the current status;
    [closed] and [rejected] have no entry. *)
Definition ALLOWED_STATUS_TRANSITIONS (s : Status) : option (list Status) :=
  match s with
  | received => Some [under_review; rejected]
  | under_review => Some [contacted; rejected]
  | contacted => Some [closed; rejected]
  | closed => None
  | rejected => None
  end.

(** [allowedTransitions.includes(status)] *)
Definition includes (l : list Status) (s : Status) : bool :=
  existsb (fun x => bool_decide (x = s)) l.

(** The workflow columns of [loan_requests]; the requester snapshot and the
    loan parameters are written once at creation and never touched by the
    handlers below. *)
Record LoanRequest := mkLoanRequest {
  tid : nat;
  status : Status;
  assigneeId : option nat;
  version : Z;
  priority : string;
  isEscalated : bool;
  escalationReason : option string;
  lastActivityAt : Z;
  updatedAt : Z;
  deletedAt : option Z;
}.

Record User := mkUser {
  uid : nat;
  name : option string;
  role : string;
  department : string;
  active : bool;
}.

Record Assignment := mkAssignment {
  as_loanRequestId : nat;
  as_assignedById : nat;
  as_assigneeId : nat;
  as_comment : option string;
}.

Record AuditLog := mkAuditLog {
  al_loanRequestId : nat;
  al_actorId : nat;
  al_action : string;
  al_oldValue : option string;
  al_newValue : option string;
  al_comment : option string;
}.

Record DB := mkDB {
  loanRequests : list LoanRequest;
  users : list User;
  loanRequestAssignments : list Assignment;
  loanRequestAuditLogs : list AuditLog;
}.

#[global] Instance LoanRequest_eq_dec : EqDecision LoanRequest.
Proof. solve_decision. Defined.

(** Response bodies, one constructor per JSON shape sent by the handlers.
    [BZodIssue] is the body [{ message: error.issues[0].message }] built from
    a schema failure; its text is the validation library's. *)
Inductive Body :=
| BSuccess (loanRequest : LoanRequest)
| BMessage (message : string)
| BZodIssue
| BTransition (message : string) (allowedTransitions : list Status)
| BConflict (message : string) (loanRequest : option LoanRequest)
| BCount (count : nat).

Record Response := mkResponse { code : nat; body : Body }.

Definition set_loanRequests (db : DB) (rows : list LoanRequest) : DB :=
  mkDB rows (users db) (loanRequestAssignments db) (loanRequestAuditLogs db).

Definition insert_assignment (db : DB) (a : Assignment) : DB :=
  mkDB (loanRequests db) (users db) (loanRequestAssignments db ++ [a])
       (loanRequestAuditLogs db).

(** [createAuditLog]: one row appended to [loan_request_audit_logs]. *)
Definition createAuditLog (db : DB) (loanRequestId actorId : nat) (action : string)
    (oldValue newValue comment : option string) : DB :=
  mkDB (loanRequests db) (users db) (loanRequestAssignments db)
       (loanRequestAuditLogs db ++
          [mkAuditLog loanRequestId actorId action
             (or_null oldValue) (or_null newValue) (or_null comment)]).

Definition is_null {A} (o : option A) : bool :=
  match o with None => true | Some _ => false end.

(** [select().from(loanRequests).where(and(eq(id), isNull(deletedAt))).limit(1)] *)
Definition select_live (db : DB) (id : nat) : option LoanRequest :=
  List.find (fun t => (tid t =? id) && is_null (deletedAt t)) (loanRequests db).

(** [select().from(loanRequests).where(eq(id)).limit(1)] *)
Definition select_current (db : DB) (id : nat) : option LoanRequest :=
  List.find (fun t => tid t =? id) (loanRequests db).

(** The guard of every optimistic write:
    [where(and(eq(id), eq(version, existing.version)))]. *)
Definition at_version (id : nat) (v : Z) (t : LoanRequest) : bool :=
  (tid t =? id) && (version t =? v)%Z.

Definition user_name (db : DB) (id : nat) : option string :=
  match List.find (fun u => uid u =? id) (users db) with
  | Some u => name u
  | None => None
  end.

(** The primary key of [loan_requests]. *)
Definition primary_key (db : DB) : Prop := List.NoDup (map tid (loanRequests db)).

(** The version stored for a ticket. *)
Definition stored_version (db : DB) (id : nat) : option Z :=
  option_map version (select_current db id).

(** *** takeLoanRequest *)

Definition take_set (financeId : nat) (now : Z) (t : LoanRequest) : LoanRequest :=
  mkLoanRequest (tid t) under_review (Some financeId) (version t + 1)
    (priority t) (isEscalated t) (escalationReason t) now now (deletedAt t).

Definition takeLoanRequest (db : DB) (id financeId : nat) (now : Z) : DB * Response :=
  match select_live db id with
  | None => (db, mkResponse 404 (BMessage "Loan request not found"))
  | Some existing =>
    if truthy_num (assigneeId existing)
       && negb (bool_decide (assigneeId existing = Some financeId))
    then
      let who := match assigneeId existing with
                 | Some a => user_name db a
                 | None => None
                 end in
      (db, mkResponse 409
             (BConflict ("Already assigned to " ++ str_or who "another user")
                        (Some existing)))
    else
      let P := at_version id (version existing) in
      match returning P (take_set financeId now) (loanRequests db) with
      | [] =>
        (db, mkResponse 409
               (BConflict "Loan request was modified by another user"
                          (select_current db id)))
      | updated :: _ =>
        let db1 := set_loanRequests db
                     (update_where P (take_set financeId now) (loanRequests db)) in
        let db2 := insert_assignment db1
                     (mkAssignment id financeId financeId (Some "Self-assigned")) in
        let db3 := createAuditLog db2 id financeId "assigned" None
                     (Some (num_toString financeId)) (Some "Self-assigned") in
        let db4 := createAuditLog db3 id financeId "status_change"
                     (Some (status_name (status existing)))
                     (Some "under_review") None in
        (db4, mkResponse 200 (BSuccess updated))
      end
  end.

(** *** updateLoanRequestStatus (finance employee) *)

Record StatusRequest := mkStatusRequest {
  req_status : Status;
  req_comment : option string;
}.

(** The schema of the body: [comment: z.string().max(1000).optional()]. *)
Definition status_schema_ok (r : StatusRequest) : bool :=
  match req_comment r with
  | Some c => js_length c <=? 1000
  | None => true
  end.

Definition status_set (s : Status) (now : Z) (t : LoanRequest) : LoanRequest :=
  mkLoanRequest (tid t) s (assigneeId t) (version t + 1)
    (priority t) (isEscalated t) (escalationReason t) now now (deletedAt t).

Definition default_list (o : option (list Status)) : list Status :=
  match o with Some l => l | None => [] end.

(** The handler up to (and including) the adjacency check: either the
    response of an early return, or the row [existing] it has read. *)
Definition updateLoanRequestStatus_read (db : DB) (id : nat) (r : StatusRequest)
    : Response + LoanRequest :=
  if negb (status_schema_ok r) then
    inl (mkResponse 400 BZodIssue)
  else if (bool_decide (req_status r = closed) || bool_decide (req_status r = rejected))
          && negb (truthy_str (req_comment r)) then
    inl (mkResponse 400 (BMessage "Comment is required for closed or rejected status"))
  else
    match select_live db id with
    | None => inl (mkResponse 404 (BMessage "Loan request not found"))
    | Some existing =>
      let allowedTransitions :=
        default_list (ALLOWED_STATUS_TRANSITIONS (status existing)) in
      if negb (includes allowedTransitions (req_status r)) then
        inl (mkResponse 400
               (BTransition ("Cannot transition from " ++ status_name (status existing)
                               ++ " to " ++ status_name (req_status r))
                            allowedTransitions))
      else inr existing
    end.

(** The rest of the handler: the conditional update guarded by the version
    that was read, the conflict response, and the audit entry. *)
Definition updateLoanRequestStatus_write (db : DB) (id financeId : nat)
    (r : StatusRequest) (existing : LoanRequest) (now : Z) : DB * Response :=
  let P := at_version id (version existing) in
  match returning P (status_set (req_status r) now) (loanRequests db) with
  | [] =>
    (db, mkResponse 409
           (BConflict "Loan request was modified by another user"
                      (select_current db id)))
  | updated :: _ =>
    let db1 := set_loanRequests db
                 (update_where P (status_set (req_status r) now) (loanRequests db)) in
    let db2 := createAuditLog db1 id financeId "status_change"
                 (Some (status_name (status existing)))
                 (Some (status_name (req_status r))) (req_comment r) in
    (db2, mkResponse 200 (BSuccess updated))
  end.

Definition updateLoanRequestStatus (db : DB) (id financeId : nat)
    (r : StatusRequest) (now : Z) : DB * Response :=
  match updateLoanRequestStatus_read db id r with
  | inl resp => (db, resp)
  | inr existing => updateLoanRequestStatus_write db id financeId r existing now
  end.

(** *** changeAdminLoanRequestStatus (admin) *)

Definition changeAdminLoanRequestStatus (db : DB) (id adminId : nat)
    (r : StatusRequest) (now : Z) : DB * Response :=
  if negb (status_schema_ok r) then
    (db, mkResponse 400 BZodIssue)
  else if (bool_decide (req_status r = closed) || bool_decide (req_status r = rejected))
          && negb (truthy_str (req_comment r)) then
    (db, mkResponse 400 (BMessage "Comment required for close/reject"))
  else
    match select_live db id with
    | None => (db, mkResponse 404 (BMessage "Loan request not found"))
    | Some existing =>
      let P := at_version id (version existing) in
      match returning P (status_set (req_status r) now) (loanRequests db) with
      | [] =>
        (db, mkResponse 409
               (BConflict "Loan request was modified" (select_current db id)))
      | updated :: _ =>
        let db1 := set_loanRequests db
                     (update_where P (status_set (req_status r) now) (loanRequests db)) in
        let db2 := createAuditLog db1 id adminId "status_change"
                     (Some (status_name (status existing)))
                     (Some (status_name (req_status r))) (req_comment r) in
        (db2, mkResponse 200 (BSuccess updated))
      end
    end.

(** *** reassignLoanRequest (admin) *)

Record ReassignRequest := mkReassignRequest {
  rr_assigneeId : option nat;
  rr_comment : option string;
  rr_autoAssign : option bool;
}.

Definition truthy_bool (o : option bool) : bool :=
  match o with Some b => b | None => false end.

Definition is_finance_employee (u : User) : bool :=
  bool_decide (role u = "employee") && bool_decide (department u = "Finance")
  && active u.

(** The join condition of the open-ticket count: assigned to [u], not
    deleted, status outside [closed] and [rejected]. *)
Definition open_for (u : nat) (t : LoanRequest) : bool :=
  bool_decide (assigneeId t = Some u) && is_null (deletedAt t)
  && negb (bool_decide (status t = closed) || bool_decide (status t = rejected)).

Definition openTickets (db : DB) (u : nat) : nat :=
  length (List.filter (open_for u) (loanRequests db)).

(** [orderBy(COUNT(...)).limit(1)]: a candidate with the fewest open tickets.
    The query does not say which of several equally loaded candidates it
    returns; the first of them in table order is taken here. *)
Fixpoint least_loaded (db : DB) (cands : list User) : option User :=
  match cands with
  | [] => None
  | u :: rest =>
    match least_loaded db rest with
    | Some v => if openTickets db (uid v) <? openTickets db (uid u)
                then Some v else Some u
    | None => Some u
    end
  end.

Definition leastBusy (db : DB) : option User :=
  least_loaded db (List.filter is_finance_employee (users db)).

Definition reassign_set (target : nat) (existing : LoanRequest) (now : Z)
    (t : LoanRequest) : LoanRequest :=
  mkLoanRequest (tid t)
    (if bool_decide (status existing = received) then under_review
     else status existing)
    (Some target) (version t + 1)
    (priority t) (isEscalated t) (escalationReason t) now now (deletedAt t).

Definition reassign_schema_ok (r : ReassignRequest) : bool :=
  match rr_comment r with
  | Some c => js_length c <=? 500
  | None => true
  end.

(** The handler once the target is chosen: the target must be an active
    finance employee; then the optimistic write, the assignment record and
    the audit entry. *)
Definition reassign_to (db : DB) (id adminId : nat) (r : ReassignRequest)
    (existing : LoanRequest) (target : nat) (now : Z) : DB * Response :=
  match List.find (fun u => (uid u =? target) && is_finance_employee u) (users db) with
  | None => (db, mkResponse 400 (BMessage "Invalid assignee"))
  | Some _ =>
    let P := at_version id (version existing) in
    let f := reassign_set target existing now in
    match returning P f (loanRequests db) with
    | [] =>
      (db, mkResponse 409
             (BConflict "Loan request was modified" (select_current db id)))
    | updated :: _ =>
      let db1 := set_loanRequests db (update_where P f (loanRequests db)) in
      let db2 := insert_assignment db1
                   (mkAssignment id adminId target
                      (Some (str_or (rr_comment r)
                               (if truthy_bool (rr_autoAssign r)
                                then "Auto-assigned"
                                else "Reassigned by admin")))) in
      let db3 := createAuditLog db2 id adminId "reassigned"
                   (option_map num_toString (assigneeId existing))
                   (Some (num_toString target)) (rr_comment r) in
      (db3, mkResponse 200 (BSuccess updated))
    end
  end.

Definition reassignLoanRequest (db : DB) (id adminId : nat)
    (r : ReassignRequest) (now : Z) : DB * Response :=
  if negb (reassign_schema_ok r) then (db, mkResponse 400 BZodIssue)
  else if negb (truthy_num (rr_assigneeId r)) && negb (truthy_bool (rr_autoAssign r))
  then (db, mkResponse 400 (BMessage "assigneeId or autoAssign required"))
  else
    match select_live db id with
    | None => (db, mkResponse 404 (BMessage "Loan request not found"))
    | Some existing =>
      if truthy_bool (rr_autoAssign r) then
        match leastBusy db with
        | None => (db, mkResponse 400 (BMessage "No active finance employees available"))
        | Some u => reassign_to db id adminId r existing (uid u) now
        end
      else
        match rr_assigneeId r with
        | Some target => reassign_to db id adminId r existing target now
        | None => (db, mkResponse 400 (BMessage "Invalid assignee"))
        end
    end.

(** *** escalateLoanRequest (admin) *)

(** [reason: z.string().min(10).max(500)] *)
Definition reason_schema_ok (reason : string) : bool :=
  (10 <=? js_length reason) && (js_length reason <=? 500).

Definition escalate_set (reason : string) (now : Z) (t : LoanRequest) : LoanRequest :=
  mkLoanRequest (tid t) (status t) (assigneeId t) (version t + 1)
    "high" true (Some reason) now now (deletedAt t).

Definition escalateLoanRequest (db : DB) (id adminId : nat)
    (reason : string) (now : Z) : DB * Response :=
  if negb (reason_schema_ok reason) then (db, mkResponse 400 BZodIssue)
  else
    match select_live db id with
    | None => (db, mkResponse 404 (BMessage "Loan request not found"))
    | Some existing =>
      let P := at_version id (version existing) in
      match returning P (escalate_set reason now) (loanRequests db) with
      | [] =>
        (db, mkResponse 409
               (BConflict "Loan request was modified" (select_current db id)))
      | updated :: _ =>
        let db1 := set_loanRequests db
                     (update_where P (escalate_set reason now) (loanRequests db)) in
        let db2 := createAuditLog db1 id adminId "escalated" None
                     (Some "high") (Some reason) in
        (db2, mkResponse 200 (BSuccess updated))
      end
    end.

(** *** bulkReassignLoanRequests and bulkEscalateLoanRequests (admin) *)

(** [ids: z.array(z.string()).min(1).max(100)] *)
Definition ids_schema_ok (ids : list nat) : bool :=
  (1 <=? length ids) && (length ids <=? 100).

(** [where(and(inArray(id, ids), isNull(deletedAt)))] *)
Definition in_bulk (ids : list nat) (t : LoanRequest) : bool :=
  existsb (fun i => tid t =? i) ids && is_null (deletedAt t).

(** The [set] of the bulk reassignment: no [version] and no [status]. *)
Definition bulk_reassign_set (target : nat) (now : Z) (t : LoanRequest)
    : LoanRequest :=
  mkLoanRequest (tid t) (status t) (Some target) (version t)
    (priority t) (isEscalated t) (escalationReason t) now now (deletedAt t).

Record BulkReassignRequest := mkBulkReassignRequest {
  br_ids : list nat;
  br_assigneeId : option nat;
  br_autoAssign : option bool;
}.

(** The batch update once the target is chosen, and the assignment record
    and audit entry written for each ticket it returned. *)
Definition bulk_reassign_to (db : DB) (adminId : nat) (ids : list nat)
    (target : nat) (now : Z) : DB * Response :=
  let P := in_bulk ids in
  let f := bulk_reassign_set target now in
  let updated := returning P f (loanRequests db) in
  let db1 := set_loanRequests db (update_where P f (loanRequests db)) in
  let db2 :=
    fold_left
      (fun d ticket =>
         createAuditLog
           (insert_assignment d
              (mkAssignment (tid ticket) adminId target (Some "Bulk reassigned")))
           (tid ticket) adminId "bulk_reassigned" None
           (Some (num_toString target)) None)
      updated db1 in
  (db2, mkResponse 200 (BCount (length updated))).

Definition bulkReassignLoanRequests (db : DB) (adminId : nat)
    (r : BulkReassignRequest) (now : Z) : DB * Response :=
  if negb (ids_schema_ok (br_ids r)) then (db, mkResponse 400 BZodIssue)
  else if negb (truthy_num (br_assigneeId r)) && negb (truthy_bool (br_autoAssign r))
  then (db, mkResponse 400 (BMessage "assigneeId or autoAssign required"))
  else if truthy_bool (br_autoAssign r) then
    match leastBusy db with
    | None => (db, mkResponse 400 (BMessage "No active finance employees"))
    | Some u => bulk_reassign_to db adminId (br_ids r) (uid u) now
    end
  else
    match br_assigneeId r with
    | Some target => bulk_reassign_to db adminId (br_ids r) target now
    | None => (db, mkResponse 500 (BMessage "Failed to bulk reassign"))
    end.

(** The [set] of the bulk escalation: no [version]. *)
Definition bulk_escalate_set (reason : string) (now : Z) (t : LoanRequest)
    : LoanRequest :=
  mkLoanRequest (tid t) (status t) (assigneeId t) (version t)
    "high" true (Some reason) now now (deletedAt t).

Definition bulkEscalateLoanRequests (db : DB) (adminId : nat)
    (ids : list nat) (reason : string) (now : Z) : DB * Response :=
  if negb (ids_schema_ok ids && reason_schema_ok reason)
  then (db, mkResponse 400 BZodIssue)
  else
    let P := in_bulk ids in
    let f := bulk_escalate_set reason now in
    let updated := returning P f (loanRequests db) in
    let db1 := set_loanRequests db (update_where P f (loanRequests db)) in
    let db2 :=
      fold_left
        (fun d ticket =>
           createAuditLog d (tid ticket) adminId "bulk_escalated" None
             (Some "high") (Some reason))
        updated db1 in
    (db2, mkResponse 200 (BCount (length updated))).

(** *** The mutations of one ticket, and the bulk mutations *)

Inductive Mutation :=
| Take (financeId : nat)
| ChangeStatus (financeId : nat) (r : StatusRequest)
| AdminChangeStatus (adminId : nat) (r : StatusRequest)
| Reassign (adminId : nat) (r : ReassignRequest)
| Escalate (adminId : nat) (reason : string).

Definition mutate (db : DB) (id : nat) (m : Mutation) (now : Z) : DB * Response :=
  match m with
  | Take financeId => takeLoanRequest db id financeId now
  | ChangeStatus financeId r => updateLoanRequestStatus db id financeId r now
  | AdminChangeStatus adminId r => changeAdminLoanRequestStatus db id adminId r now
  | Reassign adminId r => reassignLoanRequest db id adminId r now
  | Escalate adminId reason => escalateLoanRequest db id adminId reason now
  end.

Inductive BulkMutation :=
| BulkReassign (adminId : nat) (r : BulkReassignRequest)
| BulkEscalate (adminId : nat) (ids : list nat) (reason : string).

Definition bulk_mutate (db : DB) (b : BulkMutation) (now : Z) : DB * Response :=
  match b with
  | BulkReassign adminId r => bulkReassignLoanRequests db adminId r now
  | BulkEscalate adminId ids reason => bulkEscalateLoanRequests db adminId ids reason now
  end.

(** A pair of the adjacency table of the workflow. *)
Definition legal_transition (current requested : Status) : bool :=
  includes (default_list (ALLOWED_STATUS_TRANSITIONS current)) requested.

End Tickets.

(* ===================================================================== *)
(** ** The pending-change engine *)
(* ===================================================================== *)

Module Moderation.

(** JSON values carried by payloads and by the columns of the canonical
    tables. *)
Inductive JVal :=
| JNull
| JBool (b : bool)
| JNum (n : Z)
| JStr (s : string)
| JList (l : list string).

#[global] Instance JVal_eq_dec : EqDecision JVal.
Proof. solve_decision. Defined.

(** JavaScript truthiness. *)
Definition truthy (v : JVal) : bool :=
  match v with
  | JNull => false
  | JBool b => b
  | JNum n => negb (n =? 0)%Z
  | JStr s => if decide (s = "") then false else true
  | JList _ => true
  end.

Fixpoint join (sep : string) (l : list string) : string :=
  match l with
  | [] => ""
  | [x] => x
  | x :: rest => x ++ sep ++ join sep rest
  end.

(** [v.toString()] and template interpolation (not applied to [null]). *)
Definition toString (v : JVal) : string :=
  match v with
  | JNull => "null"
  | JBool b => if b then "true" else "false"
  | JNum n => pretty n
  | JStr s => s
  | JList l => join "," l
  end.

(** A JSON object: field name to value.  An absent key is [undefined]. *)
Abbreviation Payload := (gmap string JVal).

(** [{ ...a, ...b }]: the fields of [b] over those of [a]. *)
Definition spread (a b : Payload) : Payload := b ∪ a.

(** The values allowed by the [status] check constraint of the two
    pending-change tables. *)
Inductive ChangeStatus := draft | pending | needs_revision | approved | rejected.

#[global] Instance ChangeStatus_eq_dec : EqDecision ChangeStatus.
Proof. solve_decision. Defined.

(** A row of [property_pending_changes]. *)
Record PendingChange := mkPendingChange {
  cid : nat;
  propertyId : option nat;
  proposerId : nat;
  proposedPayload : Payload;
  diffSummary : option Payload;
  status : ChangeStatus;
  reason : option string;
  isDraft : bool;
  createdAt : Z;
  reviewedAt : option Z;
  reviewedByAdminId : option nat;
}.

(** A row of [banner_pending_changes] (no [isDraft] column). *)
Record BannerChange := mkBannerChange {
  bc_id : nat;
  bannerId : option nat;
  bc_proposerId : nat;
  bc_proposedPayload : Payload;
  bc_diffSummary : option Payload;
  bc_status : ChangeStatus;
  bc_reason : option string;
  bc_createdAt : Z;
  bc_reviewedAt : option Z;
  bc_reviewedByAdminId : option nat;
}.

(** A row of a canonical table ([properties] or [banners]): the primary key
    and the other columns by name; a [NULL] column is absent.  Payload keys
    are taken as column names, and no payload carries the key [id].  The
    columns carry no type here: a key that names no column, which the ORM
    would drop, is kept as a further entry, and a value is kept as it is
    given. *)
Record Entity := mkEntity {
  eid : nat;
  columns : Payload;
}.

Inductive UploadStatus := created | uploaded | referenced.

(** A row of [uploads] (storage key, purpose, size and content type are not
    read by the handlers below). *)
Record Upload := mkUpload {
  upid : nat;
  ownerId : nat;
  up_status : UploadStatus;
  referencedByChangeId : option nat;
}.

(** A row of [property_employee_assignments]. *)
Record EmployeeAssignment := mkEmployeeAssignment {
  ea_propertyId : nat;
  ea_employeeId : nat;
}.

(** The database.  [propertyPendingChangesIdempotency] is keyed by its
    primary key [idempotency_key] and gives the [change_id] column.
    [nextUuid] stands for [defaultRandom()]: every insert takes the next
    unused identifier. *)
Record DB := mkDB {
  properties : list Entity;
  banners : list Entity;
  propertyPendingChanges : list PendingChange;
  bannerPendingChanges : list BannerChange;
  uploads : list Upload;
  propertyPendingChangesIdempotency : gmap string nat;
  propertyEmployeeAssignments : list EmployeeAssignment;
  nextUuid : nat;
}.

Definition empty_db : DB := mkDB [] [] [] [] [] ∅ [] 0.

Definition set_properties (db : DB) (rows : list Entity) : DB :=
  mkDB rows (banners db) (propertyPendingChanges db) (bannerPendingChanges db)
       (uploads db) (propertyPendingChangesIdempotency db)
       (propertyEmployeeAssignments db) (nextUuid db).

Definition set_banners (db : DB) (rows : list Entity) : DB :=
  mkDB (properties db) rows (propertyPendingChanges db) (bannerPendingChanges db)
       (uploads db) (propertyPendingChangesIdempotency db)
       (propertyEmployeeAssignments db) (nextUuid db).

Definition set_changes (db : DB) (rows : list PendingChange) : DB :=
  mkDB (properties db) (banners db) rows (bannerPendingChanges db)
       (uploads db) (propertyPendingChangesIdempotency db)
       (propertyEmployeeAssignments db) (nextUuid db).

Definition set_bannerChanges (db : DB) (rows : list BannerChange) : DB :=
  mkDB (properties db) (banners db) (propertyPendingChanges db) rows
       (uploads db) (propertyPendingChangesIdempotency db)
       (propertyEmployeeAssignments db) (nextUuid db).

Definition set_uploads (db : DB) (rows : list Upload) : DB :=
  mkDB (properties db) (banners db) (propertyPendingChanges db)
       (bannerPendingChanges db) rows (propertyPendingChangesIdempotency db)
       (propertyEmployeeAssignments db) (nextUuid db).

Definition set_idempotency (db : DB) (m : gmap string nat) : DB :=
  mkDB (properties db) (banners db) (propertyPendingChanges db)
       (bannerPendingChanges db) (uploads db) m
       (propertyEmployeeAssignments db) (nextUuid db).

Definition bump_uuid (db : DB) : DB :=
  mkDB (properties db) (banners db) (propertyPendingChanges db)
       (bannerPendingChanges db) (uploads db)
       (propertyPendingChangesIdempotency db)
       (propertyEmployeeAssignments db) (S (nextUuid db)).

(** Response bodies of the handlers. *)
Inductive Body :=
| BChange (changeId : nat) (st : ChangeStatus) (created_at : Z) (idempotent : bool)
| BMessage (message : string)
| BZodIssue
| BPendingConflict (message : string) (existingChangeId : nat)
                   (existingChangeTitle : JVal)
| BSuccess
| BEntity (e : Entity).

Record Response := mkResponse { code : nat; body : Body }.

(** [select().from(propertyPendingChanges).where(eq(id, changeId)).limit(1)] *)
Definition select_change (db : DB) (changeId : nat) : option PendingChange :=
  List.find (fun c => cid c =? changeId) (propertyPendingChanges db).

Definition select_bannerChange (db : DB) (changeId : nat) : option BannerChange :=
  List.find (fun c => bc_id c =? changeId) (bannerPendingChanges db).

Definition select_entity (rows : list Entity) (id : nat) : option Entity :=
  List.find (fun e => eid e =? id) rows.

(** The live pending change of a (target, proposer) pair:
    [propertyId = id], [proposerId = employeeId], [status = 'pending'],
    [isDraft = false]. *)
Definition live_pending (target proposer : nat) (c : PendingChange) : bool :=
  bool_decide (propertyId c = Some target) && (proposerId c =? proposer)
  && bool_decide (status c = pending) && negb (isDraft c).

(** [(existingChange.proposedPayload as any)?.title || 'this property'] *)
Definition display_title (c : PendingChange) : JVal :=
  match proposedPayload c !! "title" with
  | Some t => if truthy t then t else JStr "this property"
  | None => JStr "this property"
  end.

Definition conflict_response (existingChange : PendingChange) : Response :=
  let propertyTitle := display_title existingChange in
  mkResponse 409
    (BPendingConflict
       ("There is already a pending change for " ++ toString propertyTitle
          ++ " under review. Please withdraw the existing pending change before submitting a new one.")
       (cid existingChange) propertyTitle).

(** *** submitPendingChange *)

Record UploadedAsset := mkUploadedAsset {
  uploadId : nat;
  key : string;
  publicUrl : string;
}.

(** The parsed body; [idempotencyKey] is
    [data.idempotencyKey || req.headers['idempotency-key']] and [isDraft] has
    its schema default applied. *)
Record SubmitRequest := mkSubmitRequest {
  proposed_payload : Payload;
  diff_summary : option Payload;
  uploadedAssets : option (list UploadedAsset);
  notes : option string;
  idempotencyKey : option string;
  sr_isDraft : bool;
}.

Definition ALLOWED_EMPLOYEE_FIELDS : list string :=
  ["title"; "location"; "price"; "type"; "description"; "images"; "gallery";
   "features"; "amenities"; "categories"; "brochureUrl"; "map"; "website"].

Definition allowed_field (field : string) : bool :=
  existsb (fun a => bool_decide (a = field)) ALLOWED_EMPLOYEE_FIELDS.

(** [Object.keys(payload).filter(field => !ALLOWED_EMPLOYEE_FIELDS.includes(field))].
    [Object.keys] lists the fields in the order of the request body; a
    payload of the model is a map and does not keep that order, so the
    fields come here in the order in which the map enumerates them. *)
Definition invalidFields (payload : Payload) : list string :=
  List.filter (fun field => negb (allowed_field field)) (map fst (map_to_list payload)).

(** [propertyEmployeeAssignments] has a row for (property, employee). *)
Definition is_assigned (db : DB) (id employeeId : nat) : bool :=
  existsb (fun a => (ea_propertyId a =? id) && (ea_employeeId a =? employeeId))
          (propertyEmployeeAssignments db).

(** [properties] has a row [id] with [deleted = false]. *)
Definition not_deleted (e : Entity) : bool :=
  bool_decide (columns e !! "deleted" = Some (JBool false)).

Definition live_property (db : DB) (id : nat) : option Entity :=
  List.find (fun e => (eid e =? id) && not_deleted e) (properties db).

(** [data.uploadedAssets && data.uploadedAssets.length > 0], giving the
    upload ids. *)
Definition uploadIds (r : SubmitRequest) : option (list nat) :=
  match uploadedAssets r with
  | Some (a :: rest) => Some (map uploadId (a :: rest))
  | _ => None
  end.

(** [select().from(uploads).where(and(inArray(id, uploadIds), eq(ownerId, employeeId)))] *)
Definition uploadRecords (db : DB) (ids : list nat) (employeeId : nat) : list Upload :=
  List.filter (fun u => existsb (fun i => upid u =? i) ids && (ownerId u =? employeeId))
              (uploads db).

Definition uploads_valid (db : DB) (r : SubmitRequest) (employeeId : nat) : bool :=
  match uploadIds r with
  | Some ids => length (uploadRecords db ids employeeId) =? length ids
  | None => true
  end.

(** [update(uploads).set({ status: 'referenced', referencedByChangeId }).where(inArray(id, ids))] *)
Definition mark_referenced (ids : list nat) (changeId : nat) (rows : list Upload)
    : list Upload :=
  update_where (fun u => existsb (fun i => upid u =? i) ids)
               (fun u => mkUpload (upid u) (ownerId u) referenced (Some changeId))
               rows.

(** The idempotency key when it is truthy. *)
Definition given_key (r : SubmitRequest) : option string :=
  match idempotencyKey r with
  | Some k => if decide (k = "") then None else Some k
  | None => None
  end.







Definition submitPendingChange (db : DB) (id employeeId : nat) (data : SubmitRequest)
    (now : Z) : DB * Response :=
  let replay :=
    match given_key data with
    | Some k => propertyPendingChangesIdempotency db !! k
    | None => None
    end in
  match replay with
  | Some existingChangeId =>
    match select_change db existingChangeId with
    | Some change =>
      (db, mkResponse 200 (BChange (cid change) (status change) (createdAt change) true))
    | None => (db, mkResponse 500 (BMessage "Failed to submit changes"))
    end
  | None =>
    if negb (is_assigned db id employeeId) then
      (db, mkResponse 403 (BMessage "Property not found or not assigned to you"))
    else
    match live_property db id with
    | None => (db, mkResponse 403 (BMessage "Property not found or not assigned to you"))
    | Some _ =>
      match invalidFields (proposed_payload data) with
      | f :: fs =>
        (db, mkResponse 400 (BMessage ("Cannot modify fields: " ++ join ", " (f :: fs))))
      | [] =>
        if negb (uploads_valid db data employeeId) then
          (db, mkResponse 400 (BMessage "Invalid upload references"))
        else
        let existingPendingChange :=
          if sr_isDraft data then None
          else List.find (live_pending id employeeId) (propertyPendingChanges db) in
        match existingPendingChange with
        | Some existingChange => (db, conflict_response existingChange)
        | None =>
          let pendingChange :=
            mkPendingChange (nextUuid db) (Some id) employeeId
              (proposed_payload data) (diff_summary data)
              (if sr_isDraft data then draft else pending)
              None (sr_isDraft data) now None None in
          let db1 := bump_uuid
                       (set_changes db (propertyPendingChanges db ++ [pendingChange])) in
          let db2 :=
            match uploadIds data with
            | Some ids => set_uploads db1 (mark_referenced ids (cid pendingChange) (uploads db1))
            | None => db1
            end in
          let db3 :=
            match given_key data with
            | Some k =>
              set_idempotency db2
                (<[k := cid pendingChange]> (propertyPendingChangesIdempotency db2))
            | None => db2
            end in
          (db3, mkResponse 201
                  (BChange (cid pendingChange) (status pendingChange)
                           (createdAt pendingChange) false))
        end
      end
    end
  end.

(** *** createProperty and the draft handlers *)

(** The body accepted by [createPropertySchema], before defaults. *)
Record PropertyForm := mkPropertyForm {
  pf_title : string;
  pf_location : string;
  pf_price : option (option string);
  pf_type : option string;
  pf_description : option string;
  pf_images : option (list string);
  pf_gallery : option (list string);
  pf_features : option (list string);
  pf_amenities : option (list string);
  pf_categories : option (list string);
  pf_brochureUrl : option string;
  pf_map : option string;
  pf_website : option string;
  pf_isDraft : option bool;
}.

(** [title: z.string().min(1)], [location: z.string().min(1)] *)
Definition form_ok (f : PropertyForm) : bool :=
  negb (bool_decide (pf_title f = "")) && negb (bool_decide (pf_location f = "")).

Definition opt_field (k : string) (o : option JVal) (m : Payload) : Payload :=
  match o with
  | Some v => <[k := v]> m
  | None => m
  end.

Definition list_default (o : option (list string)) : JVal :=
  match o with Some l => JList l | None => JList [] end.

(** The parsed object without its [isDraft] field. *)
Definition propertyData (f : PropertyForm) : Payload :=
  opt_field "price"
    (option_map (fun p => match p with Some s => JStr s | None => JNull end) (pf_price f))
  (opt_field "description" (option_map JStr (pf_description f))
  (opt_field "brochureUrl" (option_map JStr (pf_brochureUrl f))
  (opt_field "map" (option_map JStr (pf_map f))
  (opt_field "website" (option_map JStr (pf_website f))
  (<["title" := JStr (pf_title f)]>
  (<["location" := JStr (pf_location f)]>
  (<["type" := JStr (match pf_type f with Some t => t | None => "New Listing" end)]>
  (<["images" := list_default (pf_images f)]>
  (<["gallery" := list_default (pf_gallery f)]>
  (<["features" := list_default (pf_features f)]>
  (<["amenities" := list_default (pf_amenities f)]>
  (<["categories" := list_default (pf_categories f)]> ∅)))))))))))).

Definition form_isDraft (f : PropertyForm) : bool :=
  match pf_isDraft f with Some b => b | None => false end.

(** The whole parsed object, as stored by [updateDraft]. *)
Definition parsed_form (f : PropertyForm) : Payload :=
  <["isDraft" := JBool (form_isDraft f)]> (propertyData f).

Definition createProperty (db : DB) (employeeId : nat) (f : PropertyForm) (now : Z)
    : DB * Response :=
  if negb (form_ok f) then (db, mkResponse 400 BZodIssue)
  else
    let pendingChange :=
      mkPendingChange (nextUuid db) None employeeId (propertyData f) None
        (if form_isDraft f then draft else pending)
        None (form_isDraft f) now None None in
    (bump_uuid (set_changes db (propertyPendingChanges db ++ [pendingChange])),
     mkResponse 201
       (BChange (cid pendingChange) (status pendingChange) (createdAt pendingChange) false)).

(** Some upload row points at the change ([uploads.referenced_by_change_id]
    is a foreign key without a delete rule, so such a change cannot be
    deleted). *)
Definition referenced_by_upload (db : DB) (changeId : nat) : bool :=
  existsb (fun u => bool_decide (referencedByChangeId u = Some changeId)) (uploads db).

(** [db.delete(propertyPendingChanges).where(P)]: [None] when the statement
    fails on the foreign key of [uploads]; otherwise the rows are removed
    and the idempotency rows that point at them go with them
    ([ON DELETE CASCADE]). *)
Definition delete_changes (P : PendingChange -> bool) (db : DB) : option DB :=
  let doomed := List.filter P (propertyPendingChanges db) in
  if existsb (fun c => referenced_by_upload db (cid c)) doomed then None
  else
    Some (set_idempotency
            (set_changes db (List.filter (fun c => negb (P c)) (propertyPendingChanges db)))
            (filter (fun kv : string * nat => kv.2 ∉ map cid doomed)
                    (propertyPendingChangesIdempotency db))).

Definition to_draft (c : PendingChange) : PendingChange :=
  mkPendingChange (cid c) (propertyId c) (proposerId c) (proposedPayload c)
    (diffSummary c) draft (reason c) true (createdAt c) (reviewedAt c)
    (reviewedByAdminId c).

Definition withdrawPendingChange (db : DB) (changeId employeeId : nat)
    (moveToDraft : bool) : DB * Response :=
  match List.find (fun c => (cid c =? changeId) && (proposerId c =? employeeId))
                  (propertyPendingChanges db) with
  | None => (db, mkResponse 404 (BMessage "Pending change not found"))
  | Some change =>
    if moveToDraft then
      (set_changes db
         (update_where (fun c => cid c =? changeId) to_draft (propertyPendingChanges db)),
       mkResponse 200 BSuccess)
    else
      match delete_changes (fun c => cid c =? changeId) db with
      | Some db' => (db', mkResponse 200 BSuccess)
      | None => (db, mkResponse 500 (BMessage "Failed to withdraw change"))
      end
  end.

(** The row a draft handler works on: owned by the caller and either a draft
    or returned for revision. *)
Definition editable (changeId employeeId : nat) (c : PendingChange) : bool :=
  (cid c =? changeId) && (proposerId c =? employeeId)
  && (isDraft c || bool_decide (status c = needs_revision)).

Definition with_payload (p : Payload) (c : PendingChange) : PendingChange :=
  mkPendingChange (cid c) (propertyId c) (proposerId c) p
    (diffSummary c) (status c) (reason c) (isDraft c) (createdAt c) (reviewedAt c)
    (reviewedByAdminId c).

Definition updateDraft (db : DB) (changeId employeeId : nat) (f : PropertyForm)
    : DB * Response :=
  if negb (form_ok f) then (db, mkResponse 400 BZodIssue)
  else
    match List.find (editable changeId employeeId) (propertyPendingChanges db) with
    | None => (db, mkResponse 404 (BMessage "Draft or revision not found"))
    | Some change =>
      (set_changes db
         (update_where (fun c => cid c =? changeId) (with_payload (parsed_form f))
                       (propertyPendingChanges db)),
       mkResponse 200 BSuccess)
    end.

Definition to_pending (c : PendingChange) : PendingChange :=
  mkPendingChange (cid c) (propertyId c) (proposerId c) (proposedPayload c)
    (diffSummary c) pending (reason c) false (createdAt c) (reviewedAt c)
    (reviewedByAdminId c).

Definition submitDraft (db : DB) (changeId employeeId : nat) : DB * Response :=
  match List.find (editable changeId employeeId) (propertyPendingChanges db) with
  | None => (db, mkResponse 404 (BMessage "Draft or revision not found"))
  | Some change =>
    let existingPendingChange :=
      match propertyId change with
      | Some target =>
        List.find (fun c => live_pending target employeeId c && negb (cid c =? changeId))
                  (propertyPendingChanges db)
      | None => None
      end in
    match existingPendingChange with
    | Some existingChange => (db, conflict_response existingChange)
    | None =>
      (set_changes db
         (update_where (fun c => cid c =? changeId) to_pending (propertyPendingChanges db)),
       mkResponse 200 BSuccess)
    end
  end.

Definition discardDraft (db : DB) (changeId employeeId : nat) : DB * Response :=
  match delete_changes
          (fun c => (cid c =? changeId) && (proposerId c =? employeeId) && isDraft c) db with
  | Some db' => (db', mkResponse 200 BSuccess)
  | None => (db, mkResponse 500 (BMessage "Failed to discard draft"))
  end.

(** *** approvePendingChange *)

Inductive ApplyAs := proposed | mergedPayload.

Record ApproveRequest := mkApproveRequest {
  applyAs : ApplyAs;
  ar_mergedPayload : option Payload;
}.

(** The database statements of the approval that may throw, and which of
    them do in a given run.  The canonical write throws, for one, when a
    value of the payload is not of the type of its column (a [price] that
    is no number). *)
Inductive Statement := CanonicalWrite | StatusUpdate | RollbackWrite.

Record Faults := mkFaults {
  canonicalWriteFails : bool;
  statusUpdateFails : bool;
  rollbackFails : bool;
}.

Definition no_faults : Faults := mkFaults false false false.

(** What the inner [try] block throws. *)
Inductive Thrown :=
| DbFailure (s : Statement)
| TypeError.

(** [applyAs === 'mergedPayload' && mergedPayload ? mergedPayload : proposedPayload] *)
Definition chosen_payload (req : ApproveRequest) (proposal : Payload) : Payload :=
  match applyAs req, ar_mergedPayload req with
  | mergedPayload, Some m => m
  | _, _ => proposal
  end.

(** [{ ...payload, updatedAt: new Date() }] with the price rewritten when the
    payload has one. *)
Definition property_updateData (payload : Payload) (now : Z) : Payload :=
  let updateData := <["updatedAt" := JNum now]> payload in
  match payload !! "price" with
  | Some p =>
    <["price" := if bool_decide (p = JNull) || bool_decide (p = JStr "")
                 then JNull else JStr (toString p)]> updateData
  | None => updateData
  end.

(** [.set(data)] on one row: the given columns are overwritten. *)
Definition set_columns (data : Payload) (e : Entity) : Entity :=
  mkEntity (eid e) (spread (columns e) data).

(** Column defaults of [properties] and of [banners]. *)
Definition property_defaults (now : Z) : Payload :=
  <["images" := JList []]> (<["gallery" := JList []]> (<["features" := JList []]>
  (<["amenities" := JList []]> (<["categories" := JList []]>
  (<["type" := JStr "Featured"]> (<["deleted" := JBool false]>
  (<["createdAt" := JNum now]> (<["updatedAt" := JNum now]> ∅)))))))).

Definition banner_defaults (now : Z) : Payload :=
  <["targetRole" := JStr "All"]> (<["isActive" := JBool true]>
  (<["displayOrder" := JNum 0]>
  (<["createdAt" := JNum now]> (<["updatedAt" := JNum now]> ∅)))).

(** [{ ...payload, assignedEmployeeId: proposerId, createdByEmployeeId: proposerId }] *)
Definition stamped (payload : Payload) (proposer : nat) : Payload :=
  <["createdByEmployeeId" := JNum (Z.of_nat proposer)]>
    (<["assignedEmployeeId" := JNum (Z.of_nat proposer)]> payload).

Definition approve_change (adminId : nat) (now : Z) (c : PendingChange) : PendingChange :=
  mkPendingChange (cid c) (propertyId c) (proposerId c) (proposedPayload c)
    (diffSummary c) approved (reason c) (isDraft c) (createdAt c) (Some now)
    (Some adminId).

Definition approve_bannerChange (adminId : nat) (now : Z) (c : BannerChange) : BannerChange :=
  mkBannerChange (bc_id c) (bannerId c) (bc_proposerId c) (bc_proposedPayload c)
    (bc_diffSummary c) approved (bc_reason c) (bc_createdAt c) (Some now)
    (Some adminId).

(** The state of the inner [try] block when it ends: the database, the local
    variables [property] / [banner] and [oldProperty] / [oldBanner], and what
    was thrown, if anything. *)
Record Attempt := mkAttempt {
  at_db : DB;
  at_entity : option Entity;
  at_old : option Entity;
  at_thrown : option Thrown;
}.

(** The canonical write of a property change: an update in place when the
    change has a target, an insert otherwise. *)
Definition property_write (db : DB) (propChange : PendingChange) (payload : Payload)
    (fl : Faults) (now : Z) : Attempt :=
  match propertyId propChange with
  | Some target =>
    let oldProperty := select_entity (properties db) target in
    if canonicalWriteFails fl
    then mkAttempt db None oldProperty (Some (DbFailure CanonicalWrite))
    else
      let P := fun e => eid e =? target in
      let f := set_columns (property_updateData payload now) in
      mkAttempt (set_properties db (update_where P f (properties db)))
                (head (returning P f (properties db))) oldProperty None
  | None =>
    if canonicalWriteFails fl
    then mkAttempt db None None (Some (DbFailure CanonicalWrite))
    else
      let row := mkEntity (nextUuid db)
                   (spread (property_defaults now)
                           (stamped payload (proposerId propChange))) in
      mkAttempt (bump_uuid (set_properties db (properties db ++ [row])))
                (Some row) None None
  end.

Definition banner_write (db : DB) (bannerChange : BannerChange) (payload : Payload)
    (fl : Faults) (now : Z) : Attempt :=
  match bannerId bannerChange with
  | Some target =>
    let oldBanner := select_entity (banners db) target in
    if canonicalWriteFails fl
    then mkAttempt db None oldBanner (Some (DbFailure CanonicalWrite))
    else
      let P := fun e => eid e =? target in
      let f := set_columns (<["updatedAt" := JNum now]> payload) in
      mkAttempt (set_banners db (update_where P f (banners db)))
                (head (returning P f (banners db))) oldBanner None
  | None =>
    if canonicalWriteFails fl
    then mkAttempt db None None (Some (DbFailure CanonicalWrite))
    else
      let row := mkEntity (nextUuid db) (spread (banner_defaults now) payload) in
      mkAttempt (bump_uuid (set_banners db (banners db ++ [row])))
                (Some row) None None
  end.

(** The rest of the [try] block after the canonical write: the status update,
    then [result.id] (a [TypeError] when the update matched no row), the
    audit entry (its failures are swallowed by the audit service) and the
    response.  The result is the state of the block when it ends and either
    what it throws or the response it sends. *)
Definition finalize (a : Attempt) (mark : DB -> DB) (fl : Faults)
    : Attempt * (Thrown + Response) :=
  match at_thrown a with
  | Some error => (a, inl error)
  | None =>
    if statusUpdateFails fl then (a, inl (DbFailure StatusUpdate))
    else
      let a' := mkAttempt (mark (at_db a)) (at_entity a) (at_old a) None in
      match at_entity a with
      | None => (a', inl TypeError)
      | Some result => (a', inr (mkResponse 200 (BEntity result)))
      end
  end.

(** The [catch] block: the snapshot is written back when the write had
    produced a row, the change has a target and a snapshot was read; a
    failure of the rollback itself is logged and dropped.  The caught error
    is thrown again by the caller of [rollback]. *)
Definition rollback (restore : nat -> Entity -> DB -> DB) (target : option nat)
    (a : Attempt) (fl : Faults) : DB :=
  match at_entity a, target, at_old a with
  | Some _, Some t, Some old =>
    if rollbackFails fl then at_db a else restore t old (at_db a)
  | _, _, _ => at_db a
  end.

(** [db.update(properties).set(oldProperty).where(eq(id, target))]: the
    snapshot holds every column of the row. *)
Definition restore_property (target : nat) (old : Entity) (db : DB) : DB :=
  set_properties db (update_where (fun e => eid e =? target) (fun _ => old) (properties db)).

Definition restore_banner (target : nat) (old : Entity) (db : DB) : DB :=
  set_banners db (update_where (fun e => eid e =? target) (fun _ => old) (banners db)).

(** The inner [try]/[catch] for a property change: the database it leaves and
    either the error it throws again or the response it sends. *)
Definition approve_property (db : DB) (propChange : PendingChange) (adminId : nat)
    (req : ApproveRequest) (fl : Faults) (now : Z) : DB * (Thrown + Response) :=
  let payload := chosen_payload req (proposedPayload propChange) in
  let a := property_write db propChange payload fl now in
  let mark := fun d =>
    set_changes d (update_where (fun c => cid c =? cid propChange)
                                (approve_change adminId now) (propertyPendingChanges d)) in
  match finalize a mark fl with
  | (a', inr resp) => (at_db a', inr resp)
  | (a', inl error) =>
    (rollback restore_property (propertyId propChange) a' fl, inl error)
  end.

Definition approve_banner (db : DB) (bannerChange : BannerChange) (adminId : nat)
    (req : ApproveRequest) (fl : Faults) (now : Z) : DB * (Thrown + Response) :=
  let payload := chosen_payload req (bc_proposedPayload bannerChange) in
  let a := banner_write db bannerChange payload fl now in
  let mark := fun d =>
    set_bannerChanges d (update_where (fun c => bc_id c =? bc_id bannerChange)
                                      (approve_bannerChange adminId now)
                                      (bannerPendingChanges d)) in
  match finalize a mark fl with
  | (a', inr resp) => (at_db a', inr resp)
  | (a', inl error) =>
    (rollback restore_banner (bannerId bannerChange) a' fl, inl error)
  end.

Definition reviewable (s : ChangeStatus) : bool :=
  bool_decide (s = pending) || bool_decide (s = needs_revision).

(** The handler body inside the outer [try]. *)
Definition approve_body (db : DB) (changeId adminId : nat) (req : ApproveRequest)
    (fl : Faults) (now : Z) : DB * (Thrown + Response) :=
  match select_change db changeId with
  | Some propChange =>
    if negb (reviewable (status propChange))
    then (db, inr (mkResponse 400 (BMessage "Change already processed")))
    else approve_property db propChange adminId req fl now
  | None =>
    match select_bannerChange db changeId with
    | Some bannerChange =>
      if negb (reviewable (bc_status bannerChange))
      then (db, inr (mkResponse 400 (BMessage "Change already processed")))
      else approve_banner db bannerChange adminId req fl now
    | None => (db, inr (mkResponse 404 (BMessage "Pending change not found")))
    end
  end.

(** The outer [catch] turns anything thrown into a 500. *)
Definition approvePendingChange (db : DB) (changeId adminId : nat) (req : ApproveRequest)
    (fl : Faults) (now : Z) : DB * Response :=
  match approve_body db changeId adminId req fl now with
  | (db', inr resp) => (db', resp)
  | (db', inl _) => (db', mkResponse 500 (BMessage "Failed to approve change"))
  end.

(** *** rejectPendingChange and requestChanges *)

Definition review_change (st : ChangeStatus) (why : string) (adminId : nat) (now : Z)
    (c : PendingChange) : PendingChange :=
  mkPendingChange (cid c) (propertyId c) (proposerId c) (proposedPayload c)
    (diffSummary c) st (Some why) (isDraft c) (createdAt c) (Some now) (Some adminId).

Definition review_bannerChange (st : ChangeStatus) (why : string) (adminId : nat)
    (now : Z) (c : BannerChange) : BannerChange :=
  mkBannerChange (bc_id c) (bannerId c) (bc_proposerId c) (bc_proposedPayload c)
    (bc_diffSummary c) st (Some why) (bc_createdAt c) (Some now) (Some adminId).

(** Both handlers: look the change up in the property table, then in the
    banner table, and overwrite status, reason and reviewer. *)
Definition review (st : ChangeStatus) (db : DB) (changeId adminId : nat)
    (why : string) (now : Z) : DB * Response :=
  if bool_decide (why = "") then (db, mkResponse 400 BZodIssue)
  else
    match select_change db changeId with
    | Some propChange =>
      (set_changes db
         (update_where (fun c => cid c =? changeId) (review_change st why adminId now)
                       (propertyPendingChanges db)),
       mkResponse 200 BSuccess)
    | None =>
      match select_bannerChange db changeId with
      | Some bannerChange =>
        (set_bannerChanges db
           (update_where (fun c => bc_id c =? changeId)
                         (review_bannerChange st why adminId now)
                         (bannerPendingChanges db)),
         mkResponse 200 BSuccess)
      | None => (db, mkResponse 404 (BMessage "Pending change not found"))
      end
    end.

Definition rejectPendingChange (db : DB) (changeId adminId : nat) (reason : string)
    (now : Z) : DB * Response :=
  review rejected db changeId adminId reason now.

Definition requestChanges (db : DB) (changeId adminId : nat) (comments : string)
    (now : Z) : DB * Response :=
  review needs_revision db changeId adminId comments now.

(** *** Sequences of operations *)

Inductive Op :=
| SubmitChange (id employeeId : nat) (data : SubmitRequest) (now : Z)
| CreateProperty (employeeId : nat) (f : PropertyForm) (now : Z)
| Withdraw (changeId employeeId : nat) (moveToDraft : bool)
| UpdateDraft (changeId employeeId : nat) (f : PropertyForm)
| SubmitDraft (changeId employeeId : nat)
| DiscardDraft (changeId employeeId : nat)
| Approve (changeId adminId : nat) (req : ApproveRequest) (fl : Faults) (now : Z)
| Reject (changeId adminId : nat) (reason : string) (now : Z)
| RequestRevision (changeId adminId : nat) (comments : string) (now : Z).

Definition step (db : DB) (op : Op) : DB * Response :=
  match op with
  | SubmitChange id e data now => submitPendingChange db id e data now
  | CreateProperty e f now => createProperty db e f now
  | Withdraw c e m => withdrawPendingChange db c e m
  | UpdateDraft c e f => updateDraft db c e f
  | SubmitDraft c e => submitDraft db c e
  | DiscardDraft c e => discardDraft db c e
  | Approve c a req fl now => approvePendingChange db c a req fl now
  | Reject c a r now => rejectPendingChange db c a r now
  | RequestRevision c a r now => requestChanges db c a r now
  end.

(** The database after a sequence of requests, served one after the other. *)
Definition run (ops : list Op) (db : DB) : DB :=
  fold_left (fun d op => fst (step d op)) ops db.

(** The responses of the same sequence, in order. *)
Fixpoint responses (ops : list Op) (db : DB) : list Response :=
  match ops with
  | [] => []
  | op :: rest => snd (step db op) :: responses rest (fst (step db op))
  end.

(** *** Invariants of the tables *)

(** [property_pending_changes.id] is a primary key, and every identifier in
    use was handed out before [nextUuid]. *)
Definition changes_keyed (db : DB) : Prop :=
  List.NoDup (map cid (propertyPendingChanges db))
  /\ Forall (fun c => cid c < nextUuid db) (propertyPendingChanges db).

(** [uploads.id] is a primary key. *)
Definition uploads_keyed (db : DB) : Prop := List.NoDup (map upid (uploads db)).

(** The number of live pending changes of a (target, proposer) pair. *)
Definition live_count (db : DB) (target proposer : nat) : nat :=
  length (List.filter (live_pending target proposer) (propertyPendingChanges db)).

Definition one_live_pending (db : DB) : Prop :=
  forall target proposer, live_count db target proposer <= 1.



(** Every back-reference of an upload names a pending change proposed by
    the owner of the upload. *)
Definition referenced_by_owner (db : DB) : Prop :=
  forall u c, In u (uploads db) -> referencedByChangeId u = Some c ->
    exists ch, In ch (propertyPendingChanges db) /\ cid ch = c
               /\ proposerId ch = ownerId u.




(** The request lists the upload. *)
Definition lists_upload (data : SubmitRequest) (u : nat) : Prop :=
  exists ids, uploadIds data = Some ids /\ In u ids.


End Moderation.

(* ===================================================================== *)
(** ** The rate limit of loan-request creation *)
(* ===================================================================== *)

Module RateLimit.

(** An entry of [rateLimitMap]. *)
Record Limit := mkLimit { count : nat; resetAt : Z }.

(** [24 * 60 * 60 * 1000] *)
Definition DAY_MS : Z := 24 * 60 * 60 * 1000.

(** [checkRateLimit]: the map after the call and the boolean returned.
    [userLimit.count++] mutates the entry held by the map. *)
Definition checkRateLimit (rateLimitMap : gmap nat Limit) (userId : nat) (now : Z)
    : gmap nat Limit * bool :=
  match rateLimitMap !! userId with
  | None => (<[userId := mkLimit 1 (now + DAY_MS)]> rateLimitMap, true)
  | Some userLimit =>
    if (resetAt userLimit <? now)%Z
    then (<[userId := mkLimit 1 (now + DAY_MS)]> rateLimitMap, true)
    else if 15 <=? count userLimit then (rateLimitMap, false)
    else (<[userId := mkLimit (S (count userLimit)) (resetAt userLimit)]> rateLimitMap,
          true)
  end.

(** The request body before validation.  The amounts are whole numbers, each
    one that a JavaScript number holds exactly. *)
Record LoanRequestBody := mkLoanRequestBody {
  loanType : string;
  propertyCategory : string;
  propertyValue : Z;
  loanAmountNeeded : Z;
  employmentType : string;
  monthlyIncome : Z;
  preferredTenure : string;
  existingLoans : bool;
  existingLoanDetails : option string;
  preferredContactTime : string;
  additionalNotes : option string;
}.

Definition one_of (l : list string) (s : string) : bool :=
  existsb (fun x => bool_decide (x = s)) l.

Definition is_space (a : Ascii.ascii) : bool :=
  existsb (fun n => (Ascii.nat_of_ascii a =? n)) [9; 10; 11; 12; 13; 32].

(** The white space of JavaScript that takes three bytes: U+1680, U+2000 to
    U+200A, U+2028, U+2029, U+202F, U+205F, U+3000 and U+FEFF. *)
Definition wide_space (x y z : nat) : bool :=
  ((x =? 225) && (y =? 154) && (z =? 128))
  || ((x =? 226) && (y =? 128)
      && (((128 <=? z) && (z <=? 138)) || (z =? 168) || (z =? 169) || (z =? 175)))
  || ((x =? 226) && (y =? 129) && (z =? 159))
  || ((x =? 227) && (y =? 128) && (z =? 128))
  || ((x =? 239) && (y =? 187) && (z =? 191)).

(** [s.trim().length > 0]: some character is not white space (the ASCII
    white space, U+00A0, or one of the wide ones). *)
Fixpoint has_text (s : string) : bool :=
  match s with
  | EmptyString => false
  | String a r1 =>
    if is_space a then has_text r1
    else
      match r1 with
      | EmptyString => true
      | String b r2 =>
        if (Ascii.nat_of_ascii a =? 194) && (Ascii.nat_of_ascii b =? 160)
        then has_text r2
        else
          match r2 with
          | EmptyString => true
          | String c r3 =>
            if wide_space (Ascii.nat_of_ascii a) (Ascii.nat_of_ascii b)
                          (Ascii.nat_of_ascii c)
            then has_text r3
            else true
          end
      end
  end.

(** [loanRequestSchema]: the field checks and the two refinements. *)
Definition loanRequestSchema_ok (b : LoanRequestBody) : bool :=
  one_of ["Home Loan"; "Plot Loan"; "Construction Loan"; "Home Improvement Loan";
          "Balance Transfer"; "Top-Up Loan"] (loanType b)
  && negb (bool_decide (propertyCategory b = ""))
  && (0 <? propertyValue b)%Z
  && (0 <? loanAmountNeeded b)%Z
  && one_of ["Salaried"; "Self-Employed"; "Business Owner"; "Freelancer"]
            (employmentType b)
  && (0 <? monthlyIncome b)%Z
  && one_of ["5 Years"; "10 Years"; "15 Years"; "20 Years"; "25 Years"; "30 Years"]
            (preferredTenure b)
  && one_of ["Morning (9–12)"; "Afternoon (12–4)"; "Evening (4–7)"]
            (preferredContactTime b)
  && match additionalNotes b with
     | Some n => js_length n <=? 1000
     | None => true
     end
  && (loanAmountNeeded b <=? propertyValue b)%Z
  && (negb (existingLoans b)
      || match existingLoanDetails b with
         | Some d => has_text d
         | None => false
         end).

Record User := mkUser {
  uid : nat;
  name : option string;
  email : option string;
  phone : string;
  city : option string;
}.

(** The columns of [loan_requests] written at creation. *)
Record LoanRequest := mkLoanRequest {
  lid : nat;
  userId : nat;
  userName : string;
  userEmail : string;
  userPhone : string;
  userLocation : option string;
  details : LoanRequestBody;
  status : string;
  slaDueAt : Z;
  lastActivityAt : Z;
}.

(** The process: the module-level [rateLimitMap] and the database. *)
Record Server := mkServer {
  rateLimitMap : gmap nat Limit;
  users : list User;
  loanRequests : list LoanRequest;
  nextUuid : nat;
}.

Inductive Body :=
| BCreated (id : nat) (st : string) (message : string)
| BMessage (message : string)
| BZodIssue.

Record Response := mkResponse { code : nat; body : Body }.

(** The largest value of a [bigint] column. *)
Definition BIGINT_MAX : Z := 9223372036854775807.

Definition opt_has_nul (o : option string) : bool :=
  match o with
  | Some t => has_nul t
  | None => false
  end.

(** The values of a validated body as the insert stores them, or nothing
    when the statement fails: an amount beyond [bigint], a text with
    U+0000, or a property category that does not fit [varchar(50)].  The two
    optional texts are stored as [x || null]. *)
Definition stored_details (b : LoanRequestBody) : option LoanRequestBody :=
  if (BIGINT_MAX <? propertyValue b)%Z || (BIGINT_MAX <? loanAmountNeeded b)%Z
     || (BIGINT_MAX <? monthlyIncome b)%Z
     || has_nul (propertyCategory b) || opt_has_nul (existingLoanDetails b)
     || opt_has_nul (additionalNotes b)
  then None
  else
    match varchar 50 (propertyCategory b) with
    | None => None
    | Some category =>
      Some (mkLoanRequestBody (loanType b) category (propertyValue b)
              (loanAmountNeeded b) (employmentType b) (monthlyIncome b)
              (preferredTenure b) (existingLoans b)
              (or_null (existingLoanDetails b)) (preferredContactTime b)
              (or_null (additionalNotes b)))
    end.

Definition createLoanRequest (s : Server) (userId : nat) (body : LoanRequestBody)
    (now : Z) : Server * Response :=
  let (m, allowed) := checkRateLimit (rateLimitMap s) userId now in
  let s1 := mkServer m (users s) (loanRequests s) (nextUuid s) in
  if negb allowed then
    (s1, mkResponse 429
           (BMessage "Rate limit exceeded. Maximum 5 loan requests per day."))
  else if negb (loanRequestSchema_ok body) then (s1, mkResponse 400 BZodIssue)
  else
    match List.find (fun u => uid u =? userId) (users s1) with
    | None => (s1, mkResponse 404 (BMessage "User not found"))
    | Some user =>
      match stored_details body with
      | None =>
        (s1, mkResponse 500
               (BMessage "Failed to submit loan request. Please try again."))
      | Some stored =>
        let loanRequest :=
          mkLoanRequest (nextUuid s1) userId
            (str_or (name user) "Unknown")
            (str_or (email user) (phone user))
            (phone user) (or_null (city user)) stored
            "received" (now + DAY_MS) now in
        (mkServer m (users s1) (loanRequests s1 ++ [loanRequest]) (S (nextUuid s1)),
         mkResponse 201
           (BCreated (lid loanRequest) (status loanRequest)
              "Loan request received successfully. Our finance team will contact you soon."))
      end
    end.

(** The user has no entry, or an entry whose window is over at [now]: the
    next call opens a window. *)
Definition opens_window (s : Server) (userId : nat) (now : Z) : Prop :=
  match rateLimitMap s !! userId with
  | None => True
  | Some userLimit => (resetAt userLimit < now)%Z
  end.

Definition rate_limited : Response :=
  mkResponse 429 (BMessage "Rate limit exceeded. Maximum 5 loan requests per day.").

(** A call: when, and with which body. *)
Record Call := mkCall { c_now : Z; c_body : LoanRequestBody }.

(** The server after a sequence of calls of one user. *)
Definition serve (userId : nat) (calls : list Call) (s : Server) : Server :=
  fold_left (fun st c => fst (createLoanRequest st userId (c_body c) (c_now c))) calls s.

(** The status codes of the answers to these calls, in order. *)
Fixpoint answers (userId : nat) (calls : list Call) (s : Server) : list nat :=
  match calls with
  | [] => []
  | c :: rest =>
    code (snd (createLoanRequest s userId (c_body c) (c_now c)))
    :: answers userId rest (fst (createLoanRequest s userId (c_body c) (c_now c)))
  end.

(** The call is served as if there were no limiter: it is not answered 429;
    a body that fails the schema is answered 400 and stores nothing; a body
    that passes it, from a caller who is a user, with values the table can
    hold, is answered 201 and one row of the caller is appended; and no
    answer but 201 comes with a new row. *)
Definition let_through (s : Server) (userId : nat) (c : Call) : Prop :=
  let out := createLoanRequest s userId (c_body c) (c_now c) in
  code (snd out) <> 429
  /\ (loanRequestSchema_ok (c_body c) = false ->
      code (snd out) = 400 /\ loanRequests (fst out) = loanRequests s)
  /\ (loanRequestSchema_ok (c_body c) = true ->
      (exists user, In user (users s) /\ uid user = userId) ->
      stored_details (c_body c) <> None ->
      code (snd out) = 201
      /\ exists row, loanRequests (fst out) = loanRequests s ++ [row]
                     /\ userId = RateLimit.userId row)
  /\ (code (snd out) <> 201 -> loanRequests (fst out) = loanRequests s).

End RateLimit.

(* ===================================================================== *)
(** ** Comments, dashboard counters and the SLA setting of the ticket desk *)
(* ===================================================================== *)

Module TicketDesk.
Import Tickets.

(** [req.user!.userId] of a mutation: the authenticated caller. *)
Definition actor_of (m : Mutation) : nat :=
  match m with
  | Take financeId => financeId
  | ChangeStatus financeId _ => financeId
  | AdminChangeStatus adminId _ => adminId
  | Reassign adminId _ => adminId
  | Escalate adminId _ => adminId
  end.

(** *** addLoanRequestComment and addAdminLoanRequestComment *)

(** A row of [loan_request_comments]. *)
Record Comment := mkComment {
  cm_id : nat;
  cm_loanRequestId : nat;
  cm_authorId : nat;
  cm_text : string;
  cm_isPublic : bool;
  cm_createdAt : Z;
}.

(** The ticket tables together with the comment table; [nextUuid] stands
    for [defaultRandom()]. *)
Record Desk := mkDesk {
  tickets : DB;
  loanRequestComments : list Comment;
  nextUuid : nat;
}.

Record CommentRequest := mkCommentRequest {
  cr_text : string;
  cr_isPublic : option bool;
}.

(** [text: z.string().min(1).max(1000)] *)
Definition comment_schema_ok (r : CommentRequest) : bool :=
  (1 <=? js_length (cr_text r)) && (js_length (cr_text r) <=? 1000).

(** [users] has a row with this id: what the foreign key [author_id] of the
    comment table (and [actor_id] of the audit table) asks for. *)
Definition is_user (db : DB) (id : nat) : bool :=
  existsb (fun u => uid u =? id) (users db).

Inductive CommentBody :=
| CBComment (comment : Comment) (authorName : string)
| CBMessage (message : string)
| CBZodIssue.

Record CommentResponse := mkCommentResponse { c_code : nat; c_body : CommentBody }.

(** [.set({ lastActivityAt: new Date() })] *)
Definition touch (now : Z) (t : LoanRequest) : LoanRequest :=
  mkLoanRequest (tid t) (status t) (assigneeId t) (version t)
    (priority t) (isEscalated t) (escalationReason t) now (updatedAt t) (deletedAt t).

(** Both handlers.  The comment is inserted first: the statement fails, and
    the handler answers 500 with nothing written, when the author is no row
    of [users] or the text holds U+0000.  Then the ticket's [lastActivityAt]
    is set by id alone, an audit entry keeps [text.substring(0, 100)], and
    the author's name is looked up ([author?.name || fallback]). *)
Definition add_comment (fallback : string) (d : Desk) (id authorId : nat)
    (r : CommentRequest) (now : Z) : Desk * CommentResponse :=
  if negb (comment_schema_ok r) then (d, mkCommentResponse 400 CBZodIssue)
  else
    match select_live (tickets d) id with
    | None => (d, mkCommentResponse 404 (CBMessage "Loan request not found"))
    | Some existing =>
      if negb (is_user (tickets d) authorId) || has_nul (cr_text r)
      then (d, mkCommentResponse 500 (CBMessage "Failed to add comment"))
      else
      let comment :=
        mkComment (nextUuid d) id authorId (cr_text r)
          (match cr_isPublic r with Some b => b | None => false end) now in
      let db1 := set_loanRequests (tickets d)
                   (update_where (fun t => tid t =? id) (touch now)
                                 (loanRequests (tickets d))) in
      let db2 := createAuditLog db1 id authorId "comment_added" None
                   (Some (js_substring 100 (cr_text r))) None in
      (mkDesk db2 (loanRequestComments d ++ [comment]) (S (nextUuid d)),
       mkCommentResponse 200
         (CBComment comment (str_or (user_name db2 authorId) fallback)))
    end.

Definition addLoanRequestComment : Desk -> nat -> nat -> CommentRequest -> Z
    -> Desk * CommentResponse :=
  add_comment "Unknown".

Definition addAdminLoanRequestComment : Desk -> nat -> nat -> CommentRequest -> Z
    -> Desk * CommentResponse :=
  add_comment "Admin".

(** *** getFinanceLoanRequestStats *)

Record FinanceStats := mkFinanceStats {
  total : nat;
  myTickets : nat;
  unassigned : nat;
  byStatus_received : nat;
  byStatus_under_review : nat;
  byStatus_contacted : nat;
  byStatus_closed : nat;
}.

(** [select({ count: count() }).from(loanRequests).where(and(P, isNull(deletedAt)))] *)
Definition count_live (P : LoanRequest -> bool) (db : DB) : nat :=
  length (List.filter (fun t => P t && is_null (deletedAt t)) (loanRequests db)).

Definition getFinanceLoanRequestStats (db : DB) (financeId : nat) : FinanceStats :=
  mkFinanceStats
    (length (List.filter (fun t => is_null (deletedAt t)) (loanRequests db)))
    (count_live (fun t => bool_decide (assigneeId t = Some financeId)) db)
    (count_live (fun t => is_null (assigneeId t)) db)
    (count_live (fun t => bool_decide (status t = received)) db)
    (count_live (fun t => bool_decide (status t = under_review)) db)
    (count_live (fun t => bool_decide (status t = contacted)) db)
    (count_live (fun t => bool_decide (status t = closed)) db).

(** *** getSlaConfig and updateSlaConfig *)

(** A row of [admin_sla_configs]; [configValue] is the object [{ hours }]. *)
Record SlaConfig := mkSlaConfig {
  configKey : string;
  hours : QArith_base.Q;
  updatedBy : option nat;
  sc_updatedAt : Z;
}.

(** What [getSlaConfig] sends: the stored row, or the literal default. *)
Inductive SlaAnswer :=
| SlaStored (config : SlaConfig)
| SlaDefault (key : string) (hrs : QArith_base.Q).

Definition is_sla_row (c : SlaConfig) : bool :=
  bool_decide (configKey c = "loan_request_sla_hours").

Definition getSlaConfig (rows : list SlaConfig) : SlaAnswer :=
  match List.find is_sla_row rows with
  | Some config => SlaStored config
  | None => SlaDefault "loan_request_sla_hours" (QArith_base.inject_Z 24)
  end.

(** [hours: z.number().min(1).max(168)] *)
Definition hours_schema_ok (h : QArith_base.Q) : bool :=
  QArith_base.Qle_bool (QArith_base.inject_Z 1) h
  && QArith_base.Qle_bool h (QArith_base.inject_Z 168).

Definition sla_set (h : QArith_base.Q) (adminId : nat) (now : Z) (c : SlaConfig)
    : SlaConfig :=
  mkSlaConfig (configKey c) h (Some adminId) now.

(** The table after the call and the answer: [None] for the 400 of the
    schema, otherwise [{ success: true, config: updated }] where [updated]
    is the first row the update returned, if any. *)
Definition updateSlaConfig (rows : list SlaConfig) (adminId : nat)
    (h : QArith_base.Q) (now : Z) : list SlaConfig * option (option SlaConfig) :=
  if negb (hours_schema_ok h) then (rows, None)
  else
    (update_where is_sla_row (sla_set h adminId now) rows,
     Some (head (returning is_sla_row (sla_set h adminId now) rows))).

End TicketDesk.

(* ===================================================================== *)
(** ** Views of the pending-change engine *)
(* ===================================================================== *)

Module ModerationViews.
Import Moderation.

(** The one request served by an admin that writes canonical tables. *)
Definition is_approval (op : Op) : bool :=
  match op with
  | Approve _ _ _ _ _ => true
  | _ => false
  end.

(** The foreign key of [property_pending_changes_idempotency.change_id]:
    every recorded key names a stored change. *)
Definition idempotency_sound (db : DB) : Prop :=
  forall k c, propertyPendingChangesIdempotency db !! k = Some c ->
    exists row, In row (propertyPendingChanges db) /\ cid row = c.

(** The columns of [properties] that store a text as it is given: the
    [text] columns, and the [varchar(n)] columns with their length. *)
Definition text_columns : list (string * option nat) :=
  [("title", Some 255); ("location", Some 255); ("description", None);
   ("brochureUrl", None); ("map", Some 500); ("website", Some 500);
   ("type", Some 50)].

(** The [jsonb] columns of [properties], which hold lists of texts. *)
Definition list_columns : list string :=
  ["images"; "gallery"; "features"; "amenities"; "categories"].

(** The text is within the length of the column. *)
Definition fits (limit : option nat) (t : string) : bool :=
  match limit with
  | Some n => char_length t <=? n
  | None => true
  end.

End ModerationViews.

(* ===================================================================== *)
(** ** The banner proposals of employees *)
(* ===================================================================== *)

Module Banners.
Import Moderation.

(** The body accepted by [bannerSchema], before defaults. *)
Record BannerForm := mkBannerForm {
  bf_imageUrl : string;
  bf_title : string;
  bf_subtitle : string;
  bf_targetRole : option string;
  bf_isActive : option bool;
  bf_displayOrder : option Z;
}.


Inductive Body :=
| BCreated (changeId : nat) (st : ChangeStatus) (created_at : Z)
| BMessage (message : string)
| BZodIssue
| BConflict (message : string) (existingChangeId : nat) (existingChangeTitle : JVal)
| BSuccess.

Record Response := mkResponse { code : nat; body : Body }.

Section Handlers.

(** [z.string().url()]: whether the string is accepted as a URL. *)
Variable is_url : string -> bool.

Definition bannerSchema_ok (f : BannerForm) : bool :=
  is_url (bf_imageUrl f)
  && negb (bool_decide (bf_title f = ""))
  && negb (bool_decide (bf_subtitle f = ""))
  && match bf_targetRole f with
     | Some r => existsb (fun x => bool_decide (x = r)) ["All"; "Agent"; "Customer"; "Employee"]
     | None => true
     end.

(** The parsed object, with the defaults of the schema. *)
Definition banner_payload (f : BannerForm) : Payload :=
  <["imageUrl" := JStr (bf_imageUrl f)]>
  (<["title" := JStr (bf_title f)]>
  (<["subtitle" := JStr (bf_subtitle f)]>
  (<["targetRole" := JStr (match bf_targetRole f with Some r => r | None => "All" end)]>
  (<["isActive" := JBool (match bf_isActive f with Some b => b | None => true end)]>
  (<["displayOrder" := JNum (match bf_displayOrder f with Some n => n | None => 0%Z end)]>
     ∅))))).




(** [checkExistingPendingChange] *)
Definition checkExistingPendingChange (db : DB) (banner employeeId : nat)
    (excludeChangeId : option nat) : option BannerChange :=
  List.find (fun c => bool_decide (bannerId c = Some banner)
                      && (bc_proposerId c =? employeeId)
                      && bool_decide (bc_status c = pending)
                      && match excludeChangeId with
                         | Some x => negb (bc_id c =? x)
                         | None => true
                         end)
            (bannerPendingChanges db).

(** [a || b || 'this banner'] on two optional JSON values. *)
Definition title_or (a b : option JVal) : JVal :=
  match a with
  | Some t => if truthy t then t
              else match b with
                   | Some u => if truthy u then u else JStr "this banner"
                   | None => JStr "this banner"
                   end
  | None => match b with
            | Some u => if truthy u then u else JStr "this banner"
            | None => JStr "this banner"
            end
  end.

Definition banner_conflict (existingChange : BannerChange) (bannerTitle : JVal) : Response :=
  mkResponse 409
    (BConflict
       ("There is already a pending change for " ++ toString bannerTitle
          ++ " under review. Please withdraw the existing banner change before submitting a new one.")
       (bc_id existingChange) bannerTitle).




Definition with_status (st : ChangeStatus) (c : BannerChange) : BannerChange :=
  mkBannerChange (bc_id c) (bannerId c) (bc_proposerId c) (bc_proposedPayload c)
    (bc_diffSummary c) st (bc_reason c) (bc_createdAt c) (bc_reviewedAt c)
    (bc_reviewedByAdminId c).

Definition delete_bannerChanges (P : BannerChange -> bool) (db : DB) : DB :=
  set_bannerChanges db (List.filter (fun c => negb (P c)) (bannerPendingChanges db)).


(** The row a banner draft handler works on. *)
Definition banner_editable (changeId employeeId : nat) (c : BannerChange) : bool :=
  (bc_id c =? changeId) && (bc_proposerId c =? employeeId)
  && (bool_decide (bc_status c = draft) || bool_decide (bc_status c = needs_revision)).

Definition with_bannerPayload (p : Payload) (c : BannerChange) : BannerChange :=
  mkBannerChange (bc_id c) (bannerId c) (bc_proposerId c) p
    (bc_diffSummary c) (bc_status c) (bc_reason c) (bc_createdAt c) (bc_reviewedAt c)
    (bc_reviewedByAdminId c).

Definition updateBannerDraft (db : DB) (changeId employeeId : nat) (f : BannerForm)
    : DB * Response :=
  if negb (bannerSchema_ok f) then (db, mkResponse 400 BZodIssue)
  else
    match List.find (banner_editable changeId employeeId) (bannerPendingChanges db) with
    | None => (db, mkResponse 404 (BMessage "Draft or revision not found"))
    | Some change =>
      (set_bannerChanges db
         (update_where (fun c => bc_id c =? changeId) (with_bannerPayload (banner_payload f))
                       (bannerPendingChanges db)),
       mkResponse 200 BSuccess)
    end.

Definition submitBannerDraft (db : DB) (changeId employeeId : nat) : DB * Response :=
  match List.find (banner_editable changeId employeeId) (bannerPendingChanges db) with
  | None => (db, mkResponse 404 (BMessage "Draft or revision not found"))
  | Some change =>
    let existing :=
      match bannerId change with
      | Some target => checkExistingPendingChange db target employeeId (Some changeId)
      | None => None
      end in
    match existing with
    | Some existingChange =>
      (db, banner_conflict existingChange
             (title_or (bc_proposedPayload existingChange !! "title")
                       (bc_proposedPayload change !! "title")))
    | None =>
      (set_bannerChanges db
         (update_where (fun c => bc_id c =? changeId) (with_status pending)
                       (bannerPendingChanges db)),
       mkResponse 200 BSuccess)
    end
  end.

Definition discardBannerDraft (db : DB) (changeId employeeId : nat) : DB * Response :=
  (delete_bannerChanges
     (fun c => (bc_id c =? changeId) && (bc_proposerId c =? employeeId)
               && bool_decide (bc_status c = draft)) db,
   mkResponse 200 BSuccess).

End Handlers.

End Banners.

(* ===================================================================== *)
(** ** Agent and customer accounts *)
(* ===================================================================== *)

Module Accounts.

(** The columns of [users] read or written by the admin handlers for
    agents and customers. *)
Record User := mkUser {
  uid : nat;
  name : option string;
  email : option string;
  phone : string;
  role : option string;
  approved : option bool;
  approvedAt : option Z;
  rejectedReason : option string;
  rejectedAt : option Z;
  assignedEmployeeId : option nat;
  referredByAgentId : option nat;
  deleted : option bool;
  deletedAt : option Z;
  deletedByAdminId : option nat;
}.

(** A row of [admin_audit_logs]; [details] is the JSON object stored. *)
Record AdminAuditLog := mkAdminAuditLog {
  adminId : nat;
  actionType : string;
  targetType : option string;
  targetId : option nat;
  details : Moderation.Payload;
}.

Record DB := mkDB {
  users : list User;
  adminAuditLogs : list AdminAuditLog;
}.

Inductive Body :=
| BSuccess
| BActionTaken (actionTaken : string)
| BMessage (message : string)
| BZodIssue
| BUser (user : option User)
| BAgent (agent : User) (referredCustomers : list User)
| BBulk (deleted : list nat) (failed : list (nat * string)).

Record Response := mkResponse { code : nat; body : Body }.

Definition lower (a : Ascii.ascii) : Ascii.ascii :=
  let n := Ascii.nat_of_ascii a in
  if (65 <=? n) && (n <=? 90) then Ascii.ascii_of_nat (n + 32) else a.

Fixpoint lowercase (s : string) : string :=
  match s with
  | EmptyString => EmptyString
  | String a rest => String (lower a) (lowercase rest)
  end.

(** [ilike(column, pattern)] for a pattern without wildcards (the handlers
    pass ['agent'] and ['customer']): equality up to the case of ASCII
    letters; [NULL] matches nothing. *)
Definition ilike (column : option string) (pattern : string) : bool :=
  match column with
  | Some s => bool_decide (lowercase s = lowercase pattern)
  | None => false
  end.

(** [and(ilike(users.role, pattern), eq(users.deleted, false))] *)
Definition live (pattern : string) (u : User) : bool :=
  ilike (role u) pattern && bool_decide (deleted u = Some false).

(** [select().from(users).where(and(eq(id), ilike(role), eq(deleted, false))).limit(1)] *)
Definition select_account (pattern : string) (db : DB) (id : nat) : option User :=
  List.find (fun u => (uid u =? id) && live pattern u) (users db).

Definition set_users (db : DB) (rows : list User) : DB :=
  mkDB rows (adminAuditLogs db).

(** [auditService.log(adminId, actionType, 'user', targetId, details)] *)
Definition log (db : DB) (admin : nat) (action : string) (target : nat)
    (data : Moderation.Payload) : DB :=
  mkDB (users db)
       (adminAuditLogs db ++ [mkAdminAuditLog admin action (Some "user") (Some target) data]).

(** A nullable string column inside a JSON object. *)
Definition opt_str (o : option string) : Moderation.JVal :=
  match o with
  | Some s => Moderation.JStr s
  | None => Moderation.JNull
  end.

(** [.set({ deleted: true, deletedAt: new Date(), deletedByAdminId: adminId })] *)
Definition soft_delete (admin : nat) (now : Z) (u : User) : User :=
  mkUser (uid u) (name u) (email u) (phone u) (role u) (approved u) (approvedAt u)
    (rejectedReason u) (rejectedAt u) (assignedEmployeeId u) (referredByAgentId u)
    (Some true) (Some now) (Some admin).

Definition by_id (id : nat) (u : User) : bool := uid u =? id.

(** What tells the agent handlers from the customer handlers: the role
    pattern, the messages, the audit actions and the audit details. *)
Record Kind := mkKind {
  pattern : string;
  invalid_id : string;
  not_found : string;
  delete_action : string;
  delete_details : User -> Moderation.Payload;
  too_many : Body;
  none_given : string;
  bulk_reason : string;
  bulk_action : string;
  bulk_details : option User -> Moderation.Payload;
}.

Definition agent_kind : Kind :=
  mkKind "agent" "Invalid agent ID" "Agent not found" "delete_agent"
    (fun a => <["agentName" := opt_str (name a)]> ∅)
    BZodIssue "No agent IDs provided" "Agent not found or already deleted"
    "bulk_delete_agent"
    (fun a => <["bulkOperation" := Moderation.JBool true]>
                match a with
                | Some a => <["agentName" := opt_str (name a)]> ∅
                | None => ∅
                end).

Definition customer_kind : Kind :=
  mkKind "customer" "Invalid customer ID" "Customer not found" "delete_customer"
    (fun c => <["customerName" := opt_str (name c)]>
                (<["customerEmail" := opt_str (email c)]>
                   (<["customerPhone" := Moderation.JStr (phone c)]> ∅)))
    (BMessage "Cannot delete more than 100 customers at once")
    "No customer IDs provided" "Customer not found or already deleted"
    "bulk_delete_customer"
    (fun c => <["bulkOperation" := Moderation.JBool true]>
                match c with
                | Some c => <["customerName" := opt_str (name c)]>
                              (<["customerEmail" := opt_str (email c)]>
                                 (<["customerPhone" := Moderation.JStr (phone c)]> ∅))
                | None => ∅
                end).

(** *** deleteAgent and deleteCustomer *)

(** [id] is [parseInt(req.params.id)], [None] when that is [NaN]. *)
Definition delete_account (k : Kind) (db : DB) (id : option nat) (admin : nat) (now : Z)
    : DB * Response :=
  match id with
  | None => (db, mkResponse 400 (BMessage (invalid_id k)))
  | Some id =>
    match select_account (pattern k) db id with
    | None => (db, mkResponse 404 (BMessage (not_found k)))
    | Some account =>
      let db1 := set_users db (update_where (by_id id) (soft_delete admin now) (users db)) in
      (log db1 admin (delete_action k) id (delete_details k account),
       mkResponse 200 BSuccess)
    end
  end.

Definition deleteAgent : DB -> option nat -> nat -> Z -> DB * Response :=
  delete_account agent_kind.

Definition deleteCustomer : DB -> option nat -> nat -> Z -> DB * Response :=
  delete_account customer_kind.

(** *** bulkDeleteAgents and bulkDeleteCustomers *)

(** One turn of the loop over [ids]: the database and the two result
    lists.  [snapshot] and [validIds] were read before the loop. *)
Definition bulk_turn (k : Kind) (admin : nat) (now : Z) (snapshot : list User)
    (validIds : list nat) (acc : DB * list nat * list (nat * string)) (id : nat)
    : DB * list nat * list (nat * string) :=
  let '(db, deleted, failed) := acc in
  if negb (existsb (Nat.eqb id) validIds)
  then (db, deleted, failed ++ [(id, bulk_reason k)])
  else
    let account := List.find (by_id id) snapshot in
    let db1 := set_users db (update_where (by_id id) (soft_delete admin now) (users db)) in
    (log db1 admin (bulk_action k) id (bulk_details k account), deleted ++ [id], failed).

Definition bulk_delete (k : Kind) (db : DB) (ids : list nat) (admin : nat) (now : Z)
    : DB * Response :=
  if 100 <? length ids then (db, mkResponse 400 (too_many k))
  else
    match ids with
    | [] => (db, mkResponse 400 (BMessage (none_given k)))
    | _ =>
      let snapshot := List.filter (live (pattern k)) (users db) in
      let validIds :=
        map uid (List.filter (fun a => existsb (Nat.eqb (uid a)) ids) snapshot) in
      let '(db', deleted, failed) :=
        fold_left (bulk_turn k admin now snapshot validIds) ids (db, [], []) in
      (db', mkResponse 200 (BBulk deleted failed))
    end.

Definition bulkDeleteAgents : DB -> list nat -> nat -> Z -> DB * Response :=
  bulk_delete agent_kind.

Definition bulkDeleteCustomers : DB -> list nat -> nat -> Z -> DB * Response :=
  bulk_delete customer_kind.

(** *** getCustomerById and getAgentById *)

Definition getCustomerById (db : DB) (id : option nat) : Response :=
  match id with
  | None => mkResponse 400 (BMessage "Invalid customer ID")
  | Some id =>
    match select_account "customer" db id with
    | None => mkResponse 404 (BMessage "Customer not found")
    | Some customer => mkResponse 200 (BUser (Some customer))
    end
  end.

(** The referred customers are sent with their id, name, email, phone and
    picture. *)
Definition getAgentById (db : DB) (id : option nat) : Response :=
  match id with
  | None => mkResponse 400 (BMessage "Invalid agent ID")
  | Some id =>
    match select_account "agent" db id with
    | None => mkResponse 404 (BMessage "Agent not found")
    | Some agent =>
      mkResponse 200
        (BAgent agent
           (List.filter (fun u => bool_decide (referredByAgentId u = Some id)
                                  && live "customer" u) (users db)))
    end
  end.

(** *** approveAgent and rejectAgent *)

Definition is_true (o : option bool) : bool :=
  match o with Some b => b | None => false end.

(** [updateData]: approval, with the rejection cleared, and the assignment
    when [assign_to_employee_id] is truthy. *)
Definition approve_set (assign_to : option nat) (now : Z) (u : User) : User :=
  mkUser (uid u) (name u) (email u) (phone u) (role u) (Some true) (Some now)
    None None
    (if truthy_num assign_to then assign_to else assignedEmployeeId u)
    (referredByAgentId u) (deleted u) (deletedAt u) (deletedByAdminId u).

Definition approveAgent (db : DB) (id : option nat) (admin : nat)
    (assign_to_employee_id : option nat) (now : Z) : DB * Response :=
  match id with
  | None => (db, mkResponse 400 (BMessage "Invalid agent ID"))
  | Some id =>
    match select_account "agent" db id with
    | None => (db, mkResponse 404 (BMessage "Agent not found"))
    | Some agent =>
      if is_true (approved agent)
      then (db, mkResponse 400 (BMessage "Agent already approved"))
      else
        let db1 := set_users db
                     (update_where (by_id id) (approve_set assign_to_employee_id now)
                                   (users db)) in
        let db2 :=
          log db1 admin "approve_agent" id
            (<["agentName" := opt_str (name agent)]>
               (<["agentEmail" := opt_str (email agent)]>
                  match assign_to_employee_id with
                  | Some e => <["assignedEmployeeId" := Moderation.JNum (Z.of_nat e)]> ∅
                  | None => ∅
                  end)) in
        (db2, mkResponse 200 (BUser (List.find (by_id id) (users db2))))
    end
  end.

Inductive RejectAction := delete | retain.

Definition flag_set (reason : string) (now : Z) (u : User) : User :=
  mkUser (uid u) (name u) (email u) (phone u) (role u) (Some false) (approvedAt u)
    (Some reason) (Some now) (assignedEmployeeId u) (referredByAgentId u)
    (deleted u) (deletedAt u) (deletedByAdminId u).

Definition rejectAgent (db : DB) (id : option nat) (admin : nat) (reason : string)
    (action : RejectAction) (now : Z) : DB * Response :=
  if bool_decide (reason = "")
  then (db, mkResponse 400 (BMessage "Rejection reason is required"))
  else
    match id with
    | None => (db, mkResponse 400 (BMessage "Invalid agent ID"))
    | Some id =>
      match select_account "agent" db id with
      | None => (db, mkResponse 404 (BMessage "Agent not found"))
      | Some agent =>
        let data := <["agentName" := opt_str (name agent)]>
                      (<["reason" := Moderation.JStr reason]> ∅) in
        match action with
        | delete =>
          let db1 := set_users db
                       (update_where (by_id id) (soft_delete admin now) (users db)) in
          (log db1 admin "reject_delete_agent" id data,
           mkResponse 200 (BActionTaken "deleted"))
        | retain =>
          (* [rejectedReason] is a [varchar(500)] column *)
          match varchar 500 reason with
          | None => (db, mkResponse 500 (BMessage "Failed to reject agent"))
          | Some stored =>
            let db1 := set_users db
                         (update_where (by_id id) (flag_set stored now) (users db)) in
            (log db1 admin "reject_agent" id data,
             mkResponse 200 (BActionTaken "flagged"))
          end
        end
      end
    end.

(** [users.id] is a primary key. *)
Definition users_keyed (db : DB) : Prop := List.NoDup (map uid (users db)).

(** Some user with this id is a live account of the role (as a boolean). *)
Definition has_account (pattern : string) (db : DB) (id : nat) : bool :=
  existsb (fun u => by_id id u && live pattern u) (users db).

End Accounts.

(* ===================================================================== *)
(** ** Properties of the ticket workflow *)
(* ===================================================================== *)

(** Tables with a primary key: facts about [update_where] and [returning]. *)
(** *** Text *)

Lemma ascii_byte a :
  (Ascii.nat_of_ascii a <? 128) = true -> continuation a = false /\ astral a = false.
Proof.
  unfold continuation, astral. intros H. apply Nat.ltb_lt in H. split.
  - apply andb_false_iff. left. apply Nat.leb_gt. lia.
  - apply Nat.leb_gt. lia.
Qed.

(** On a text of ASCII characters the code units are the bytes. *)
Lemma js_length_ascii s : is_ascii s = true -> js_length s = String.length s.
Proof.
  induction s as [|a s IH]; [reflexivity|]. cbn [is_ascii js_length String.length].
  intros H. apply andb_prop in H as [Ha Hs].
  destruct (ascii_byte a Ha) as [-> ->]. now rewrite IH.
Qed.

Lemma js_substring_ascii s : forall n,
  is_ascii s = true -> js_substring n s = String.substring 0 n s.
Proof.
  induction s as [|a s IH]; intros n H.
  - now destruct n.
  - cbn [is_ascii] in H. apply andb_prop in H as [Ha Hs].
    cbn [js_substring]. destruct (ascii_byte a Ha) as [-> ->].
    destruct n as [|n]; [reflexivity|]. cbn [String.substring]. now rewrite IH.
Qed.

Lemma js_substring_whole s : forall n, js_length s <= n -> js_substring n s = s.
Proof.
  induction s as [|a s IH]; intros n H; [reflexivity|].
  cbn [js_length] in H. cbn [js_substring].
  destruct (continuation a).
  - f_equal. apply IH. lia.
  - destruct (astral a).
    + destruct n as [|[|n]]; [lia | lia |]. f_equal. apply IH. lia.
    + destruct n as [|n]; [lia|]. f_equal. apply IH. lia.
Qed.

Lemma js_length_substring s : forall n, js_length (js_substring n s) <= n.
Proof.
  induction s as [|a s IH]; intros n; [simpl; lia|].
  cbn [js_substring].
  destruct (continuation a) eqn:Hc.
  - cbn [js_length]. rewrite Hc. apply IH.
  - destruct n as [|n]; [simpl; lia|].
    destruct (astral a) eqn:Ha.
    + destruct n as [|n]; [vm_compute; lia|]. cbn [js_length]. rewrite Hc, Ha.
      specialize (IH n). lia.
    + cbn [js_length]. rewrite Hc, Ha. specialize (IH n). lia.
Qed.

Lemma js_substring_nonempty s n : s <> "" -> 0 < n -> js_substring n s <> "".
Proof.
  destruct s as [|a s]; [contradiction|]. intros _ Hn. cbn [js_substring].
  destruct (continuation a); [discriminate|].
  destruct n as [|n]; [lia|]. destruct (astral a); [|discriminate].
  destruct n; discriminate.
Qed.

Lemma js_length_nonempty s : 1 <= js_length s -> s <> "".
Proof. intros H ->. simpl in H. lia. Qed.


Lemma split_chars_nonempty s n : s <> "" -> 0 < n -> fst (split_chars n s) <> "".
Proof.
  destruct s as [|a s]; [contradiction|]. intros _ Hn. cbn [split_chars].
  destruct (continuation a).
  - destruct (split_chars n s). discriminate.
  - destruct n as [|n]; [lia|]. destruct (split_chars n s). discriminate.
Qed.

Lemma varchar_nonempty n s c : varchar n s = Some c -> s <> "" -> 0 < n -> c <> "".
Proof.
  unfold varchar. intros H Hs Hn. destruct (char_length s <=? n).
  - now injection H as <-.
  - pose proof (split_chars_nonempty s n Hs Hn) as Hk.
    destruct (split_chars n s) as [kept cut]. destruct (all_spaces cut); [|discriminate].
    now injection H as <-.
Qed.

Section KeyedTable.
Context {A : Type} (key : A -> nat).

Lemma find_update_where (P : A -> bool) (f : A -> A) (k : nat) (rows : list A) :
  (forall r, key (f r) = key r) ->
  List.find (fun r => key r =? k) (update_where P f rows)
  = option_map (fun r => if P r then f r else r)
               (List.find (fun r => key r =? k) rows).
Proof.
  intros Hkey. induction rows as [|r rows IH]; simpl; [reflexivity|].
  assert (Hk : key (if P r then f r else r) = key r)
    by (destruct (P r); [apply Hkey | reflexivity]).
  rewrite Hk. destruct (key r =? k); [reflexivity | exact IH].
Qed.

Lemma filter_none (P : A -> bool) (rows : list A) :
  (forall r, In r rows -> P r = false) -> List.filter P rows = [].
Proof.
  induction rows as [|r rows IH]; simpl; intros H; [reflexivity|].
  rewrite (H r (or_introl eq_refl)). apply IH. intros x Hx. apply H. now right.
Qed.

(** Under the primary key, a condition that pins the key selects at most
    the row found by that key. *)
Lemma filter_by_key (P : A -> bool) (k : nat) (rows : list A) (r0 : A) :
  List.NoDup (map key rows) ->
  (forall r, P r = true -> key r = k) ->
  List.find (fun r => key r =? k) rows = Some r0 ->
  List.filter P rows = if P r0 then [r0] else [].
Proof.
  intros Hnd HP. induction rows as [|r rows IH]; simpl; [discriminate|].
  inversion Hnd as [|? ? Hnotin Hnd']; subst.
  destruct (key r =? k) eqn:Hk.
  - intros [= ->]. apply Nat.eqb_eq in Hk.
    assert (Hrest : List.filter P rows = []).
    { apply filter_none. intros x Hx.
      destruct (P x) eqn:HPx; [|reflexivity].
      exfalso. apply Hnotin. rewrite Hk, <- (HP x HPx).
      now apply in_map. }
    rewrite Hrest. now destruct (P r0).
  - intros Hfind. apply Nat.eqb_neq in Hk.
    destruct (P r) eqn:HPr.
    + exfalso. apply Hk. now apply HP.
    + now apply IH.
Qed.

Lemma find_key_none (P : A -> bool) (k : nat) (rows : list A) :
  (forall r, P r = true -> key r = k) ->
  List.find (fun r => key r =? k) rows = None ->
  List.filter P rows = [].
Proof.
  intros HP Hnone. apply filter_none. intros r Hr.
  destruct (P r) eqn:HPr; [|reflexivity].
  pose proof (find_none _ _ Hnone r Hr) as Hk. simpl in Hk.
  apply Nat.eqb_neq in Hk. exfalso. now apply Hk, HP.
Qed.

Lemma map_key_update_where (P : A -> bool) (f : A -> A) (rows : list A) :
  (forall r, key (f r) = key r) ->
  map key (update_where P f rows) = map key rows.
Proof.
  intros Hkey. unfold update_where. rewrite map_map.
  apply map_ext. intros r. destruct (P r); [apply Hkey | reflexivity].
Qed.
End KeyedTable.

Module TicketFacts.
Import Tickets.

Lemma select_live_current db id t :
  primary_key db -> select_live db id = Some t -> select_current db id = Some t.
Proof.
  unfold primary_key, select_live, select_current.
  induction (loanRequests db) as [|r rows IH]; simpl; [discriminate|].
  intros Hnd. inversion Hnd as [|? ? Hnotin Hnd']; subst.
  destruct (tid r =? id) eqn:Hk; simpl.
  - destruct (is_null (deletedAt r)); [trivial|].
    intros Hf. apply find_some in Hf as [Hin Hp].
    apply andb_prop in Hp as [Hp _]. apply Nat.eqb_eq in Hp, Hk.
    exfalso. apply Hnotin. rewrite Hk, <- Hp. now apply in_map.
  - now apply IH.
Qed.

Lemma select_current_tid db id t : select_current db id = Some t -> tid t = id.
Proof.
  unfold select_current. intros H. apply find_some in H as [_ H].
  now apply Nat.eqb_eq in H.
Qed.

Lemma at_version_tid id v r : at_version id v r = true -> tid r = id.
Proof. unfold at_version. intros H. apply andb_prop in H as [H _]. now apply Nat.eqb_eq. Qed.

Lemma returning_at_version db id v f t0 :
  primary_key db -> select_current db id = Some t0 ->
  returning (at_version id v) f (loanRequests db)
  = if (version t0 =? v)%Z then [f t0] else [].
Proof.
  intros Hpk Hsel. unfold returning.
  rewrite (filter_by_key tid (at_version id v) id (loanRequests db) t0 Hpk
             (at_version_tid id v) Hsel).
  unfold at_version. rewrite (select_current_tid _ _ _ Hsel), Nat.eqb_refl. simpl.
  now destruct (version t0 =? v)%Z.
Qed.

Lemma returning_no_row db id v f :
  select_current db id = None -> returning (at_version id v) f (loanRequests db) = [].
Proof.
  intros Hsel. unfold returning.
  now rewrite (find_key_none tid (at_version id v) id (loanRequests db)
                 (at_version_tid id v) Hsel).
Qed.

Lemma select_current_update db P f j :
  (forall r, tid (f r) = tid r) ->
  select_current (set_loanRequests db (update_where P f (loanRequests db))) j
  = option_map (fun r => if P r then f r else r) (select_current db j).
Proof. intros Hf. unfold select_current. simpl. now apply find_update_where. Qed.

Lemma primary_key_update db P f :
  (forall r, tid (f r) = tid r) -> primary_key db ->
  primary_key (set_loanRequests db (update_where P f (loanRequests db))).
Proof.
  unfold primary_key. simpl. intros Hf Hpk. now rewrite (map_key_update_where tid).
Qed.

(** What one optimistic write does, for any column update [f] that keeps the
    key and adds one to the version: a stale caller gets nothing back and
    the table is as before; a caller with the stored version gets the row
    back with the version one higher. *)
Lemma optimistic_write db id existing f :
  primary_key db ->
  (forall r, tid (f r) = tid r) ->
  let P := at_version id (version existing) in
  (returning P f (loanRequests db) = []
   /\ stored_version db id <> Some (version existing))
  \/
  (exists t0, select_current db id = Some t0 /\ version t0 = version existing
     /\ returning P f (loanRequests db) = [f t0]
     /\ select_current (set_loanRequests db (update_where P f (loanRequests db))) id
        = Some (f t0)
     /\ forall j, j <> id ->
          select_current (set_loanRequests db (update_where P f (loanRequests db))) j
          = select_current db j).
Proof.
  intros Hpk Hkey P. unfold stored_version.
  destruct (select_current db id) as [t0|] eqn:Hsel.
  - pose proof (returning_at_version db id (version existing) f t0 Hpk Hsel) as Hret.
    destruct (version t0 =? version existing)%Z eqn:Hv.
    + right. exists t0. apply Z.eqb_eq in Hv.
      split; [reflexivity|]. split; [exact Hv|]. split; [exact Hret|]. split.
      * rewrite select_current_update by exact Hkey. rewrite Hsel. simpl.
        unfold P, at_version.
        rewrite (select_current_tid _ _ _ Hsel), Nat.eqb_refl, Hv, Z.eqb_refl.
        reflexivity.
      * intros j Hj. rewrite select_current_update by exact Hkey.
        destruct (select_current db j) as [r|] eqn:Hr; [|reflexivity]. simpl.
        destruct (P r) eqn:HP; [|reflexivity].
        exfalso. apply Hj. rewrite <- (select_current_tid _ _ _ Hr).
        now apply (at_version_tid id (version existing)).
    + left. split; [exact Hret|]. simpl. intros [= Heq].
      rewrite Heq, Z.eqb_refl in Hv. discriminate.
  - left. split; [now apply returning_no_row|]. discriminate.
Qed.

Lemma read_gives_live_row db id r t :
  updateLoanRequestStatus_read db id r = inr t -> select_live db id = Some t.
Proof.
  unfold updateLoanRequestStatus_read.
  destruct (negb (status_schema_ok r)); [discriminate|].
  destruct (_ && _); [discriminate|].
  destruct (select_live db id) as [e|]; [|discriminate].
  destruct (negb _); [discriminate|]. now intros [= ->].
Qed.

Lemma select_current_live db id t :
  primary_key db -> select_current db id = Some t -> deletedAt t = None ->
  select_live db id = Some t.
Proof.
  unfold primary_key, select_live, select_current.
  induction (loanRequests db) as [|r rows IH]; simpl; [discriminate|].
  intros Hnd. inversion Hnd as [|? ? Hnotin Hnd']; subst.
  destruct (tid r =? id) eqn:Hk; simpl.
  - intros [= ->] Hlive. now rewrite Hlive.
  - now apply IH.
Qed.

(** A status change served alone on a live ticket: either the request is
    refused with 400 and nothing is written, or the row just read is written
    through the version guard, which matches it. *)
Lemma changeStatus_alone db id actor r now t :
  primary_key db -> select_live db id = Some t ->
  let out := updateLoanRequestStatus db id actor r now in
  let t1 := status_set (req_status r) now t in
  (fst out = db /\ code (snd out) = 400)
  \/ (snd out = mkResponse 200 (BSuccess t1)
      /\ select_current (fst out) id = Some t1
      /\ primary_key (fst out)
      /\ forall j, j <> id -> select_current (fst out) j = select_current db j).
Proof.
  intros Hpk Hsel. cbv zeta.
  unfold updateLoanRequestStatus, updateLoanRequestStatus_read.
  destruct (negb (status_schema_ok r)); [left; now split|].
  destruct (_ && _); [left; now split|].
  rewrite Hsel.
  destruct (negb _); [left; now split|].
  right. unfold updateLoanRequestStatus_write.
  pose proof (select_live_current db id t Hpk Hsel) as Hcur.
  destruct (optimistic_write db id t (status_set (req_status r) now) Hpk (fun _ => eq_refl))
    as [[_ Hne] | (t0 & Hsel0 & _ & Hret & Hnew & Hothers)].
  { exfalso. apply Hne. unfold stored_version. now rewrite Hcur. }
  rewrite Hcur in Hsel0. injection Hsel0 as <-.
  rewrite Hret. cbn [fst snd]. split; [reflexivity|]. split; [exact Hnew|]. split.
  - unfold primary_key. simpl. now rewrite (map_key_update_where tid).
  - exact Hothers.
Qed.

(** C4, amended.  Optimistic concurrency of [updateLoanRequestStatus] on a
    live ticket at version N.  The handler takes no version from its
    caller: it reads the row and guards its update with the version it
    read.  Served alone, a call never answers 409; an answer of 400 leaves
    the database as it was, and an answer of 200 means that the row was
    stored with version N+1 and the requested status, every other ticket
    untouched.  Two calls served one after the other that both answer 200
    leave the version at N+2: the second has read N+1.  A conflict needs
    the second call to have read the ticket before the first wrote: then,
    once the first has answered 200 (stored version N+1), the update of the
    second matches no row and it answers 409 with the row as it is now, at
    version N+1, writing nothing.  A conditional write that answers 409 has
    left the database as it was, and one that answers 200 has stored the
    observed version plus one. *)
Theorem changeStatus_optimistic_concurrency db id t :
  primary_key db -> select_live db id = Some t ->
  (forall actor r now,
     let out := updateLoanRequestStatus db id actor r now in
     code (snd out) <> 409
     /\ (code (snd out) = 400 -> fst out = db)
     /\ (code (snd out) = 200 ->
         exists t1, snd out = mkResponse 200 (BSuccess t1)
           /\ version t1 = (version t + 1)%Z /\ status t1 = req_status r
           /\ select_current (fst out) id = Some t1
           /\ forall j, j <> id -> select_current (fst out) j = select_current db j))
  /\ (forall actor1 r1 now1 actor2 r2 now2,
        let out1 := updateLoanRequestStatus db id actor1 r1 now1 in
        let out2 := updateLoanRequestStatus (fst out1) id actor2 r2 now2 in
        code (snd out1) = 200 -> code (snd out2) = 200 ->
        stored_version (fst out2) id = Some (version t + 2)%Z)
  /\ (forall actor1 r1 now1 actor2 r2 now2 observed,
        let out1 := updateLoanRequestStatus db id actor1 r1 now1 in
        code (snd out1) = 200 ->
        updateLoanRequestStatus_read db id r2 = inr observed ->
        exists t1,
          version observed = version t
          /\ select_current (fst out1) id = Some t1
          /\ version t1 = (version t + 1)%Z
          /\ updateLoanRequestStatus_write (fst out1) id actor2 r2 observed now2
             = (fst out1,
                mkResponse 409
                  (BConflict "Loan request was modified by another user" (Some t1))))
  /\ (forall actor r existing now,
        let out := updateLoanRequestStatus_write db id actor r existing now in
        (code (snd out) = 409 ->
         fst out = db /\ stored_version db id <> Some (version existing))
        /\ (code (snd out) = 200 ->
            stored_version db id = Some (version existing)
            /\ stored_version (fst out) id = Some (version existing + 1)%Z)).
Proof.
  intros Hpk Hsel.
  assert (Hlive : deletedAt t = None).
  { unfold select_live in Hsel. apply find_some in Hsel as [_ H].
    apply andb_prop in H as [_ H]. now destruct (deletedAt t). }
  split; [|split; [|split]].
  - intros actor r now out. subst out.
    destruct (changeStatus_alone db id actor r now t Hpk Hsel)
      as [[Hdb Hcode] | (Hresp & Hnew & _ & Hothers)].
    + rewrite Hcode. split; [discriminate|]. split; [intros _; exact Hdb | discriminate].
    + rewrite Hresp. split; [discriminate|]. split; [discriminate|]. intros _.
      eexists. split; [reflexivity|]. split; [reflexivity|]. split; [reflexivity|].
      split; [exact Hnew | exact Hothers].
  - intros actor1 r1 now1 actor2 r2 now2 out1 out2 H1 H2. subst out1 out2.
    destruct (changeStatus_alone db id actor1 r1 now1 t Hpk Hsel)
      as [[_ Hcode] | (_ & Hnew & Hpk1 & _)]; [rewrite Hcode in H1; discriminate|].
    set (db1 := fst (updateLoanRequestStatus db id actor1 r1 now1)) in *.
    assert (Hsel1 : select_live db1 id = Some (status_set (req_status r1) now1 t))
      by (apply select_current_live; auto).
    destruct (changeStatus_alone db1 id actor2 r2 now2 _ Hpk1 Hsel1)
      as [[_ Hcode] | (_ & Hnew2 & _ & _)]; [rewrite Hcode in H2; discriminate|].
    unfold stored_version. rewrite Hnew2. simpl. f_equal. lia.
  - intros actor1 r1 now1 actor2 r2 now2 observed out1 H1 Hread. subst out1.
    destruct (changeStatus_alone db id actor1 r1 now1 t Hpk Hsel)
      as [[_ Hcode] | (_ & Hnew & Hpk1 & _)]; [rewrite Hcode in H1; discriminate|].
    set (db1 := fst (updateLoanRequestStatus db id actor1 r1 now1)) in *.
    apply read_gives_live_row in Hread. rewrite Hsel in Hread. injection Hread as <-.
    exists (status_set (req_status r1) now1 t).
    split; [reflexivity|]. split; [exact Hnew|]. split; [reflexivity|].
    unfold updateLoanRequestStatus_write.
    rewrite (returning_at_version db1 id (version t) _ _ Hpk1 Hnew).
    replace (version (status_set (req_status r1) now1 t) =? version t)%Z with false
      by (symmetry; apply Z.eqb_neq; simpl; lia).
    now rewrite Hnew.
  - intros actor r existing now out. subst out.
    unfold updateLoanRequestStatus_write.
    destruct (optimistic_write db id existing (status_set (req_status r) now) Hpk
                (fun _ => eq_refl)) as [[Hret Hne] | (t0 & Hsel0 & Hv & Hret & Hnew & _)].
    + rewrite Hret. cbn [fst snd code]. split; [auto | discriminate].
    + rewrite Hret. cbn [fst snd code]. split; [discriminate|]. intros _.
      unfold stored_version. split.
      * rewrite Hsel0. simpl. now rewrite Hv.
      * unfold select_current in *. simpl in *. rewrite Hnew. simpl. now rewrite Hv.
Qed.

(** The theorem at a ticket in [received], version 1, with the finance
    employees 3 and 4: the move to [under_review] by employee 3 stores
    version 2; the rejection by employee 4, who had read version 1, is
    answered 409 with the row at version 2. *)
Lemma changeStatus_optimistic_concurrency_witness :
  let t := mkLoanRequest 7 received None 1 "normal" false None 0 0 None in
  let asha := mkUser 3 (Some "Asha") "employee" "Finance" true in
  let ravi := mkUser 4 (Some "Ravi") "employee" "Finance" true in
  let db := mkDB [t] [asha; ravi] [] [] in
  let r1 := mkStatusRequest under_review None in
  let r2 := mkStatusRequest rejected (Some "duplicate") in
  let t1 := mkLoanRequest 7 under_review None 2 "normal" false None 10 10 None in
  let db1 := fst (updateLoanRequestStatus db 7 3 r1 10) in
  snd (updateLoanRequestStatus db 7 3 r1 10) = mkResponse 200 (BSuccess t1)
  /\ updateLoanRequestStatus_read db 7 r2 = inr t
  /\ exists t1',
       version t = version t
       /\ select_current db1 7 = Some t1'
       /\ version t1' = (version t + 1)%Z
       /\ updateLoanRequestStatus_write db1 7 4 r2 t 11
          = (db1, mkResponse 409
                    (BConflict "Loan request was modified by another user" (Some t1'))).
Proof.
  intros t asha ravi db r1 r2 t1 db1.
  assert (Hpk : primary_key db) by (repeat constructor; simpl; tauto).
  split; [reflexivity|]. split; [reflexivity|].
  exact (proj1 (proj2 (proj2 (changeStatus_optimistic_concurrency db 7 t Hpk eq_refl)))
           3 r1 10%Z 4 r2 11%Z t eq_refl eq_refl).
Defined.

(** C4, as the claim has it, fails: of two calls served one after the other
    the second reads the version that the first stored, so it meets no
    conflict.  On a ticket at version 1 the move to [under_review] and then
    to [contacted] both answer 200 and the version ends at 3. *)
Lemma changeStatus_sequential_calls_both_succeed :
  let t := mkLoanRequest 7 received None 1 "normal" false None 0 0 None in
  let asha := mkUser 3 (Some "Asha") "employee" "Finance" true in
  let ravi := mkUser 4 (Some "Ravi") "employee" "Finance" true in
  let db := mkDB [t] [asha; ravi] [] [] in
  let r1 := mkStatusRequest under_review None in
  let r2 := mkStatusRequest contacted None in
  let t1 := mkLoanRequest 7 under_review None 2 "normal" false None 10 10 None in
  let t2 := mkLoanRequest 7 contacted None 3 "normal" false None 11 11 None in
  let db1 := fst (updateLoanRequestStatus db 7 3 r1 10) in
  let db2 := fst (updateLoanRequestStatus db1 7 4 r2 11) in
  stored_version db 7 = Some 1%Z
  /\ snd (updateLoanRequestStatus db 7 3 r1 10) = mkResponse 200 (BSuccess t1)
  /\ updateLoanRequestStatus_read db1 7 r2 = inr t1
  /\ snd (updateLoanRequestStatus db1 7 4 r2 11) = mkResponse 200 (BSuccess t2)
  /\ stored_version db2 7 = Some 3%Z
  /\ ~ (forall actor1 q1 now1 actor2 q2 now2,
          code (snd (updateLoanRequestStatus db 7 actor1 q1 now1)) = 200 ->
          code (snd (updateLoanRequestStatus
                       (fst (updateLoanRequestStatus db 7 actor1 q1 now1)) 7 actor2 q2 now2))
          = 409).
Proof.
  intros t asha ravi db r1 r2 t1 t2 db1 db2.
  do 5 (split; [reflexivity|]).
  intros H. specialize (H 3 r1 10%Z 4 r2 11%Z eq_refl). discriminate H.
Qed.

(** The finance handler on a pair outside the adjacency table: a request
    that carries the comment the handler asks for is refused with 400, the
    allowed set is echoed and nothing is written. *)
Lemma finance_refuses_illegal_transition db id financeId r t now :
  select_live db id = Some t ->
  status_schema_ok r = true ->
  (req_status r = closed \/ req_status r = rejected -> truthy_str (req_comment r) = true) ->
  legal_transition (status t) (req_status r) = false ->
  updateLoanRequestStatus db id financeId r now
  = (db, mkResponse 400
           (BTransition ("Cannot transition from " ++ status_name (status t)
                           ++ " to " ++ status_name (req_status r))
                        (default_list (ALLOWED_STATUS_TRANSITIONS (status t))))).
Proof.
  intros Hsel Hschema Hcomment Hillegal.
  unfold updateLoanRequestStatus, updateLoanRequestStatus_read.
  rewrite Hschema. simpl.
  assert (Hc : (bool_decide (req_status r = closed) || bool_decide (req_status r = rejected))
               && negb (truthy_str (req_comment r)) = false).
  { destruct (bool_decide _ || bool_decide _) eqn:Hb; [|reflexivity]. simpl.
    rewrite Hcomment; [reflexivity|].
    apply orb_prop in Hb as [Hb|Hb]; apply bool_decide_eq_true in Hb; auto. }
  rewrite Hc, Hsel. unfold legal_transition in Hillegal. now rewrite Hillegal.
Qed.

(** C5. The admin handler has no adjacency check.  On a closed ticket the
    pair (closed, received) is outside the table: the finance handler
    refuses it with 400, echoes the (empty) allowed set and leaves the row;
    the admin handler answers 200 and stores the ticket as [received] with
    the version raised. *)
Theorem admin_changeStatus_skips_adjacency :
  let t := mkLoanRequest 7 closed (Some 3) 4 "normal" false None 0 0 None in
  let root := mkUser 1 (Some "Root") "admin" "" true in
  let asha := mkUser 3 (Some "Asha") "employee" "Finance" true in
  let db := mkDB [t] [root; asha] [] [] in
  let r := mkStatusRequest received None in
  legal_transition closed received = false
  /\ updateLoanRequestStatus db 7 3 r 50
     = (db, mkResponse 400 (BTransition "Cannot transition from closed to received" []))
  /\ snd (changeAdminLoanRequestStatus db 7 1 r 50)
     = mkResponse 200
         (BSuccess (mkLoanRequest 7 received (Some 3) 5 "normal" false None 50 50 None))
  /\ loanRequests (fst (changeAdminLoanRequestStatus db 7 1 r 50))
     = [mkLoanRequest 7 received (Some 3) 5 "normal" false None 50 50 None].
Proof. intros t root asha db r. repeat split. Qed.

(** The take scenario of the specification: employee 3 takes a received
    ticket, which becomes [under_review] at version 2; employee 4 is then
    refused with 409 naming the assignee. *)
Example take_then_conflict :
  let t := mkLoanRequest 7 received None 1 "normal" false None 0 0 None in
  let asha := mkUser 3 (Some "Asha") "employee" "Finance" true in
  let db := mkDB [t] [asha] [] [] in
  let taken := mkLoanRequest 7 under_review (Some 3) 2 "normal" false None 50 50 None in
  snd (takeLoanRequest db 7 3 50) = mkResponse 200 (BSuccess taken)
  /\ takeLoanRequest (fst (takeLoanRequest db 7 3 50)) 7 4 60
     = (fst (takeLoanRequest db 7 3 50),
        mkResponse 409 (BConflict "Already assigned to Asha" (Some taken))).
Proof. intros t asha db taken. split; reflexivity. Qed.

(** C7. [takeLoanRequest] writes [under_review] whatever the status was.  A
    ticket already in [contacted] and unassigned (or assigned to the caller)
    is moved back to [under_review] by a take, and the audit entry records
    the change; the admin reassignment of the same ticket keeps
    [contacted]. *)
Theorem take_overwrites_status :
  let t := mkLoanRequest 7 contacted None 4 "normal" false None 0 0 None in
  let mine := mkLoanRequest 7 contacted (Some 3) 4 "normal" false None 0 0 None in
  let taken := mkLoanRequest 7 under_review (Some 3) 5 "normal" false None 50 50 None in
  let finance := mkUser 3 (Some "Asha") "employee" "Finance" true in
  let root := mkUser 1 (Some "Root") "admin" "" true in
  snd (takeLoanRequest (mkDB [t] [root; finance] [] []) 7 3 50) = mkResponse 200 (BSuccess taken)
  /\ loanRequests (fst (takeLoanRequest (mkDB [t] [root; finance] [] []) 7 3 50)) = [taken]
  /\ loanRequestAuditLogs (fst (takeLoanRequest (mkDB [t] [root; finance] [] []) 7 3 50))
     = [mkAuditLog 7 3 "assigned" None (Some "3") (Some "Self-assigned");
        mkAuditLog 7 3 "status_change" (Some "contacted") (Some "under_review") None]
  /\ snd (takeLoanRequest (mkDB [mine] [root; finance] [] []) 7 3 50)
     = mkResponse 200 (BSuccess taken)
  /\ snd (reassignLoanRequest (mkDB [t] [root; finance] [] []) 7 1
            (mkReassignRequest (Some 3) None None) 50)
     = mkResponse 200
         (BSuccess (mkLoanRequest 7 contacted (Some 3) 5 "normal" false None 50 50 None)).
Proof. intros t mine taken finance root. repeat split. Qed.

(** The parts of the take that the code does as described: a ticket held by
    someone else is refused with 409 and nothing is written. *)
Lemma take_refused_when_held_by_another db id financeId t a now :
  select_live db id = Some t ->
  assigneeId t = Some (S a) -> S a <> financeId ->
  takeLoanRequest db id financeId now
  = (db, mkResponse 409
           (BConflict ("Already assigned to " ++ str_or (user_name db (S a)) "another user")
                      (Some t))).
Proof.
  intros Hsel Ha Hne. unfold takeLoanRequest. rewrite Hsel, Ha. simpl.
  rewrite bool_decide_eq_false_2 by congruence. reflexivity.
Qed.

(** A take of a ticket that is unassigned or already the caller's: the
    assignee is set, the version goes up by one, and one assignment record
    and two audit entries are appended. *)
Lemma take_succeeds db id financeId t now :
  primary_key db ->
  select_live db id = Some t ->
  (assigneeId t = None \/ assigneeId t = Some financeId) ->
  let out := takeLoanRequest db id financeId now in
  snd out = mkResponse 200 (BSuccess (take_set financeId now t))
  /\ select_current (fst out) id = Some (take_set financeId now t)
  /\ loanRequestAssignments (fst out)
     = loanRequestAssignments db
       ++ [mkAssignment id financeId financeId (Some "Self-assigned")]
  /\ loanRequestAuditLogs (fst out)
     = loanRequestAuditLogs db
       ++ [mkAuditLog id financeId "assigned" None (or_null (Some (num_toString financeId)))
             (Some "Self-assigned");
           mkAuditLog id financeId "status_change"
             (or_null (Some (status_name (status t)))) (Some "under_review") None].
Proof.
  intros Hpk Hsel Hassignee out. subst out. unfold takeLoanRequest. rewrite Hsel.
  assert (Hguard : truthy_num (assigneeId t)
                   && negb (bool_decide (assigneeId t = Some financeId)) = false).
  { destruct Hassignee as [-> | ->]; [reflexivity|].
    rewrite bool_decide_eq_true_2 by reflexivity. apply andb_false_r. }
  rewrite Hguard.
  pose proof (select_live_current db id t Hpk Hsel) as Hcur.
  destruct (optimistic_write db id t (take_set financeId now) Hpk (fun _ => eq_refl))
    as [[_ Hne] | (t0 & Hsel0 & _ & Hret & Hnew & _)].
  { exfalso. apply Hne. unfold stored_version. now rewrite Hcur. }
  rewrite Hcur in Hsel0. injection Hsel0 as <-.
  rewrite Hret. simpl. split; [reflexivity|]. split; [exact Hnew|].
  split; [reflexivity|]. now rewrite <- app_assoc.
Qed.

(** *** Versions under single and bulk mutations *)

Lemma fold_keeps_loanRequests {A} (g : DB -> A -> DB) (l : list A) (db : DB) :
  (forall d a, loanRequests (g d a) = loanRequests d) ->
  loanRequests (fold_left g l db) = loanRequests db.
Proof.
  intros Hg. revert db. induction l as [|a l IH]; intros db; simpl; [reflexivity|].
  now rewrite IH, Hg.
Qed.

Lemma bulk_reassign_rows db adminId r now :
  loanRequests (fst (bulkReassignLoanRequests db adminId r now)) = loanRequests db
  \/ exists target,
       loanRequests (fst (bulkReassignLoanRequests db adminId r now))
       = update_where (in_bulk (br_ids r)) (bulk_reassign_set target now) (loanRequests db).
Proof.
  unfold bulkReassignLoanRequests.
  destruct (negb (ids_schema_ok (br_ids r))); [now left|].
  destruct (_ && _); [now left|].
  assert (Hto : forall target,
             loanRequests (fst (bulk_reassign_to db adminId (br_ids r) target now))
             = update_where (in_bulk (br_ids r)) (bulk_reassign_set target now)
                            (loanRequests db)).
  { intros target. unfold bulk_reassign_to. simpl. now rewrite fold_keeps_loanRequests. }
  destruct (truthy_bool (br_autoAssign r)).
  - destruct (leastBusy db) as [u|]; [|now left]. right. now exists (uid u).
  - destruct (br_assigneeId r) as [target|]; [|now left]. right. now exists target.
Qed.

Lemma bulk_escalate_rows db adminId ids reason now :
  loanRequests (fst (bulkEscalateLoanRequests db adminId ids reason now)) = loanRequests db
  \/ loanRequests (fst (bulkEscalateLoanRequests db adminId ids reason now))
     = update_where (in_bulk ids) (bulk_escalate_set reason now) (loanRequests db).
Proof.
  unfold bulkEscalateLoanRequests.
  destruct (negb _); [now left|].
  right. simpl. now rewrite fold_keeps_loanRequests.
Qed.

Lemma stored_version_update_where db rows P f j :
  (forall r, tid (f r) = tid r) -> (forall r, version (f r) = version r) ->
  rows = update_where P f (loanRequests db) ->
  option_map version (List.find (fun t => tid t =? j) rows) = stored_version db j.
Proof.
  intros Hk Hv ->. unfold stored_version, select_current.
  rewrite (find_update_where tid) by exact Hk.
  destruct (List.find _ (loanRequests db)) as [t|]; [|reflexivity]. simpl.
  destruct (P t); [now rewrite Hv | reflexivity].
Qed.

(** A bulk mutation stores the same version for every ticket as before. *)
Lemma bulk_keeps_versions db b now j :
  stored_version (fst (bulk_mutate db b now)) j = stored_version db j.
Proof.
  destruct b as [adminId r | adminId ids reason]; simpl.
  - destruct (bulk_reassign_rows db adminId r now) as [H | [target H]].
    + unfold stored_version, select_current. now rewrite H.
    + refine (stored_version_update_where db _ _ _ j _ _ H); intros; reflexivity.
  - destruct (bulk_escalate_rows db adminId ids reason now) as [H | H].
    + unfold stored_version, select_current. now rewrite H.
    + refine (stored_version_update_where db _ _ _ j _ _ H); intros; reflexivity.
Qed.

(** A single-ticket mutation that answers 200 has stored the version it
    read plus one. *)
Lemma single_bumps_version db id m now :
  primary_key db ->
  code (snd (mutate db id m now)) = 200 ->
  exists t0, select_live db id = Some t0
    /\ stored_version (fst (mutate db id m now)) id = Some (version t0 + 1)%Z.
Proof.
  intros Hpk.
  assert (Hw : forall existing f,
             select_live db id = Some existing ->
             (forall r, tid (f r) = tid r) ->
             (forall r, version (f r) = (version r + 1)%Z) ->
             returning (at_version id (version existing)) f (loanRequests db) = [f existing]
             /\ stored_version
                  (set_loanRequests db
                     (update_where (at_version id (version existing)) f (loanRequests db))) id
                = Some (version existing + 1)%Z).
  { intros existing f Hsel Hk Hv.
    pose proof (select_live_current db id existing Hpk Hsel) as Hcur.
    destruct (optimistic_write db id existing f Hpk Hk)
      as [[_ Hne] | (t0 & Hsel0 & _ & Hret & Hnew & _)].
    { exfalso. apply Hne. unfold stored_version. now rewrite Hcur. }
    rewrite Hcur in Hsel0. injection Hsel0 as <-.
    split; [exact Hret|]. unfold stored_version. rewrite Hnew. simpl. now rewrite Hv. }
  destruct m as [financeId | financeId r | adminId r | adminId r | adminId reason]; simpl.
  - unfold takeLoanRequest.
    destruct (select_live db id) as [existing|] eqn:Hsel; [|discriminate].
    destruct (_ && _); [discriminate|].
    destruct (Hw existing (take_set financeId now) eq_refl (fun _ => eq_refl)
                (fun _ => eq_refl)) as [Hret Hst].
    rewrite Hret. intros _. exists existing. split; [reflexivity | exact Hst].
  - unfold updateLoanRequestStatus, updateLoanRequestStatus_read,
      updateLoanRequestStatus_write.
    destruct (negb (status_schema_ok r)); [discriminate|].
    destruct (_ && _); [discriminate|].
    destruct (select_live db id) as [existing|] eqn:Hsel; [|discriminate].
    destruct (negb _); [discriminate|].
    destruct (Hw existing (status_set (req_status r) now) eq_refl (fun _ => eq_refl)
                (fun _ => eq_refl)) as [Hret Hst].
    rewrite Hret. intros _. exists existing. split; [reflexivity | exact Hst].
  - unfold changeAdminLoanRequestStatus.
    destruct (negb (status_schema_ok r)); [discriminate|].
    destruct (_ && _); [discriminate|].
    destruct (select_live db id) as [existing|] eqn:Hsel; [|discriminate].
    destruct (Hw existing (status_set (req_status r) now) eq_refl (fun _ => eq_refl)
                (fun _ => eq_refl)) as [Hret Hst].
    rewrite Hret. intros _. exists existing. split; [reflexivity | exact Hst].
  - unfold reassignLoanRequest.
    destruct (negb (reassign_schema_ok r)); [discriminate|].
    destruct (_ && _); [discriminate|].
    destruct (select_live db id) as [existing|] eqn:Hsel; [|discriminate].
    assert (Htail : forall target,
               code (snd (reassign_to db id adminId r existing target now)) = 200 ->
               exists t0, Some existing = Some t0 /\
                 stored_version (fst (reassign_to db id adminId r existing target now)) id
                 = Some (version t0 + 1)%Z).
    { intros target. unfold reassign_to.
      destruct (List.find _ (users db)); [|discriminate].
      destruct (Hw existing (reassign_set target existing now) eq_refl (fun _ => eq_refl)
                  (fun _ => eq_refl)) as [Hret Hst].
      cbv zeta. rewrite Hret. intros _. exists existing.
      split; [reflexivity | exact Hst]. }
    destruct (truthy_bool (rr_autoAssign r)).
    + destruct (leastBusy db) as [u|]; [|discriminate]. apply Htail.
    + destruct (rr_assigneeId r) as [target|]; [|discriminate]. apply Htail.
  - unfold escalateLoanRequest.
    destruct (negb (reason_schema_ok reason)); [discriminate|].
    destruct (select_live db id) as [existing|] eqn:Hsel; [|discriminate].
    destruct (Hw existing (escalate_set reason now) eq_refl (fun _ => eq_refl)
                (fun _ => eq_refl)) as [Hret Hst].
    rewrite Hret. intros _. exists existing. split; [reflexivity | exact Hst].
Qed.

(** What a bulk mutation that answers 200 writes: the bulk [set] on every
    listed ticket that is not deleted, and nothing else. *)
Lemma bulk_reassign_applies db adminId r now :
  code (snd (bulkReassignLoanRequests db adminId r now)) = 200 ->
  exists target, forall j,
    select_current (fst (bulkReassignLoanRequests db adminId r now)) j
    = option_map (fun t => if in_bulk (br_ids r) t
                           then bulk_reassign_set target now t else t)
                 (select_current db j).
Proof.
  assert (Hto : forall target j,
             select_current (fst (bulk_reassign_to db adminId (br_ids r) target now)) j
             = option_map (fun t => if in_bulk (br_ids r) t
                                    then bulk_reassign_set target now t else t)
                          (select_current db j)).
  { intros target j. unfold select_current, bulk_reassign_to. simpl.
    rewrite fold_keeps_loanRequests by reflexivity. simpl.
    now apply (find_update_where tid). }
  unfold bulkReassignLoanRequests.
  destruct (negb (ids_schema_ok (br_ids r))); [discriminate|].
  destruct (_ && _); [discriminate|].
  destruct (truthy_bool (br_autoAssign r)).
  - destruct (leastBusy db) as [u|]; [|discriminate]. intros _. now exists (uid u).
  - destruct (br_assigneeId r) as [target|]; [|discriminate]. intros _. now exists target.
Qed.

Lemma bulk_escalate_applies db adminId ids reason now :
  code (snd (bulkEscalateLoanRequests db adminId ids reason now)) = 200 ->
  forall j,
    select_current (fst (bulkEscalateLoanRequests db adminId ids reason now)) j
    = option_map (fun t => if in_bulk ids t then bulk_escalate_set reason now t else t)
                 (select_current db j).
Proof.
  unfold bulkEscalateLoanRequests.
  destruct (negb _); [discriminate|]. intros _ j.
  unfold select_current. simpl. rewrite fold_keeps_loanRequests by reflexivity. simpl.
  now apply (find_update_where tid).
Qed.

(** The versions under every mutation.  A single-ticket mutation of
    status, assignee or escalation (take, status change by a finance
    employee or an admin, reassignment, escalation) that answers 200 has
    stored the ticket's version plus one.  The bulk variants write the new
    assignee, or the escalation fields, on every listed ticket that is not
    deleted and store, for every ticket, the version it had. *)
Lemma version_under_mutations db :
  primary_key db ->
  (forall id m now,
     code (snd (mutate db id m now)) = 200 ->
     exists v, stored_version db id = Some v
       /\ stored_version (fst (mutate db id m now)) id = Some (v + 1)%Z)
  /\ (forall b now j, stored_version (fst (bulk_mutate db b now)) j = stored_version db j)
  /\ (forall adminId r now,
        code (snd (bulk_mutate db (BulkReassign adminId r) now)) = 200 ->
        exists target, forall j,
          select_current (fst (bulk_mutate db (BulkReassign adminId r) now)) j
          = option_map (fun t => if in_bulk (br_ids r) t
                                 then bulk_reassign_set target now t else t)
                       (select_current db j))
  /\ (forall adminId ids reason now,
        code (snd (bulk_mutate db (BulkEscalate adminId ids reason) now)) = 200 ->
        forall j,
          select_current (fst (bulk_mutate db (BulkEscalate adminId ids reason) now)) j
          = option_map (fun t => if in_bulk ids t
                                 then bulk_escalate_set reason now t else t)
                       (select_current db j)).
Proof.
  intros Hpk. split; [|split; [|split]].
  - intros id m now H200.
    destruct (single_bumps_version db id m now Hpk H200) as (t0 & Hsel & Hst).
    exists (version t0). split; [|exact Hst].
    unfold stored_version. now rewrite (select_live_current db id t0 Hpk Hsel).
  - intros b now j. apply bulk_keeps_versions.
  - intros adminId r now. apply bulk_reassign_applies.
  - intros adminId ids reason now. apply bulk_escalate_applies.
Qed.

(** C6. The bulk variants change assignee and escalation without raising
    the version.  Ticket 7 is under review, assigned to employee 3, at
    version 4; the admin 1 and the finance employees 3 and 5 are users.  The
    bulk reassignment to employee 5 and the bulk escalation both answer 200
    with one ticket updated and store the ticket at version 4 still; the
    reassignment and the escalation of the same ticket by the single-ticket
    handlers store version 5. *)
Theorem bulk_mutations_keep_version :
  let t := mkLoanRequest 7 under_review (Some 3) 4 "normal" false None 0 0 None in
  let root := mkUser 1 (Some "Root") "admin" "" true in
  let asha := mkUser 3 (Some "Asha") "employee" "Finance" true in
  let ravi := mkUser 5 (Some "Ravi") "employee" "Finance" true in
  let db := mkDB [t] [root; asha; ravi] [] [] in
  let why := "no answer in time" in
  let bulk1 := bulk_mutate db (BulkReassign 1 (mkBulkReassignRequest [7] (Some 5) None)) 50 in
  let bulk2 := bulk_mutate db (BulkEscalate 1 [7] why) 50 in
  let single1 := mutate db 7 (Reassign 1 (mkReassignRequest (Some 5) None None)) 50 in
  let single2 := mutate db 7 (Escalate 1 why) 50 in
  (snd bulk1 = mkResponse 200 (BCount 1)
   /\ loanRequests (fst bulk1)
      = [mkLoanRequest 7 under_review (Some 5) 4 "normal" false None 50 50 None])
  /\ (snd bulk2 = mkResponse 200 (BCount 1)
      /\ loanRequests (fst bulk2)
         = [mkLoanRequest 7 under_review (Some 3) 4 "high" true (Some why) 50 50 None])
  /\ (code (snd single1) = 200
      /\ loanRequests (fst single1)
         = [mkLoanRequest 7 under_review (Some 5) 5 "normal" false None 50 50 None])
  /\ (code (snd single2) = 200
      /\ loanRequests (fst single2)
         = [mkLoanRequest 7 under_review (Some 3) 5 "high" true (Some why) 50 50 None])
  /\ ~ (forall b now j v v',
          stored_version db j = Some v ->
          stored_version (fst (bulk_mutate db b now)) j = Some v' ->
          select_current (fst (bulk_mutate db b now)) j <> select_current db j ->
          (v < v')%Z).
Proof.
  intros t root asha ravi db why bulk1 bulk2 single1 single2.
  do 4 (split; [split; reflexivity|]).
  intros H.
  specialize (H (BulkReassign 1 (mkBulkReassignRequest [7] (Some 5) None)) 50%Z 7 4%Z 4%Z
                eq_refl eq_refl).
  assert (Hlt : (4 < 4)%Z) by (apply H; discriminate). lia.
Qed.

End TicketFacts.

(* ===================================================================== *)
(** ** Properties of the pending-change engine *)
(* ===================================================================== *)

Section Filters.
Context {A : Type}.


Lemma find_head_filter (Q : A -> bool) (rows : list A) :
  List.find Q rows = head (List.filter Q rows).
Proof.
  induction rows as [|r rows IH]; simpl; [reflexivity|].
  now destruct (Q r).
Qed.

(** With at most one matching row, [find] gives any row known to match. *)
Lemma find_the_one (Q : A -> bool) (rows : list A) (e : A) :
  length (List.filter Q rows) <= 1 -> In e rows -> Q e = true ->
  List.find Q rows = Some e.
Proof.
  intros Hlen Hin HQ. rewrite find_head_filter.
  assert (Hf : In e (List.filter Q rows)) by (apply filter_In; auto).
  destruct (List.filter Q rows) as [|x [|y l]]; simpl in *.
  - contradiction.
  - destruct Hf as [->|[]]. reflexivity.
  - lia.
Qed.






(** Under a primary key, two rows of the table with the same key are the
    same row. *)
Lemma same_key_same_row (key : A -> nat) (rows : list A) (a b : A) :
  List.NoDup (map key rows) -> In a rows -> In b rows -> key a = key b -> a = b.
Proof.
  induction rows as [|r rows IH]; simpl; intros Hnd Ha Hb Hk; [contradiction|].
  inversion Hnd as [|? ? Hnotin Hnd']; subst.
  destruct Ha as [->|Ha], Hb as [->|Hb]; auto.
  - exfalso. apply Hnotin. rewrite Hk. now apply in_map.
  - exfalso. apply Hnotin. rewrite <- Hk. now apply in_map.
Qed.
End Filters.

Module ModerationFacts.
Import Moderation.

(** The empty database satisfies every table invariant used below. *)
Lemma empty_db_invariants :
  changes_keyed empty_db /\ one_live_pending empty_db
  /\ uploads_keyed empty_db /\ referenced_by_owner empty_db.
Proof.
  split; [split; constructor|]. split; [intros t p; cbv; lia|].
  split; [constructor|]. intros u c [].
Qed.

























Lemma select_change_cid db k c : select_change db k = Some c -> cid c = k /\ In c (propertyPendingChanges db).
Proof.
  unfold select_change. intros H. apply List.find_some in H as [Hin H].
  now apply Nat.eqb_eq in H.
Qed.


(** A fresh row appended to the table is the one found by its key. *)
Lemma select_appended db c :
  Forall (fun x => cid x < cid c) (propertyPendingChanges db) ->
  List.find (fun x => cid x =? cid c) (propertyPendingChanges db ++ [c]) = Some c.
Proof.
  induction (propertyPendingChanges db) as [|r rows IH]; simpl; intros Hf.
  - now rewrite Nat.eqb_refl.
  - inversion Hf as [|? ? Hr Hrest]; subst.
    replace (cid r =? cid c) with false by (symmetry; apply Nat.eqb_neq; lia).
    now apply IH.
Qed.



(** *** Uploads and their owners *)






Lemma listed_iff ids (u : Upload) :
  existsb (fun i => upid u =? i) ids = true <-> In (upid u) ids.
Proof.
  rewrite List.existsb_exists. split.
  - intros (i & Hi & Heq). apply Nat.eqb_eq in Heq. now rewrite Heq.
  - intros Hin. exists (upid u). split; [exact Hin | apply Nat.eqb_refl].
Qed.




(** A submission answered 201 has marked every upload row it lists as
    referenced by the change it created. *)
Lemma accepted_uploads_marked db id e data now c st created flag row :
  snd (submitPendingChange db id e data now) = mkResponse 201 (BChange c st created flag) ->
  In row (uploads db) -> lists_upload data (upid row) ->
  In (mkUpload (upid row) (ownerId row) referenced (Some c))
     (uploads (fst (submitPendingChange db id e data now))).
Proof.
  intros Hresp Hrow (ids & Hids & Hlisted). revert Hresp.
  unfold submitPendingChange.
  destruct (given_key data) as [k|].
  1: destruct (propertyPendingChangesIdempotency db !! k) as [x|];
       [destruct (select_change db x); discriminate|].
  all: destruct (negb (is_assigned db id e)); [discriminate|].
  all: destruct (live_property db id); [|discriminate].
  all: destruct (invalidFields (proposed_payload data)); [|discriminate].
  all: destruct (negb (uploads_valid db data e)); [discriminate|].
  all: destruct (if sr_isDraft data then None else _) as [other|]; [discriminate|].
  all: rewrite Hids; simpl; intros [= <- _ _].
  all: unfold mark_referenced, update_where; apply List.in_map_iff; exists row.
  all: split; [|exact Hrow].
  all: now rewrite (proj2 (listed_iff ids row) Hlisted).
Qed.




(** *** Approval and rollback *)

Lemma update_where_none {A} (P : A -> bool) (f : A -> A) (rows : list A) :
  (forall r, In r rows -> P r = false) -> update_where P f rows = rows.
Proof.
  induction rows as [|r rows IH]; simpl; intros H; [reflexivity|].
  rewrite (H r (or_introl eq_refl)). f_equal. apply IH. intros x Hx. apply H. now right.
Qed.

(** Writing the snapshot back over an update by key gives the table as it
    was. *)
Lemma restore_after_update (rows : list Entity) target f old :
  List.NoDup (map eid rows) ->
  select_entity rows target = Some old ->
  (forall e, eid (f e) = eid e) ->
  update_where (fun e => eid e =? target) (fun _ => old)
    (update_where (fun e => eid e =? target) f rows) = rows.
Proof.
  intros Hnd Hsel Hkey. unfold select_entity in Hsel.
  induction rows as [|r rows IH]; simpl in *; [discriminate|].
  inversion Hnd as [|? ? Hnotin Hnd']; subst.
  destruct (eid r =? target) eqn:Hk.
  - injection Hsel as ->. rewrite Hkey, Hk. f_equal.
    apply Nat.eqb_eq in Hk.
    assert (Hnone : forall x, In x rows -> (eid x =? target) = false).
    { intros x Hx. apply Nat.eqb_neq. intros Heq. apply Hnotin.
      rewrite Hk, <- Heq. now apply in_map. }
    rewrite (update_where_none _ f rows Hnone). now apply update_where_none.
  - rewrite Hk. f_equal. now apply IH.
Qed.

Lemma set_properties_same db : set_properties db (properties db) = db.
Proof. now destruct db. Qed.

Lemma set_properties_back db rows :
  set_properties (set_properties db rows) (properties db) = db.
Proof. now destruct db. Qed.

(** The part of the rollback that the code has: when the status update of an
    approval fails after the update of an existing property, and the write
    of the snapshot succeeds, the database is exactly as before the
    approval, the change keeps its status, and the error of the status
    update is the one thrown again. *)
Lemma approve_update_rolled_back db k c target adminId req now :
  List.NoDup (map eid (properties db)) ->
  select_change db k = Some c ->
  reviewable (status c) = true ->
  propertyId c = Some target ->
  approve_body db k adminId req (mkFaults false true false) now
  = (db, inl (DbFailure StatusUpdate)).
Proof.
  intros Hnd Hsel Hrev Htarget.
  unfold approve_body. rewrite Hsel, Hrev. simpl.
  unfold approve_property, property_write. rewrite Htarget. simpl.
  unfold rollback. simpl.
  set (f := set_columns _).
  destruct (select_entity (properties db) target) as [old|] eqn:Hold.
  - assert (Hret : returning (fun e => eid e =? target) f (properties db) = [f old]).
    { unfold returning, select_entity in *.
      rewrite (filter_by_key eid (fun e => eid e =? target) target (properties db) old Hnd);
        [| intros r Hr; now apply Nat.eqb_eq | exact Hold].
      apply List.find_some in Hold as [_ Hold]. now rewrite Hold. }
    rewrite Hret. simpl. unfold restore_property. simpl.
    rewrite (restore_after_update (properties db) target f old Hnd Hold (fun _ => eq_refl)).
    now rewrite set_properties_back.
  - assert (Hnone : forall r, In r (properties db) -> (eid r =? target) = false).
    { intros r Hr. exact (List.find_none _ _ Hold r Hr). }
    unfold returning. rewrite (filter_none _ _ Hnone). simpl.
    rewrite (update_where_none _ f _ Hnone). now rewrite set_properties_same.
Qed.

(** The creation scenario of the specification: without faults, approving a
    pending creation inserts a property assigned to the proposer and marks
    the change [approved]. *)
Example approve_creation :
  let plot : Payload := <["title" := JStr "Plot"]> (<["location" := JStr "Pune"]> ∅) in
  let creation := mkPendingChange 2 None 5 plot None pending None false 10 None None in
  let db := mkDB [] [] [creation] [] [] ∅ [] 3 in
  let out := approvePendingChange db 2 9 (mkApproveRequest proposed None) no_faults 50 in
  code (snd out) = 200
  /\ map eid (properties (fst out)) = [3]
  /\ option_map (fun e => columns e !! "assignedEmployeeId")
               (select_entity (properties (fst out)) 3) = Some (Some (JNum 5))
  /\ option_map (fun c => (status c, reviewedByAdminId c)) (select_change (fst out) 2)
     = Some (approved, Some 9).
Proof. intros plot creation db out. repeat split; vm_compute; reflexivity. Qed.

(** C1. The rollback covers updates only.  With the status update failing,
    the approval of a creation change (no target) throws the error of the
    status update and answers 500, the change stays [pending], and the
    property row it inserted is still in the table; the same holds for a
    banner creation.  The approval of an update of property 1 under the
    same fault leaves the database as it was. *)
Theorem approve_creation_not_rolled_back :
  let house := mkEntity 1 (<["title" := JStr "House"]> (<["deleted" := JBool false]> ∅)) in
  let plot : Payload := <["title" := JStr "Plot"]> (<["location" := JStr "Pune"]> ∅) in
  let creation := mkPendingChange 2 None 5 plot None pending None false 10 None None in
  let edit := mkPendingChange 3 (Some 1) 5 (<["title" := JStr "Villa"]> ∅) None
                pending None false 11 None None in
  let promo := mkBannerChange 4 None 5
                 (<["title" := JStr "Sale"]> (<["imageUrl" := JStr "https://cdn/s.png"]>
                   (<["subtitle" := JStr "Now"]> ∅))) None pending None 12 None None in
  let db := mkDB [house] [] [creation; edit] [promo] [] ∅ [] 5 in
  let req := mkApproveRequest proposed None in
  let fl := mkFaults false true false in
  let after := fst (approve_body db 2 9 req fl 50) in
  snd (approve_body db 2 9 req fl 50) = inl (DbFailure StatusUpdate)
  /\ snd (approvePendingChange db 2 9 req fl 50)
     = mkResponse 500 (BMessage "Failed to approve change")
  /\ option_map status (select_change after 2) = Some pending
  /\ properties db = [house]
  /\ map eid (properties after) = [1; 5]
  /\ option_map (fun e => (columns e !! "title", columns e !! "assignedEmployeeId"))
               (select_entity (properties after) 5)
     = Some (Some (JStr "Plot"), Some (JNum 5))
  /\ banners db = []
  /\ map eid (banners (fst (approve_body db 4 9 req fl 50))) = [5]
  /\ approve_body db 3 9 req fl 50 = (db, inl (DbFailure StatusUpdate)).
Proof.
  intros house plot creation edit promo db req fl after.
  repeat split; vm_compute; reflexivity.
Qed.

(** C8. Nothing but the approval checks the status of the change it is
    asked to move.  Change 2 is [approved] and change 3 is [rejected]: a
    rejection and a request for revision overwrite the status of the
    approved change, its proposer can withdraw it (the row is deleted) or
    move the rejected one back to [draft]; only a second approval is
    refused. *)
Theorem terminal_statuses_not_enforced :
  let done := mkPendingChange 2 (Some 1) 5 (<["title" := JStr "Villa"]> ∅) None
                approved None false 10 (Some 20%Z) (Some 9) in
  let refused := mkPendingChange 3 (Some 1) 5 (<["title" := JStr "Hut"]> ∅) None
                   rejected (Some "blurry") false 11 (Some 21%Z) (Some 9) in
  let db := mkDB [] [] [done; refused] [] [] ∅ [] 4 in
  option_map status (select_change (fst (rejectPendingChange db 2 9 "late" 50)) 2)
  = Some rejected
  /\ code (snd (rejectPendingChange db 2 9 "late" 50)) = 200
  /\ option_map status (select_change (fst (requestChanges db 2 9 "redo" 50)) 2)
     = Some needs_revision
  /\ code (snd (requestChanges db 2 9 "redo" 50)) = 200
  /\ withdrawPendingChange db 2 5 false
     = (mkDB [] [] [refused] [] [] ∅ [] 4, mkResponse 200 BSuccess)
  /\ option_map status (select_change (fst (withdrawPendingChange db 3 5 true)) 3)
     = Some draft
  /\ approvePendingChange db 2 9 (mkApproveRequest proposed None) no_faults 50
     = (db, mkResponse 400 (BMessage "Change already processed")).
Proof.
  intros done refused db. repeat split; vm_compute; reflexivity.
Qed.

End ModerationFacts.

(* ===================================================================== *)
(** ** Properties of the rate limit *)
(* ===================================================================== *)

Module RateLimitFacts.
Import RateLimit.

Lemma server_eta s : mkServer (rateLimitMap s) (users s) (loanRequests s) (nextUuid s) = s.
Proof. now destruct s. Qed.

Lemma find_user_some (rows : list User) u :
  (exists user, In user rows /\ uid user = u) ->
  exists user, List.find (fun x => uid x =? u) rows = Some user.
Proof.
  intros (user & Hin & Hu).
  destruct (List.find (fun x => uid x =? u) rows) as [found|] eqn:Hf; [now exists found|].
  exfalso. pose proof (List.find_none _ _ Hf user Hin) as H. simpl in H.
  rewrite Hu, Nat.eqb_refl in H. discriminate.
Qed.

(** What the handler answers and stores once the limiter has let the call
    through: the map is the limiter's, the users are untouched, and the
    call is served as without a limiter. *)
Lemma past_the_limiter s u c m :
  checkRateLimit (rateLimitMap s) u (c_now c) = (m, true) ->
  rateLimitMap (fst (createLoanRequest s u (c_body c) (c_now c))) = m
  /\ users (fst (createLoanRequest s u (c_body c) (c_now c))) = users s
  /\ let_through s u c.
Proof.
  intros Hc. unfold let_through, createLoanRequest. rewrite Hc. cbn [negb].
  destruct (loanRequestSchema_ok (c_body c)) eqn:Hok; cbn [negb].
  - destruct (List.find (fun x => uid x =? u) _) as [user|] eqn:Hfind; cbn [users].
    + destruct (stored_details (c_body c)) as [stored|] eqn:Hst; cbn [fst snd code].
      * split; [reflexivity|]. split; [reflexivity|]. split; [discriminate|].
        split; [discriminate|]. split.
        -- intros _ _ _. split; [reflexivity|]. eexists. split; reflexivity.
        -- intros Hno. now contradiction Hno.
      * cbn [rateLimitMap users loanRequests].
        split; [reflexivity|]. split; [reflexivity|]. split; [discriminate|].
        split; [discriminate|]. split; [|reflexivity].
        intros _ _ Hno. now contradiction Hno.
    + cbn [fst snd code rateLimitMap users loanRequests].
      split; [reflexivity|]. split; [reflexivity|]. split; [discriminate|].
      split; [discriminate|]. split; [|reflexivity].
      intros _ Hex. destruct (find_user_some _ _ Hex) as [user Huser].
      cbn [users] in Hfind. rewrite Huser in Hfind. discriminate.
  - cbn [fst snd code rateLimitMap users loanRequests].
    split; [reflexivity|]. split; [reflexivity|]. split; [discriminate|].
    split; [intros _; split; reflexivity|]. split; [discriminate | reflexivity].
Qed.

(** One call inside a window that holds [n] calls. *)
Lemma call_in_window s u c n R :
  rateLimitMap s !! u = Some (mkLimit n R) -> (c_now c <= R)%Z ->
  (n < 15 ->
   rateLimitMap (fst (createLoanRequest s u (c_body c) (c_now c))) !! u
   = Some (mkLimit (S n) R)
   /\ let_through s u c)
  /\ (15 <= n ->
      createLoanRequest s u (c_body c) (c_now c)
      = (s, mkResponse 429
              (BMessage "Rate limit exceeded. Maximum 5 loan requests per day."))).
Proof.
  intros Hentry Hnow.
  assert (Hreset : (R <? c_now c)%Z = false) by (apply Z.ltb_ge; lia).
  split; intros Hn.
  - assert (Hc : checkRateLimit (rateLimitMap s) u (c_now c)
                 = (<[u := mkLimit (S n) R]> (rateLimitMap s), true)).
    { unfold checkRateLimit. rewrite Hentry. cbn [resetAt count]. rewrite Hreset.
      now replace (15 <=? n) with false by (symmetry; apply Nat.leb_gt; lia). }
    destruct (past_the_limiter s u c _ Hc) as (-> & _ & Hthrough).
    split; [apply lookup_insert_eq | exact Hthrough].
  - unfold createLoanRequest, checkRateLimit. rewrite Hentry. cbn [resetAt count].
    rewrite Hreset.
    replace (15 <=? n) with true by (symmetry; apply Nat.leb_le; lia).
    cbn [negb]. now rewrite server_eta.
Qed.

Lemma serve_cons u c calls s :
  serve u (c :: calls) s = serve u calls (fst (createLoanRequest s u (c_body c) (c_now c))).
Proof. reflexivity. Qed.

(** No call touches the users. *)
Lemma create_users s u b now : users (fst (createLoanRequest s u b now)) = users s.
Proof.
  unfold createLoanRequest.
  destruct (checkRateLimit (rateLimitMap s) u now) as [m allowed].
  destruct (negb allowed); [reflexivity|].
  destruct (negb (loanRequestSchema_ok b)); [reflexivity|]. cbn [users].
  destruct (List.find _ (users s)); [|reflexivity].
  now destruct (stored_details b).
Qed.

Lemma serve_users u calls : forall s, users (serve u calls s) = users s.
Proof.
  induction calls as [|c calls IH]; intros s; [reflexivity|].
  now rewrite serve_cons, IH, create_users.
Qed.

(** The entry of the user after a run of calls that all fall inside the
    window. *)
Lemma window_entry calls : forall s u n R,
  rateLimitMap s !! u = Some (mkLimit n R) ->
  Forall (fun c => (c_now c <= R)%Z) calls ->
  rateLimitMap (serve u calls s) !! u = Some (mkLimit (Nat.min (n + length calls) (Nat.max n 15)) R).
Proof.
  induction calls as [|c calls IH]; intros s u n R Hentry Hall.
  - change (serve u [] s) with s. rewrite Hentry. do 2 f_equal. simpl. lia.
  - inversion Hall as [|? ? Hc Hrest]; subst. rewrite serve_cons.
    destruct (call_in_window s u c n R Hentry Hc) as [Hlt Hge].
    destruct (Nat.lt_ge_cases n 15) as [Hn|Hn].
    + destruct (Hlt Hn) as [Hnext _].
      rewrite (IH _ u (S n) R Hnext Hrest). do 2 f_equal. simpl length. lia.
    + rewrite (Hge Hn). cbn [fst].
      rewrite (IH _ u n R Hentry Hrest). do 2 f_equal. simpl length. lia.
Qed.

(** The validation scenario of the specification: a loan amount above the
    property value is refused at validation. *)
Example amount_above_value_refused :
  let body := mkLoanRequestBody "Home Loan" "Apartment" 1000000 1200000 "Salaried" 90000
                "20 Years" false None "Morning (9–12)" None in
  let s := mkServer ∅ [mkUser 5 (Some "Ravi") None "9000000000" None] [] 0 in
  snd (createLoanRequest s 5 body 0) = mkResponse 400 BZodIssue
  /\ loanRequests (fst (createLoanRequest s 5 body 0)) = [].
Proof. intros body s. split; vm_compute; reflexivity. Qed.

(** C10, amended.  The limiter counts calls, in windows that do not move.
    A call of a user who has no entry, or whose window is over ([now] past
    [resetAt]), opens a window of 24 hours and is counted as its first
    call.  Of the calls that follow up to the end of that window, the next
    fourteen are counted too and served as without a limiter, whatever they
    carry: a body that fails the schema is answered 400, one that passes is
    stored and answered 201.  With fifteen calls counted, every further
    call up to the end of the window is answered 429 with the message that
    names 5, before validation, and leaves the map and the database as they
    are. *)
Theorem rate_limit_fifteen s u first calls :
  opens_window s u (c_now first) ->
  Forall (fun c => (c_now c <= c_now first + DAY_MS)%Z) calls ->
  let R := (c_now first + DAY_MS)%Z in
  let s1 := fst (createLoanRequest s u (c_body first) (c_now first)) in
  (rateLimitMap s1 !! u = Some (mkLimit 1 R) /\ let_through s u first)
  /\ forall i c, calls !! i = Some c ->
       let si := serve u (take i calls) s1 in
       (i < 14 ->
        rateLimitMap si !! u = Some (mkLimit (S i) R)
        /\ rateLimitMap (fst (createLoanRequest si u (c_body c) (c_now c))) !! u
           = Some (mkLimit (S (S i)) R)
        /\ let_through si u c)
       /\ (14 <= i ->
           rateLimitMap si !! u = Some (mkLimit 15 R)
           /\ createLoanRequest si u (c_body c) (c_now c)
              = (si, mkResponse 429
                       (BMessage "Rate limit exceeded. Maximum 5 loan requests per day."))).
Proof.
  intros Hopen Hall R s1.
  assert (Hc : checkRateLimit (rateLimitMap s) u (c_now first)
               = (<[u := mkLimit 1 R]> (rateLimitMap s), true)).
  { unfold checkRateLimit. unfold opens_window in Hopen.
    destruct (rateLimitMap s !! u) as [l|]; [|reflexivity].
    now replace (resetAt l <? c_now first)%Z with true by (symmetry; apply Z.ltb_lt; lia). }
  destruct (past_the_limiter s u first _ Hc) as (Hmap & _ & Hthrough).
  fold s1 in Hmap.
  assert (Hentry1 : rateLimitMap s1 !! u = Some (mkLimit 1 R))
    by (rewrite Hmap; apply lookup_insert_eq).
  split; [split; [exact Hentry1 | exact Hthrough]|].
  intros i c Hi si.
  assert (Hlen : length (take i calls) = i).
  { apply length_take_le. apply lookup_lt_Some in Hi. lia. }
  assert (Hprefix : Forall (fun c => (c_now c <= R)%Z) (take i calls))
    by (now apply Forall_take).
  pose proof (window_entry (take i calls) s1 u 1 _ Hentry1 Hprefix) as Hentry.
  fold si in Hentry. rewrite Hlen in Hentry.
  assert (Hnow : (c_now c <= R)%Z).
  { rewrite List.Forall_forall in Hall. apply Hall.
    apply list_elem_of_In. now apply (list_elem_of_lookup_2 _ i). }
  destruct (call_in_window si u c _ _ Hentry Hnow) as [Hlt Hge].
  split; intros Hi14.
  - replace (Nat.min (1 + i) (Nat.max 1 15)) with (S i) in * by lia.
    destruct Hlt as [Hnext Hthrough']; [lia|]. auto.
  - replace (Nat.min (1 + i) (Nat.max 1 15)) with 15 in * by lia.
    split; [exact Hentry | apply Hge; lia].
Qed.

(** The theorem for user 5 on a fresh server: a first call at time 0 and
    fifteen more one second later, all with a body that passes the schema;
    the fourteenth of those is the fifteenth call counted and is answered
    201, the fifteenth is answered 429. *)
Lemma rate_limit_fifteen_witness :
  let body := mkLoanRequestBody "Home Loan" "Apartment" 1000000 800000 "Salaried" 90000
                "20 Years" false None "Morning (9–12)" None in
  let s := mkServer ∅ [mkUser 5 (Some "Ravi") None "9000000000" None] [] 0 in
  let calls := repeat (mkCall 1000 body) 15 in
  let s1 := fst (createLoanRequest s 5 body 0) in
  opens_window s 5 0
  /\ Forall (fun c => (c_now c <= 0 + DAY_MS)%Z) calls
  /\ snd (createLoanRequest s 5 body 0)
     = mkResponse 201
         (BCreated 0 "received"
            "Loan request received successfully. Our finance team will contact you soon.")
  /\ code (snd (createLoanRequest (serve 5 (take 13 calls) s1) 5 body 1000)) = 201
  /\ rateLimitMap (fst (createLoanRequest (serve 5 (take 13 calls) s1) 5 body 1000)) !! 5
     = Some (mkLimit 15 DAY_MS)
  /\ createLoanRequest (serve 5 (take 14 calls) s1) 5 body 1000
     = (serve 5 (take 14 calls) s1,
        mkResponse 429 (BMessage "Rate limit exceeded. Maximum 5 loan requests per day.")).
Proof.
  intros body s calls s1.
  assert (Hopen : opens_window s 5 (c_now (mkCall 0 body))) by exact I.
  assert (Hall : Forall (fun c => (c_now c <= c_now (mkCall 0 body) + DAY_MS)%Z) calls).
  { apply List.Forall_forall. intros c Hc. apply repeat_spec in Hc. subst c.
    vm_compute. discriminate. }
  destruct (rate_limit_fifteen s 5 (mkCall 0 body) calls Hopen Hall) as [_ Hcalls].
  split; [exact Hopen|]. split; [exact Hall|]. split; [vm_compute; reflexivity|].
  destruct (proj1 (Hcalls 13 (mkCall 1000 body) eq_refl) ltac:(lia))
    as (_ & Hcount & _ & _ & Hvalid & _).
  split; [|split].
  - apply Hvalid.
    + vm_compute; reflexivity.
    + eexists. split; [rewrite serve_users; left; reflexivity | reflexivity].
    + vm_compute. discriminate.
  - exact Hcount.
  - exact (proj2 (proj2 (Hcalls 14 (mkCall 1000 body) eq_refl) ltac:(lia))).
Defined.

(** C10, as the claim has it, fails on both counts.  The window does not
    roll: after a call at time 0, fourteen calls at the last millisecond of
    its window and fifteen in the next millisecond are all answered 201, so
    29 requests are created within one millisecond.  And the limiter counts
    calls, not creations: after fifteen calls refused at validation, a valid
    call in the same window is answered 429 and the table is still empty. *)
Lemma rate_limit_window_is_fixed :
  let body := mkLoanRequestBody "Home Loan" "Apartment" 1000000 800000 "Salaried" 90000
                "20 Years" false None "Morning (9–12)" None in
  let bad := mkLoanRequestBody "Home Loan" "Apartment" 1000000 1200000 "Salaried" 90000
               "20 Years" false None "Morning (9–12)" None in
  let s := mkServer ∅ [mkUser 5 (Some "Ravi") None "9000000000" None] [] 0 in
  let burst := mkCall 0 body
               :: repeat (mkCall DAY_MS body) 14 ++ repeat (mkCall (DAY_MS + 1) body) 15 in
  let refused := repeat (mkCall 0 bad) 15 ++ [mkCall 1 body] in
  (answers 5 burst s = repeat 201 30
   /\ length (List.filter (fun row => (DAY_MS <=? lastActivityAt row)%Z)
                          (loanRequests (serve 5 burst s))) = 29)
  /\ (answers 5 refused s = repeat 400 15 ++ [429]
      /\ loanRequests (serve 5 refused s) = []).
Proof. intros body bad s burst refused. repeat split; vm_compute; reflexivity. Qed.

End RateLimitFacts.

(* ===================================================================== *)
(** ** Further properties of the handlers *)
(* ===================================================================== *)

(** More facts about [List.find], [List.filter], [update_where] and
    [returning]. *)
Section Lookups.
Context {A : Type}.

Lemma find_all_false (P : A -> bool) (rows : list A) :
  (forall r, In r rows -> P r = false) -> List.find P rows = None.
Proof.
  induction rows as [|r rows IH]; simpl; intros H; [reflexivity|].
  rewrite (H r (or_introl eq_refl)). apply IH. intros x Hx. apply H. now right.
Qed.

Lemma filter_all_true (P : A -> bool) (rows : list A) :
  (forall r, In r rows -> P r = true) -> List.filter P rows = rows.
Proof.
  induction rows as [|r rows IH]; simpl; intros H; [reflexivity|].
  rewrite (H r (or_introl eq_refl)). f_equal. apply IH. intros x Hx. apply H. now right.
Qed.

Lemma find_ext_eq (P Q : A -> bool) (rows : list A) :
  (forall r, P r = Q r) -> List.find P rows = List.find Q rows.
Proof.
  intros H. induction rows as [|r rows IH]; simpl; [reflexivity|].
  now rewrite H, IH.
Qed.

(** A refinement of the lookup by key finds the same row when the row
    passes the extra condition. *)
Lemma find_by_key_and (key : A -> nat) (Q : A -> bool) k (rows : list A) c :
  List.find (fun r => key r =? k) rows = Some c -> Q c = true ->
  List.find (fun r => (key r =? k) && Q r) rows = Some c.
Proof.
  induction rows as [|r rows IH]; simpl; [discriminate|].
  destruct (key r =? k); simpl.
  - intros [= ->] ->. reflexivity.
  - exact IH.
Qed.


Lemma find_map_inv (P : A -> bool) (g : A -> A) (rows : list A) :
  (forall r, P (g r) = P r) ->
  List.find P (map g rows) = option_map g (List.find P rows).
Proof.
  intros HP. induction rows as [|r rows IH]; simpl; [reflexivity|].
  rewrite HP. now destruct (P r).
Qed.

Lemma returning_map_inv (P : A -> bool) (f g : A -> A) (rows : list A) :
  (forall r, P (g r) = P r) -> (forall r, f (g r) = f r) ->
  returning P f (map g rows) = returning P f rows.
Proof.
  intros HP Hf. unfold returning.
  induction rows as [|r rows IH]; simpl; [reflexivity|].
  rewrite HP. destruct (P r); simpl; [now rewrite Hf, IH | exact IH].
Qed.

Lemma filter_map_inv_length (P : A -> bool) (g : A -> A) (rows : list A) :
  (forall r, P (g r) = P r) ->
  length (List.filter P (map g rows)) = length (List.filter P rows).
Proof.
  intros HP. induction rows as [|r rows IH]; simpl; [reflexivity|].
  rewrite HP. destruct (P r); simpl; now rewrite IH.
Qed.

Lemma update_where_same (P : A -> bool) (f : A -> A) (rows : list A) :
  (forall r, In r rows -> P r = false) -> update_where P f rows = rows.
Proof.
  induction rows as [|r rows IH]; simpl; intros H; [reflexivity|].
  rewrite (H r (or_introl eq_refl)). f_equal. apply IH. intros x Hx. apply H. now right.
Qed.

(** Two updates with the same idempotent [set] are one update of the rows
    either reaches. *)
Lemma update_where_twice (P Q : A -> bool) (f : A -> A) (rows : list A) :
  (forall r, f (f r) = f r) -> (forall r, P (f r) = P r) ->
  update_where P f (update_where Q f rows)
  = update_where (fun r => Q r || P r) f rows.
Proof.
  intros Hf HP. unfold update_where. rewrite map_map. apply map_ext.
  intros r. destruct (Q r); simpl.
  - rewrite HP. destruct (P r); [apply Hf | reflexivity].
  - reflexivity.
Qed.

End Lookups.

Module TicketExtras.
Import Tickets TicketDesk TicketFacts.

Ltac refused := left; split; [reflexivity | discriminate].

(** A single-ticket mutation either answers something other than 200 and
    leaves the database as it was, or it has read a live ticket, written it
    through the version guard, and appended its records. *)
Lemma mutate_cases db id m now :
  (fst (mutate db id m now) = db /\ code (snd (mutate db id m now)) <> 200)
  \/ exists existing f updated rest,
       select_live db id = Some existing
       /\ (forall r, tid (f r) = tid r)
       /\ (forall r, deletedAt (f r) = deletedAt r)
       /\ returning (at_version id (version existing)) f (loanRequests db) = updated :: rest
       /\ loanRequests (fst (mutate db id m now))
          = update_where (at_version id (version existing)) f (loanRequests db)
       /\ users (fst (mutate db id m now)) = users db
       /\ snd (mutate db id m now) = mkResponse 200 (BSuccess updated)
       /\ (exists logs, logs <> []
             /\ loanRequestAuditLogs (fst (mutate db id m now))
                = loanRequestAuditLogs db ++ logs
             /\ Forall (fun a => al_loanRequestId a = id /\ al_actorId a = actor_of m) logs)
       /\ (exists records,
             loanRequestAssignments (fst (mutate db id m now))
             = loanRequestAssignments db ++ records
             /\ Forall (fun a => as_loanRequestId a = id /\ as_assignedById a = actor_of m)
                       records).
Proof.
  destruct m as [financeId | financeId r | adminId r | adminId r | adminId reason]; simpl.
  - unfold takeLoanRequest.
    destruct (select_live db id) as [existing|] eqn:Hsel; [|refused].
    destruct (_ && _); [refused|].
    destruct (returning _ _ _) as [|updated rest] eqn:Hret; [refused|].
    right. exists existing, (take_set financeId now), updated, rest. simpl.
    do 7 (split; [first [reflexivity | assumption]|]). split.
    + eexists [_; _]. split; [discriminate|]. split; [now rewrite <- app_assoc|].
      repeat constructor.
    + eexists [_]. split; [reflexivity | repeat constructor].
  - unfold updateLoanRequestStatus, updateLoanRequestStatus_read,
      updateLoanRequestStatus_write.
    destruct (negb (status_schema_ok r)); [refused|].
    destruct (_ && _); [refused|].
    destruct (select_live db id) as [existing|] eqn:Hsel; [|refused].
    destruct (negb _); [refused|].
    destruct (returning _ _ _) as [|updated rest] eqn:Hret; [refused|].
    right. exists existing, (status_set (req_status r) now), updated, rest. simpl.
    do 7 (split; [first [reflexivity | assumption]|]). split.
    + eexists [_]. split; [discriminate|]. split; [reflexivity | repeat constructor].
    + exists []. split; [now rewrite app_nil_r | constructor].
  - unfold changeAdminLoanRequestStatus.
    destruct (negb (status_schema_ok r)); [refused|].
    destruct (_ && _); [refused|].
    destruct (select_live db id) as [existing|] eqn:Hsel; [|refused].
    destruct (returning _ _ _) as [|updated rest] eqn:Hret; [refused|].
    right. exists existing, (status_set (req_status r) now), updated, rest. simpl.
    do 7 (split; [first [reflexivity | assumption]|]). split.
    + eexists [_]. split; [discriminate|]. split; [reflexivity | repeat constructor].
    + exists []. split; [now rewrite app_nil_r | constructor].
  - unfold reassignLoanRequest.
    destruct (negb (reassign_schema_ok r)); [refused|].
    destruct (_ && _); [refused|].
    destruct (select_live db id) as [existing|] eqn:Hsel; [|refused].
    assert (Hto : forall target,
      (fst (reassign_to db id adminId r existing target now) = db
       /\ code (snd (reassign_to db id adminId r existing target now)) <> 200)
      \/ exists existing0 f updated rest,
           Some existing = Some existing0
           /\ (forall r0, tid (f r0) = tid r0)
           /\ (forall r0, deletedAt (f r0) = deletedAt r0)
           /\ returning (at_version id (version existing0)) f (loanRequests db)
              = updated :: rest
           /\ loanRequests (fst (reassign_to db id adminId r existing target now))
              = update_where (at_version id (version existing0)) f (loanRequests db)
           /\ users (fst (reassign_to db id adminId r existing target now)) = users db
           /\ snd (reassign_to db id adminId r existing target now)
              = mkResponse 200 (BSuccess updated)
           /\ (exists logs, logs <> []
                 /\ loanRequestAuditLogs (fst (reassign_to db id adminId r existing target now))
                    = loanRequestAuditLogs db ++ logs
                 /\ Forall (fun a => al_loanRequestId a = id /\ al_actorId a = adminId) logs)
           /\ (exists records,
                 loanRequestAssignments (fst (reassign_to db id adminId r existing target now))
                 = loanRequestAssignments db ++ records
                 /\ Forall (fun a => as_loanRequestId a = id /\ as_assignedById a = adminId)
                           records)).
    { intros target. unfold reassign_to.
      destruct (List.find _ (users db)); [|refused]. cbv zeta.
      destruct (returning _ _ _) as [|updated rest] eqn:Hret; [refused|].
      right. exists existing, (reassign_set target existing now), updated, rest. simpl.
      do 7 (split; [first [reflexivity | assumption]|]). split.
      - eexists [_]. split; [discriminate|]. split; [reflexivity | repeat constructor].
      - eexists [_]. split; [reflexivity | repeat constructor]. }
    destruct (truthy_bool (rr_autoAssign r)).
    + destruct (leastBusy db) as [u|]; [apply Hto | refused].
    + destruct (rr_assigneeId r) as [target|]; [apply Hto | refused].
  - unfold escalateLoanRequest.
    destruct (negb (reason_schema_ok reason)); [refused|].
    destruct (select_live db id) as [existing|] eqn:Hsel; [|refused].
    destruct (returning _ _ _) as [|updated rest] eqn:Hret; [refused|].
    right. exists existing, (escalate_set reason now), updated, rest. simpl.
    do 7 (split; [first [reflexivity | assumption]|]). split.
    + eexists [_]. split; [discriminate|]. split; [reflexivity | repeat constructor].
    + exists []. split; [now rewrite app_nil_r | constructor].
Qed.


(** X1. A refused mutation has written nothing: when a single-ticket mutation
    is answered 400, 404 or 409, or a bulk mutation 400, the database is as
    it was.  (An answer of 500 tells that a statement failed; it says
    nothing about the statements sent before it.) *)
Theorem refused_mutation_changes_nothing db now :
  (forall id m, In (code (snd (mutate db id m now))) [400; 404; 409] ->
     fst (mutate db id m now) = db)
  /\ (forall b, code (snd (bulk_mutate db b now)) = 400 -> fst (bulk_mutate db b now) = db).
Proof.
  split.
  - intros id m Hcode.
    destruct (mutate_cases db id m now)
      as [[Hdb _] | (existing & f & updated & rest & _ & _ & _ & _ & _ & _ & Hresp & _)];
      [exact Hdb|].
    rewrite Hresp in Hcode. simpl in Hcode.
    destruct Hcode as [H|[H|[H|[]]]]; discriminate H.
  - intros [adminId r | adminId ids reason]; simpl.
    + unfold bulkReassignLoanRequests.
      destruct (negb (ids_schema_ok (br_ids r))); [reflexivity|].
      destruct (_ && _); [reflexivity|].
      destruct (truthy_bool (br_autoAssign r)).
      * destruct (leastBusy db); [discriminate | reflexivity].
      * destruct (br_assigneeId r); [discriminate | reflexivity].
    + unfold bulkEscalateLoanRequests.
      destruct (negb _); [reflexivity | discriminate].
Qed.

Lemma refused_mutation_changes_nothing_witness :
  let t := mkLoanRequest 7 closed (Some 3) 4 "normal" false None 0 0 None in
  let asha := mkUser 3 (Some "Asha") "employee" "Finance" true in
  let ravi := mkUser 4 (Some "Ravi") "employee" "Finance" true in
  let root := mkUser 1 (Some "Root") "admin" "" true in
  let db := mkDB [t] [root; asha; ravi] [] [] in
  (code (snd (mutate db 7 (ChangeStatus 3 (mkStatusRequest received None)) 50)) = 400
   /\ fst (mutate db 7 (ChangeStatus 3 (mkStatusRequest received None)) 50) = db)
  /\ (code (snd (mutate db 8 (Take 3) 50)) = 404 /\ fst (mutate db 8 (Take 3) 50) = db)
  /\ (code (snd (mutate db 7 (Take 4) 50)) = 409 /\ fst (mutate db 7 (Take 4) 50) = db)
  /\ (code (snd (bulk_mutate db (BulkEscalate 1 [7] "short") 50)) = 400
      /\ fst (bulk_mutate db (BulkEscalate 1 [7] "short") 50) = db).
Proof.
  intros t asha ravi root db. split; [|split; [|split]]; (split; [reflexivity|]).
  - apply (proj1 (refused_mutation_changes_nothing db 50)). vm_compute. auto.
  - apply (proj1 (refused_mutation_changes_nothing db 50)). vm_compute. auto.
  - apply (proj1 (refused_mutation_changes_nothing db 50)). vm_compute. auto.
  - apply (proj2 (refused_mutation_changes_nothing db 50)). vm_compute. reflexivity.
Defined.

(** X2. A single-ticket mutation leaves every other ticket, and the users, as
    they were. *)
Theorem mutation_touches_one_ticket db id m now j :
  j <> id ->
  select_current (fst (mutate db id m now)) j = select_current db j
  /\ users (fst (mutate db id m now)) = users db.
Proof.
  intros Hj.
  destruct (mutate_cases db id m now)
    as [[-> _] | (existing & f & updated & rest & _ & Hk & _ & _ & Hrows & Husers & _)];
    [now split|].
  split; [|exact Husers].
  unfold select_current. rewrite Hrows, (find_update_where tid) by exact Hk.
  destruct (List.find _ (loanRequests db)) as [r|] eqn:Hr; [|reflexivity]. simpl.
  destruct (at_version id (version existing) r) eqn:HP; [|reflexivity].
  exfalso. apply Hj. apply List.find_some in Hr as [_ Hr]. apply Nat.eqb_eq in Hr.
  rewrite <- Hr. now apply (at_version_tid id (version existing)).
Qed.

Lemma mutation_touches_one_ticket_witness :
  let a := mkLoanRequest 7 received None 1 "normal" false None 0 0 None in
  let b := mkLoanRequest 8 received None 1 "normal" false None 0 0 None in
  let asha := mkUser 3 (Some "Asha") "employee" "Finance" true in
  let db := mkDB [a; b] [asha] [] [] in
  code (snd (mutate db 7 (Take 3) 50)) = 200
  /\ select_current (fst (mutate db 7 (Take 3) 50)) 8 = Some b.
Proof.
  intros a b asha db. split; [reflexivity|].
  refine (eq_trans (proj1 (mutation_touches_one_ticket db 7 (Take 3) 50 8 _)) eq_refl).
  discriminate.
Defined.

(** X3. A soft-deleted ticket is out of reach: no mutation of any ticket,
    single or bulk, changes a row whose [deletedAt] is set. *)
Theorem deleted_ticket_untouched db t now :
  primary_key db -> In t (loanRequests db) -> deletedAt t <> None ->
  (forall id m, In t (loanRequests (fst (mutate db id m now))))
  /\ (forall b, In t (loanRequests (fst (bulk_mutate db b now)))).
Proof.
  intros Hpk Hin Hdel. split.
  - intros id m.
    destruct (mutate_cases db id m now)
      as [[-> _] | (existing & f & updated & rest & Hsel & _ & _ & _ & Hrows & _)];
      [exact Hin|].
    rewrite Hrows. unfold update_where. apply List.in_map_iff. exists t.
    split; [|exact Hin].
    destruct (at_version id (version existing) t) eqn:HP; [|reflexivity].
    exfalso. apply at_version_tid in HP.
    unfold select_live in Hsel. apply List.find_some in Hsel as [Hein He].
    apply andb_prop in He as [He1 He2]. apply Nat.eqb_eq in He1.
    assert (t = existing)
      by (apply (same_key_same_row tid (loanRequests db)); auto; congruence).
    subst t. destruct (deletedAt existing); [discriminate | contradiction].
  - assert (Hout : forall ids, in_bulk ids t = false).
    { intros ids. unfold in_bulk. destruct (deletedAt t); [|contradiction].
      apply andb_false_r. }
    assert (Hkeep : forall ids f, In t (update_where (in_bulk ids) f (loanRequests db))).
    { intros ids f. unfold update_where. apply List.in_map_iff. exists t.
      now rewrite Hout. }
    intros [adminId r | adminId ids reason]; simpl.
    + destruct (bulk_reassign_rows db adminId r now) as [-> | [target ->]]; auto.
    + destruct (bulk_escalate_rows db adminId ids reason now) as [-> | ->]; auto.
Qed.

Lemma deleted_ticket_untouched_witness :
  let gone := mkLoanRequest 7 received None 1 "normal" false None 0 0 (Some 9%Z) in
  let root := mkUser 1 (Some "Root") "admin" "" true in
  let asha := mkUser 3 (Some "Asha") "employee" "Finance" true in
  let db := mkDB [gone] [root; asha] [] [] in
  code (snd (mutate db 7 (Take 3) 50)) = 404
  /\ In gone (loanRequests (fst (mutate db 7 (Take 3) 50)))
  /\ snd (bulk_mutate db (BulkEscalate 1 [7] "no answer in time") 50)
     = mkResponse 200 (BCount 0)
  /\ In gone (loanRequests (fst (bulk_mutate db (BulkEscalate 1 [7] "no answer in time") 50))).
Proof.
  intros gone root asha db.
  assert (Hpk : primary_key db) by (repeat constructor; simpl; tauto).
  assert (Hin : In gone (loanRequests db)) by (simpl; auto).
  assert (Hdel : deletedAt gone <> None) by discriminate.
  split; [reflexivity|]. split; [|split; [reflexivity|]].
  - exact (proj1 (deleted_ticket_untouched db gone 50 Hpk Hin Hdel) 7 (Take 3)).
  - exact (proj2 (deleted_ticket_untouched db gone 50 Hpk Hin Hdel)
             (BulkEscalate 1 [7] "no answer in time")).
Defined.

(** X4. The audit trail of single-ticket mutations: the log only grows, what is
    appended names the ticket and the caller, and something is appended
    exactly when the answer is 200. *)
Theorem mutation_audit_trail db id m now :
  exists logs,
    loanRequestAuditLogs (fst (mutate db id m now)) = loanRequestAuditLogs db ++ logs
    /\ Forall (fun a => al_loanRequestId a = id /\ al_actorId a = actor_of m) logs
    /\ (code (snd (mutate db id m now)) = 200 <-> logs <> []).
Proof.
  destruct (mutate_cases db id m now)
    as [[Hdb Hcode] | (existing & f & updated & rest & _ & _ & _ & _ & _ & _ & Hresp
                       & (logs & Hne & Hlogs & Hall) & _)].
  - exists []. rewrite Hdb, app_nil_r. split; [reflexivity|]. split; [constructor|].
    split; [intros H; contradiction | intros H; now contradiction H].
  - exists logs. split; [exact Hlogs|]. split; [exact Hall|].
    rewrite Hresp. split; [intros _; exact Hne | reflexivity].
Qed.


Lemma fold_bulk_reassigned adminId target (updated : list LoanRequest) : forall db,
  let db' :=
    fold_left
      (fun d ticket =>
         createAuditLog
           (insert_assignment d
              (mkAssignment (tid ticket) adminId target (Some "Bulk reassigned")))
           (tid ticket) adminId "bulk_reassigned" None
           (Some (num_toString target)) None)
      updated db in
  loanRequestAssignments db'
  = loanRequestAssignments db
    ++ map (fun t => mkAssignment (tid t) adminId target (Some "Bulk reassigned")) updated
  /\ loanRequestAuditLogs db'
     = loanRequestAuditLogs db
       ++ map (fun t => mkAuditLog (tid t) adminId "bulk_reassigned" None
                          (or_null (Some (num_toString target))) None) updated.
Proof.
  induction updated as [|t updated IH]; intros db; simpl.
  - now rewrite !app_nil_r.
  - destruct (IH (createAuditLog
                    (insert_assignment db
                       (mkAssignment (tid t) adminId target (Some "Bulk reassigned")))
                    (tid t) adminId "bulk_reassigned" None
                    (Some (num_toString target)) None)) as [Ha Hl].
    simpl in Ha, Hl. rewrite Ha, Hl. now rewrite <- !app_assoc.
Qed.

Lemma fold_bulk_escalated adminId reason (updated : list LoanRequest) : forall db,
  let db' :=
    fold_left
      (fun d ticket =>
         createAuditLog d (tid ticket) adminId "bulk_escalated" None
           (Some "high") (Some reason))
      updated db in
  loanRequestAssignments db' = loanRequestAssignments db
  /\ loanRequestAuditLogs db'
     = loanRequestAuditLogs db
       ++ map (fun t => mkAuditLog (tid t) adminId "bulk_escalated" None
                          (Some "high") (or_null (Some reason))) updated.
Proof.
  induction updated as [|t updated IH]; intros db; simpl.
  - now rewrite !app_nil_r.
  - destruct (IH (createAuditLog db (tid t) adminId "bulk_escalated" None
                    (Some "high") (Some reason))) as [Ha Hl].
    simpl in Ha, Hl. rewrite Ha, Hl. now rewrite <- !app_assoc.
Qed.

Lemma map_returning {B} (g : nat -> B) P f (rows : list LoanRequest) :
  (forall r, tid (f r) = tid r) ->
  map (fun t => g (tid t)) (returning P f rows)
  = map (fun t => g (tid t)) (List.filter P rows).
Proof.
  intros Hk. unfold returning. rewrite map_map. apply map_ext.
  intros r. now rewrite Hk.
Qed.

(** X5. The records of the bulk operations.  A bulk escalation that answers 200
    reports the number of listed tickets that are not deleted and appends
    one audit entry for each of them, in table order; a bulk reassignment
    (to the least busy employee, or to an assignee that names a user)
    appends, besides, one assignment record for each. *)
Theorem bulk_records db adminId now :
  (forall ids reason,
     let out := bulkEscalateLoanRequests db adminId ids reason now in
     let hit := List.filter (in_bulk ids) (loanRequests db) in
     code (snd out) = 200 ->
     snd out = mkResponse 200 (BCount (length hit))
     /\ loanRequestAssignments (fst out) = loanRequestAssignments db
     /\ loanRequestAuditLogs (fst out)
        = loanRequestAuditLogs db
          ++ map (fun t => mkAuditLog (tid t) adminId "bulk_escalated" None
                             (Some "high") (or_null (Some reason))) hit)
  /\ (forall r,
        let out := bulkReassignLoanRequests db adminId r now in
        let hit := List.filter (in_bulk (br_ids r)) (loanRequests db) in
        (truthy_bool (br_autoAssign r) = true
         \/ exists u, In u (users db) /\ br_assigneeId r = Some (uid u)) ->
        code (snd out) = 200 ->
        exists target,
          snd out = mkResponse 200 (BCount (length hit))
          /\ loanRequestAssignments (fst out)
             = loanRequestAssignments db
               ++ map (fun t => mkAssignment (tid t) adminId target (Some "Bulk reassigned"))
                      hit
          /\ loanRequestAuditLogs (fst out)
             = loanRequestAuditLogs db
               ++ map (fun t => mkAuditLog (tid t) adminId "bulk_reassigned" None
                                  (or_null (Some (num_toString target))) None) hit).
Proof.
  split.
  - intros ids reason out hit. subst out hit. unfold bulkEscalateLoanRequests.
    destruct (negb _); [discriminate|]. intros _. cbv zeta.
    set (f := bulk_escalate_set reason now).
    destruct (fold_bulk_escalated adminId reason
                (returning (in_bulk ids) f (loanRequests db))
                (set_loanRequests db (update_where (in_bulk ids) f (loanRequests db))))
      as [Ha Hl].
    cbn [fst snd]. split; [|split].
    + unfold returning. now rewrite length_map.
    + exact Ha.
    + rewrite Hl. simpl. f_equal.
      now apply (map_returning
                   (fun i => mkAuditLog i adminId "bulk_escalated" None (Some "high")
                               (or_null (Some reason)))).
  - intros r out hit _. subst out hit.
    assert (Hto : forall target,
      let out := bulk_reassign_to db adminId (br_ids r) target now in
      let hit := List.filter (in_bulk (br_ids r)) (loanRequests db) in
      snd out = mkResponse 200 (BCount (length hit))
      /\ loanRequestAssignments (fst out)
         = loanRequestAssignments db
           ++ map (fun t => mkAssignment (tid t) adminId target (Some "Bulk reassigned")) hit
      /\ loanRequestAuditLogs (fst out)
         = loanRequestAuditLogs db
           ++ map (fun t => mkAuditLog (tid t) adminId "bulk_reassigned" None
                              (or_null (Some (num_toString target))) None) hit).
    { intros target. unfold bulk_reassign_to. cbv zeta.
      set (f := bulk_reassign_set target now).
      destruct (fold_bulk_reassigned adminId target
                  (returning (in_bulk (br_ids r)) f (loanRequests db))
                  (set_loanRequests db
                     (update_where (in_bulk (br_ids r)) f (loanRequests db))))
        as [Ha Hl].
      cbn [fst snd]. split; [|split].
      - unfold returning. now rewrite length_map.
      - rewrite Ha. simpl. f_equal.
        now apply (map_returning
                     (fun i => mkAssignment i adminId target (Some "Bulk reassigned"))).
      - rewrite Hl. simpl. f_equal.
        now apply (map_returning
                     (fun i => mkAuditLog i adminId "bulk_reassigned" None
                                 (or_null (Some (num_toString target))) None)). }
    unfold bulkReassignLoanRequests.
    destruct (negb (ids_schema_ok (br_ids r))); [discriminate|].
    destruct (_ && _); [discriminate|].
    destruct (truthy_bool (br_autoAssign r)).
    + destruct (leastBusy db) as [u|]; [|discriminate]. intros _.
      exists (uid u). apply Hto.
    + destruct (br_assigneeId r) as [target|]; [|discriminate]. intros _.
      exists target. apply Hto.
Qed.

Lemma bulk_records_witness :
  let a := mkLoanRequest 7 received None 1 "normal" false None 0 0 None in
  let gone := mkLoanRequest 8 received None 1 "normal" false None 0 0 (Some 9%Z) in
  let root := mkUser 1 (Some "Root") "admin" "" true in
  let db := mkDB [a; gone] [root; mkUser 5 (Some "Asha") "employee" "Finance" true] [] [] in
  let out := bulkEscalateLoanRequests db 1 [7; 8; 9] "no answer in time" 50 in
  snd out = mkResponse 200 (BCount 1)
  /\ loanRequestAuditLogs (fst out)
     = [mkAuditLog 7 1 "bulk_escalated" None (Some "high") (Some "no answer in time")]
  /\ exists target,
       snd (bulkReassignLoanRequests db 1 (mkBulkReassignRequest [7; 8] (Some 5) None) 50)
       = mkResponse 200 (BCount 1)
       /\ loanRequestAssignments
            (fst (bulkReassignLoanRequests db 1 (mkBulkReassignRequest [7; 8] (Some 5) None) 50))
          = [mkAssignment 7 1 target (Some "Bulk reassigned")].
Proof.
  intros a gone root db out.
  destruct (proj1 (bulk_records db 1 50) [7; 8; 9] "no answer in time" eq_refl)
    as (Hresp & _ & Hlogs).
  destruct (proj2 (bulk_records db 1 50) (mkBulkReassignRequest [7; 8] (Some 5) None)
              (or_intror (ex_intro _ (mkUser 5 (Some "Asha") "employee" "Finance" true)
                            (conj (or_intror (or_introl eq_refl)) eq_refl)))
              eq_refl)
    as (target & Hresp2 & Hasg & _).
  split; [exact Hresp|]. split; [exact Hlogs|].
  exists target. split; [exact Hresp2 | exact Hasg].
Defined.

Lemma least_loaded_spec db cands u :
  least_loaded db cands = Some u ->
  In u cands
  /\ forall v, In v cands -> openTickets db (uid u) <= openTickets db (uid v).
Proof.
  revert u. induction cands as [|c cands IH]; intros u; simpl; [discriminate|].
  destruct (least_loaded db cands) as [w|] eqn:Hw.
  - destruct (IH w eq_refl) as [Hin Hmin].
    destruct (openTickets db (uid w) <? openTickets db (uid c)) eqn:Hlt;
      intros [= <-].
    + apply Nat.ltb_lt in Hlt. split; [now right|].
      intros v [<-|Hv]; [lia | now apply Hmin].
    + apply Nat.ltb_ge in Hlt. split; [now left|].
      intros v [<-|Hv]; [lia | specialize (Hmin v Hv); lia].
  - intros [= <-]. split; [now left|].
    intros v [<-|Hv]; [lia|]. destruct cands as [|c' cands']; [contradiction|].
    simpl in Hw. destruct (least_loaded db cands'); [destruct (_ <? _)|]; discriminate.
Qed.

Lemma least_loaded_none db cands : least_loaded db cands = None -> cands = [].
Proof.
  destruct cands as [|c cands]; [reflexivity|]. simpl.
  destruct (least_loaded db cands); [destruct (_ <? _)|]; discriminate.
Qed.

Lemma leastBusy_minimal db u :
  leastBusy db = Some u ->
  In u (users db) /\ is_finance_employee u = true
  /\ forall v, In v (users db) -> is_finance_employee v = true ->
       openTickets db (uid u) <= openTickets db (uid v).
Proof.
  unfold leastBusy. intros Hu. apply least_loaded_spec in Hu as [Hin Hmin].
  apply List.filter_In in Hin as [Hin Hfin]. split; [exact Hin|]. split; [exact Hfin|].
  intros v Hv Hvfin. apply Hmin. apply List.filter_In. auto.
Qed.

(** X6. Automatic assignment picks an active finance employee with the fewest
    open tickets (assigned to them, not deleted, neither closed nor
    rejected), and finds none only when there is no active finance
    employee. *)
Theorem leastBusy_is_least_loaded db :
  (forall u, leastBusy db = Some u ->
     In u (users db) /\ is_finance_employee u = true
     /\ forall v, In v (users db) -> is_finance_employee v = true ->
          openTickets db (uid u) <= openTickets db (uid v))
  /\ (leastBusy db = None ->
      forall v, In v (users db) -> is_finance_employee v = false).
Proof.
  split; [apply leastBusy_minimal|].
  - unfold leastBusy. intros Hnone v Hv. apply least_loaded_none in Hnone.
    destruct (is_finance_employee v) eqn:Hfin; [|reflexivity].
    assert (Hin : In v (List.filter is_finance_employee (users db)))
      by (apply List.filter_In; auto).
    rewrite Hnone in Hin. contradiction.
Qed.

Lemma leastBusy_is_least_loaded_witness :
  let asha := mkUser 3 (Some "Asha") "employee" "Finance" true in
  let ravi := mkUser 4 (Some "Ravi") "employee" "Finance" true in
  let sales := mkUser 5 (Some "Tara") "employee" "Sales" true in
  let a := mkLoanRequest 7 under_review (Some 3) 2 "normal" false None 0 0 None in
  let b := mkLoanRequest 8 closed (Some 4) 5 "normal" false None 0 0 None in
  let db := mkDB [a; b] [asha; ravi; sales] [] [] in
  leastBusy db = Some ravi
  /\ openTickets db 4 = 0 /\ openTickets db 3 = 1
  /\ forall v, In v (users db) -> is_finance_employee v = true ->
       openTickets db (uid ravi) <= openTickets db (uid v).
Proof.
  intros asha ravi sales a b db.
  split; [reflexivity|]. split; [reflexivity|]. split; [reflexivity|].
  exact (proj2 (proj2 (proj1 (leastBusy_is_least_loaded db) ravi eq_refl))).
Defined.

(** X7. A reassignment that answers 200 gave the ticket to an active finance
    employee of the users table; with [autoAssign] no active finance
    employee has fewer open tickets than the one chosen. *)
Theorem reassign_assignee_is_finance_employee db id adminId r now updated :
  snd (reassignLoanRequest db id adminId r now) = mkResponse 200 (BSuccess updated) ->
  exists u, In u (users db) /\ is_finance_employee u = true
    /\ assigneeId updated = Some (uid u)
    /\ (truthy_bool (rr_autoAssign r) = true ->
        forall v, In v (users db) -> is_finance_employee v = true ->
          openTickets db (uid u) <= openTickets db (uid v)).
Proof.
  unfold reassignLoanRequest.
  destruct (negb (reassign_schema_ok r)); [discriminate|].
  destruct (_ && _); [discriminate|].
  destruct (select_live db id) as [existing|]; [|discriminate].
  assert (Hto : forall target,
    snd (reassign_to db id adminId r existing target now)
    = mkResponse 200 (BSuccess updated) ->
    exists u, In u (users db) /\ is_finance_employee u = true
      /\ uid u = target /\ assigneeId updated = Some target).
  { intros target. unfold reassign_to.
    destruct (List.find _ (users db)) as [u|] eqn:Hu; [|discriminate]. cbv zeta.
    unfold returning.
    destruct (List.filter _ (loanRequests db)) as [|row rest]; [discriminate|].
    simpl. intros [= <-]. apply List.find_some in Hu as [Hin Hu].
    apply andb_prop in Hu as [Hid Hfin]. apply Nat.eqb_eq in Hid.
    exists u. auto. }
  destruct (truthy_bool (rr_autoAssign r)).
  - destruct (leastBusy db) as [w|] eqn:Hw; [|discriminate]. intros Hresp.
    destruct (Hto (uid w) Hresp) as (u & Hin & Hfin & Hid & Ha).
    exists u. split; [exact Hin|]. split; [exact Hfin|].
    split; [now rewrite Hid|]. intros _ v Hv Hvfin. rewrite Hid.
    now apply (leastBusy_minimal db w Hw).
  - destruct (rr_assigneeId r) as [target|]; [|discriminate]. intros Hresp.
    destruct (Hto target Hresp) as (u & Hin & Hfin & Hid & Ha).
    exists u. split; [exact Hin|]. split; [exact Hfin|].
    split; [now rewrite Hid|]. discriminate.
Qed.


Lemma reassign_assignee_is_finance_employee_witness :
  let asha := mkUser 3 (Some "Asha") "employee" "Finance" true in
  let ravi := mkUser 4 (Some "Ravi") "employee" "Finance" true in
  let root := mkUser 1 (Some "Root") "admin" "" true in
  let a := mkLoanRequest 7 under_review (Some 3) 2 "normal" false None 0 0 None in
  let db := mkDB [a] [root; asha; ravi] [] [] in
  let moved := mkLoanRequest 7 under_review (Some 4) 3 "normal" false None 50 50 None in
  snd (reassignLoanRequest db 7 1 (mkReassignRequest None None (Some true)) 50)
  = mkResponse 200 (BSuccess moved)
  /\ exists u, In u (users db) /\ is_finance_employee u = true
       /\ assigneeId moved = Some (uid u)
       /\ (truthy_bool (Some true) = true ->
           forall v, In v (users db) -> is_finance_employee v = true ->
             openTickets db (uid u) <= openTickets db (uid v)).
Proof.
  intros asha ravi root a db moved. split; [reflexivity|].
  exact (reassign_assignee_is_finance_employee db 7 1
           (mkReassignRequest None None (Some true)) 50 moved eq_refl).
Defined.

(** X8. The bulk reassignment does not look at who the assignee is.  For a
    user who is no active finance employee, the reassignment of a live
    ticket is refused with 400 and writes nothing, while a bulk
    reassignment that lists the ticket answers 200 and stores that user as
    the assignee. *)
Theorem bulk_reassign_skips_assignee_check db id adminId r br target existing now :
  primary_key db ->
  select_live db id = Some existing ->
  (exists u, In u (users db) /\ uid u = S target) ->
  (forall u, In u (users db) -> uid u = S target -> is_finance_employee u = false) ->
  reassign_schema_ok r = true ->
  rr_assigneeId r = Some (S target) -> truthy_bool (rr_autoAssign r) = false ->
  ids_schema_ok (br_ids br) = true -> In id (br_ids br) ->
  br_assigneeId br = Some (S target) -> truthy_bool (br_autoAssign br) = false ->
  reassignLoanRequest db id adminId r now = (db, mkResponse 400 (BMessage "Invalid assignee"))
  /\ code (snd (bulkReassignLoanRequests db adminId br now)) = 200
  /\ option_map assigneeId (select_current (fst (bulkReassignLoanRequests db adminId br now)) id)
     = Some (Some (S target)).
Proof.
  intros Hpk Hsel _ Hnot Hschema Hr Hauto Hids Hin Hbr Hbauto. split; [|split].
  - unfold reassignLoanRequest. rewrite Hschema, Hr, Hauto, Hsel. simpl.
    unfold reassign_to.
    destruct (List.find _ (users db)) as [u|] eqn:Hu; [|reflexivity].
    apply List.find_some in Hu as [Huin Hu]. apply andb_prop in Hu as [Hid Hfin].
    apply Nat.eqb_eq in Hid. rewrite (Hnot u Huin Hid) in Hfin. discriminate.
  - unfold bulkReassignLoanRequests. now rewrite Hids, Hbr, Hbauto.
  - assert (Hcode : code (snd (bulkReassignLoanRequests db adminId br now)) = 200)
      by (unfold bulkReassignLoanRequests; now rewrite Hids, Hbr, Hbauto).
    unfold select_current.
    assert (Hrows : loanRequests (fst (bulkReassignLoanRequests db adminId br now))
                    = update_where (in_bulk (br_ids br)) (bulk_reassign_set (S target) now)
                                   (loanRequests db)).
    { unfold bulkReassignLoanRequests. rewrite Hids, Hbr, Hbauto. simpl.
      now rewrite fold_keeps_loanRequests. }
    rewrite Hrows, (find_update_where tid) by reflexivity.
    pose proof (select_live_current db id existing Hpk Hsel) as Hcur.
    unfold select_current in Hcur. rewrite Hcur. simpl.
    assert (Hhit : in_bulk (br_ids br) existing = true).
    { unfold in_bulk. apply andb_true_intro.
      unfold select_live in Hsel. apply List.find_some in Hsel as [_ He].
      apply andb_prop in He as [He1 He2]. split; [|exact He2].
      apply List.existsb_exists. exists id. split; [exact Hin | exact He1]. }
    now rewrite Hhit.
Qed.

Lemma bulk_reassign_skips_assignee_check_witness :
  let t := mkLoanRequest 7 under_review (Some 3) 4 "normal" false None 0 0 None in
  let root := mkUser 1 (Some "Root") "admin" "" true in
  let asha := mkUser 3 (Some "Asha") "employee" "Finance" true in
  let customer := mkUser 9 (Some "Kiran") "customer" "" true in
  let db := mkDB [t] [root; asha; customer] [] [] in
  reassignLoanRequest db 7 1 (mkReassignRequest (Some 9) None None) 50
  = (db, mkResponse 400 (BMessage "Invalid assignee"))
  /\ code (snd (bulkReassignLoanRequests db 1 (mkBulkReassignRequest [7] (Some 9) None) 50))
     = 200
  /\ option_map assigneeId
       (select_current
          (fst (bulkReassignLoanRequests db 1 (mkBulkReassignRequest [7] (Some 9) None) 50)) 7)
     = Some (Some 9).
Proof.
  intros t root asha customer db.
  apply (bulk_reassign_skips_assignee_check db 7 1 (mkReassignRequest (Some 9) None None)
           (mkBulkReassignRequest [7] (Some 9) None) 8 t 50).
  - repeat constructor; simpl; tauto.
  - reflexivity.
  - exists customer. simpl. auto.
  - intros u [<-|[<-|[<-|[]]]] Hu; first [discriminate Hu | reflexivity].
  - reflexivity.
  - reflexivity.
  - reflexivity.
  - reflexivity.
  - simpl. auto.
  - reflexivity.
  - reflexivity.
Defined.

End TicketExtras.

Module DeskFacts.
Import Tickets TicketDesk TicketFacts.

(** X9. Both comment handlers write one column of one ticket.  Whatever the
    answer, the rows of the ticket table are as they were except that, when
    the answer is 200, the rows with the id of the commented ticket have
    [lastActivityAt] set to the time of the call: status, assignee,
    version, priority, escalation, [updatedAt] and the deletion mark stay.
    Users and assignment records are not touched, and an answer other than
    200 comes with nothing written at all. *)
Theorem comment_keeps_workflow_state fallback d id author r now :
  let out := add_comment fallback d id author r now in
  (c_code (snd out) <> 200 -> fst out = d)
  /\ (c_code (snd out) = 200 ->
      loanRequests (tickets (fst out))
      = map (fun t => if tid t =? id
                      then mkLoanRequest (tid t) (status t) (assigneeId t) (version t)
                             (priority t) (isEscalated t) (escalationReason t) now
                             (updatedAt t) (deletedAt t)
                      else t)
            (loanRequests (tickets d)))
  /\ users (tickets (fst out)) = users (tickets d)
  /\ loanRequestAssignments (tickets (fst out)) = loanRequestAssignments (tickets d).
Proof.
  unfold add_comment.
  destruct (negb (comment_schema_ok r)); [simpl; repeat split; discriminate|].
  destruct (select_live (tickets d) id) as [existing|]; [|simpl; repeat split; discriminate].
  destruct (negb (is_user (tickets d) author) || has_nul (cr_text r));
    [simpl; repeat split; discriminate|].
  cbn [fst snd c_code tickets].
  split; [intros H; now contradiction H|]. split; [|split; reflexivity].
  intros _. reflexivity.
Qed.

(** X10. Which comments are accepted, and what an accepted comment leaves.
    The answer is 200 exactly when the text has 1 to 1000 code units and no
    U+0000, the ticket exists and is not deleted, and the author is a user:
    the status of the ticket plays no part.  Then the comment is stored
    whole under a fresh id, and the audit entry keeps
    [text.substring(0, 100)]: at most a hundred code units, the whole text
    when it has no more, and on a text of ASCII characters its first
    hundred characters. *)
Theorem comment_recorded fallback d id author r now :
  let out := add_comment fallback d id author r now in
  (c_code (snd out) = 200
   <-> comment_schema_ok r = true /\ select_live (tickets d) id <> None
       /\ is_user (tickets d) author = true /\ has_nul (cr_text r) = false)
  /\ (c_code (snd out) = 200 ->
      let comment :=
        mkComment (nextUuid d) id author (cr_text r)
          (match cr_isPublic r with Some b => b | None => false end) now in
      let excerpt := js_substring 100 (cr_text r) in
      loanRequestComments (fst out) = loanRequestComments d ++ [comment]
      /\ loanRequestAuditLogs (tickets (fst out))
         = loanRequestAuditLogs (tickets d)
           ++ [mkAuditLog id author "comment_added" None (Some excerpt) None]
      /\ js_length excerpt <= 100
      /\ (js_length (cr_text r) <= 100 -> excerpt = cr_text r)
      /\ (is_ascii (cr_text r) = true -> excerpt = String.substring 0 100 (cr_text r))).
Proof.
  unfold add_comment.
  destruct (comment_schema_ok r) eqn:Hschema; cbn [negb];
    [|split; [split; [discriminate | intros [H _]; discriminate H] | discriminate]].
  destruct (select_live (tickets d) id) as [existing|];
    [|split; [split; [discriminate | intros (_ & H & _); now contradiction H]
             | discriminate]].
  destruct (is_user (tickets d) author); cbn [negb orb];
    [|split; [split; [discriminate | intros (_ & _ & H & _); discriminate H]
             | discriminate]].
  destruct (has_nul (cr_text r));
    [split; [split; [discriminate | intros (_ & _ & _ & H); discriminate H]
            | discriminate]|].
  cbn [fst snd c_code]. split; [split; [intros _; repeat split; discriminate | reflexivity]|].
  intros _. cbv zeta. cbn [tickets loanRequestComments].
  assert (Htext : cr_text r <> "").
  { unfold comment_schema_ok in Hschema. apply andb_prop in Hschema as [H1 _].
    apply Nat.leb_le in H1. now apply js_length_nonempty. }
  split; [reflexivity|]. split.
  - unfold createAuditLog. cbn [loanRequestAuditLogs set_loanRequests]. do 2 f_equal.
    unfold or_null at 2.
    destruct (decide (js_substring 100 (cr_text r) = "")) as [Heq|_]; [|reflexivity].
    exfalso. revert Heq. apply js_substring_nonempty; [exact Htext | lia].
  - split; [apply js_length_substring|].
    split; [apply js_substring_whole | apply js_substring_ascii].
Qed.

(** The theorem on a closed ticket: a short comment of employee 3 is kept
    whole, one of 120 characters is cut to its first hundred, and the same
    comment by someone who is no user is answered 500. *)
Lemma comment_recorded_witness :
  let t := mkLoanRequest 7 closed (Some 3) 4 "normal" false None 0 0 None in
  let d := mkDesk (mkDB [t] [mkUser 3 None "employee" "Finance" true] [] []) [] 0 in
  let r := mkCommentRequest "called back" None in
  let long := mkCommentRequest
                (String.concat "" (repeat "0123456789" 12)) (Some true) in
  snd (addLoanRequestComment d 7 3 r 50)
  = mkCommentResponse 200 (CBComment (mkComment 0 7 3 "called back" false 50) "Unknown")
  /\ loanRequestAuditLogs (tickets (fst (addLoanRequestComment d 7 3 r 50)))
     = [mkAuditLog 7 3 "comment_added" None (Some "called back") None]
  /\ loanRequestAuditLogs (tickets (fst (addLoanRequestComment d 7 3 long 50)))
     = [mkAuditLog 7 3 "comment_added" None
          (Some (String.concat "" (repeat "0123456789" 10))) None]
  /\ c_code (snd (addLoanRequestComment d 7 9 r 50)) = 500.
Proof.
  intros t d r long. split; [reflexivity|].
  destruct (proj2 (comment_recorded "Unknown" d 7 3 r 50) eq_refl)
    as (_ & Hlog & _ & Hwhole & _).
  destruct (proj2 (comment_recorded "Unknown" d 7 3 long 50) eq_refl)
    as (_ & Hlog' & _ & _ & Hcut).
  split; [|split; [|reflexivity]].
  - unfold addLoanRequestComment. rewrite Hlog, Hwhole; [reflexivity | vm_compute; lia].
  - unfold addLoanRequestComment. rewrite Hlog', Hcut; [|reflexivity].
    vm_compute. reflexivity.
Defined.


(** Two ticket tables that differ in [lastActivityAt] only. *)
Section Touched.
Variables (db db' : DB) (g : LoanRequest -> LoanRequest).
Hypothesis Hrows : loanRequests db' = map g (loanRequests db).
Hypothesis Husers : users db' = users db.
Hypothesis Hg : forall t, g t = t \/ exists n, g t = touch n t.

Lemma touched_select_live id :
  select_live db' id = option_map g (select_live db id).
Proof using Hrows Hg.
  unfold select_live. rewrite Hrows. apply find_map_inv.
  intros r. destruct (Hg r) as [-> | [n ->]]; reflexivity.
Qed.

Lemma touched_returning P f :
  (forall r n, P (touch n r) = P r) -> (forall r n, f (touch n r) = f r) ->
  returning P f (loanRequests db') = returning P f (loanRequests db).
Proof using Hrows Hg.
  intros HP Hf. rewrite Hrows. apply returning_map_inv.
  - intros r. destruct (Hg r) as [-> | [n ->]]; [reflexivity | apply HP].
  - intros r. destruct (Hg r) as [-> | [n ->]]; [reflexivity | apply Hf].
Qed.

Lemma touched_leastBusy : leastBusy db' = leastBusy db.
Proof using Hrows Husers Hg.
  unfold leastBusy. rewrite Husers.
  assert (Hopen : forall u, openTickets db' u = openTickets db u).
  { intros u. unfold openTickets. rewrite Hrows. apply filter_map_inv_length.
    intros r. destruct (Hg r) as [-> | [n ->]]; reflexivity. }
  induction (List.filter is_finance_employee (users db)) as [|c cands IH];
    simpl; [reflexivity|].
  rewrite IH. destruct (least_loaded db cands); [|reflexivity].
  now rewrite !Hopen.
Qed.

Lemma touched_mutate id m now :
  code (snd (mutate db' id m now)) = code (snd (mutate db id m now))
  /\ (code (snd (mutate db id m now)) = 200 ->
      snd (mutate db' id m now) = snd (mutate db id m now)).
Proof using Hrows Husers Hg.
  assert (Hw : forall f existing (k k' : LoanRequest -> DB) c c',
    (forall r n, f (touch n r) = f r) ->
    let out' := match returning (at_version id (version existing)) f (loanRequests db') with
                | [] => (db', mkResponse 409 c')
                | updated :: _ => (k' updated, mkResponse 200 (BSuccess updated))
                end in
    let out := match returning (at_version id (version existing)) f (loanRequests db) with
               | [] => (db, mkResponse 409 c)
               | updated :: _ => (k updated, mkResponse 200 (BSuccess updated))
               end in
    code (snd out') = code (snd out)
    /\ (code (snd out) = 200 -> snd out' = snd out)).
  { intros f existing k k' c c' Hf. rewrite (touched_returning _ f); [|reflexivity|exact Hf].
    destruct (returning _ f (loanRequests db)); simpl; split; auto. discriminate. }
  assert (Hfield : forall t, status (g t) = status t /\ assigneeId (g t) = assigneeId t
                             /\ version (g t) = version t).
  { intros t. destruct (Hg t) as [-> | [n ->]]; auto. }
  destruct m as [financeId | financeId r | adminId r | adminId r | adminId reason]; simpl.
  - unfold takeLoanRequest. rewrite (touched_select_live id).
    destruct (select_live db id) as [existing|]; simpl; [|split; auto].
    destruct (Hfield existing) as (Hs & Ha & Hv). rewrite Ha, Hv.
    destruct (_ && _); simpl; [split; [reflexivity | discriminate]|].
    apply (Hw (take_set financeId now) existing). reflexivity.
  - unfold updateLoanRequestStatus, updateLoanRequestStatus_read,
      updateLoanRequestStatus_write.
    destruct (negb (status_schema_ok r)); [split; auto|].
    destruct (_ && _); [split; auto|].
    rewrite (touched_select_live id).
    destruct (select_live db id) as [existing|]; simpl; [|split; auto].
    destruct (Hfield existing) as (Hs & Ha & Hv). rewrite Hs.
    destruct (negb _); simpl; [split; [reflexivity | discriminate]|]. rewrite Hv.
    apply (Hw (status_set (req_status r) now) existing). reflexivity.
  - unfold changeAdminLoanRequestStatus.
    destruct (negb (status_schema_ok r)); [split; auto|].
    destruct (_ && _); [split; auto|].
    rewrite (touched_select_live id).
    destruct (select_live db id) as [existing|]; simpl; [|split; auto].
    destruct (Hfield existing) as (Hs & Ha & Hv). rewrite Hs, Hv.
    apply (Hw (status_set (req_status r) now) existing). reflexivity.
  - unfold reassignLoanRequest.
    destruct (negb (reassign_schema_ok r)); [split; auto|].
    destruct (_ && _); [split; auto|].
    rewrite (touched_select_live id), touched_leastBusy.
    destruct (select_live db id) as [existing|]; simpl; [|split; auto].
    destruct (Hfield existing) as (Hs & Ha & Hv).
    assert (Hto : forall target,
      code (snd (reassign_to db' id adminId r (g existing) target now))
      = code (snd (reassign_to db id adminId r existing target now))
      /\ (code (snd (reassign_to db id adminId r existing target now)) = 200 ->
          snd (reassign_to db' id adminId r (g existing) target now)
          = snd (reassign_to db id adminId r existing target now))).
    { intros target. unfold reassign_to. rewrite Husers.
      destruct (List.find _ (users db)); [|split; auto]. cbv zeta. rewrite Hv.
      assert (Hset : reassign_set target (g existing) now = reassign_set target existing now).
      { unfold reassign_set. now rewrite Hs. }
      rewrite Hset.
      apply (Hw (reassign_set target existing now) existing). reflexivity. }
    destruct (truthy_bool (rr_autoAssign r)).
    + destruct (leastBusy db) as [u|]; [apply Hto | split; auto].
    + destruct (rr_assigneeId r) as [target|]; [apply Hto | split; auto].
  - unfold escalateLoanRequest.
    destruct (negb (reason_schema_ok reason)); [split; auto|].
    rewrite (touched_select_live id).
    destruct (select_live db id) as [existing|]; simpl; [|split; auto].
    destruct (Hfield existing) as (Hs & Ha & Hv). rewrite Hv.
    apply (Hw (escalate_set reason now) existing). reflexivity.
Qed.
End Touched.

(** X11. A comment never gets in the way of the workflow: after a comment was
    added (by either handler, to any ticket), every single-ticket mutation
    is answered with the status code it would have got without the comment;
    in particular none meets a version conflict because of it, and an
    accepted mutation returns the same row. *)
Theorem comment_never_conflicts fallback d id author r now id' m now' :
  let d' := fst (add_comment fallback d id author r now) in
  code (snd (mutate (tickets d') id' m now')) = code (snd (mutate (tickets d) id' m now'))
  /\ (code (snd (mutate (tickets d) id' m now')) = 200 ->
      snd (mutate (tickets d') id' m now') = snd (mutate (tickets d) id' m now')).
Proof.
  unfold add_comment.
  destruct (negb (comment_schema_ok r)); [split; auto|].
  destruct (select_live (tickets d) id) as [existing|]; [|split; auto].
  destruct (negb (is_user (tickets d) author) || has_nul (cr_text r)); [split; auto|].
  cbn [fst tickets].
  apply (touched_mutate (tickets d) _ (fun t => if tid t =? id then touch now t else t)).
  - reflexivity.
  - reflexivity.
  - intros t. destruct (tid t =? id); [right; now exists now | now left].
Qed.


(** X12. The counters of the finance dashboard.  The four status counters leave
    out [rejected]: together with the live rejected tickets they add up to
    [total], so their sum falls short of it by exactly that number.  The
    caller's tickets and the unassigned ones are disjoint parts of the
    total. *)
Theorem finance_stats_add_up db financeId :
  let s := getFinanceLoanRequestStats db financeId in
  total s
  = byStatus_received s + byStatus_under_review s + byStatus_contacted s
    + byStatus_closed s + count_live (fun t => bool_decide (status t = rejected)) db
  /\ myTickets s + unassigned s <= total s.
Proof.
  unfold getFinanceLoanRequestStats, count_live. simpl. split.
  - induction (loanRequests db) as [|r rows IH]; simpl; [reflexivity|].
    destruct (deletedAt r), (status r); simpl; lia.
  - induction (loanRequests db) as [|r rows IH]; simpl; [lia|].
    destruct (assigneeId r) as [a|] eqn:Ha.
    + destruct (bool_decide (Some a = Some financeId)), (deletedAt r); simpl; lia.
    + rewrite bool_decide_eq_false_2 by discriminate.
      destruct (deletedAt r); simpl; lia.
Qed.

(** Under a primary key, an update that reaches exactly the row of one key
    moves a counter by what the row contributed before and after. *)
Lemma count_update_one (Q P : LoanRequest -> bool) f id (rows : list LoanRequest) t0 :
  List.NoDup (map tid rows) ->
  List.find (fun t => tid t =? id) rows = Some t0 ->
  (forall r, P r = true -> tid r = id) -> P t0 = true ->
  length (List.filter Q (update_where P f rows)) + Nat.b2n (Q t0)
  = length (List.filter Q rows) + Nat.b2n (Q (f t0)).
Proof.
  intros Hnd Hfind HP Ht0.
  induction rows as [|r rows IH]; simpl in *; [discriminate|].
  inversion Hnd as [|? ? Hnotin Hnd']; subst.
  destruct (tid r =? id) eqn:Hk.
  - injection Hfind as ->. rewrite Ht0. apply Nat.eqb_eq in Hk.
    assert (Hrest : update_where P f rows = rows).
    { apply update_where_same. intros x Hx.
      destruct (P x) eqn:HPx; [|reflexivity].
      exfalso. apply Hnotin. rewrite Hk, <- (HP x HPx). now apply in_map. }
    rewrite Hrest. destruct (Q (f t0)), (Q t0); simpl; lia.
  - assert (HPr : P r = false).
    { destruct (P r) eqn:HPr; [|reflexivity]. apply HP in HPr.
      apply Nat.eqb_neq in Hk. contradiction. }
    rewrite HPr. specialize (IH Hnd' Hfind).
    destruct (Q r); simpl; lia.
Qed.

(** X13. Taking an unassigned ticket shows on the dashboard of the caller: when
    the take is answered 200, one ticket less is unassigned, one more is
    theirs, and the total stays. *)
Theorem take_moves_ticket_to_caller db id financeId now t :
  primary_key db ->
  select_live db id = Some t -> assigneeId t = None ->
  code (snd (takeLoanRequest db id financeId now)) = 200 ->
  let before := getFinanceLoanRequestStats db financeId in
  let after := getFinanceLoanRequestStats (fst (takeLoanRequest db id financeId now))
                 financeId in
  total after = total before
  /\ myTickets after = myTickets before + 1
  /\ unassigned after + 1 = unassigned before.
Proof.
  intros Hpk Hsel Hnone _.
  pose proof (select_live_current db id t Hpk Hsel) as Hcur.
  assert (Hlive : deletedAt t = None).
  { unfold select_live in Hsel. apply List.find_some in Hsel as [_ H].
    apply andb_prop in H as [_ H]. now destruct (deletedAt t). }
  assert (Hrows : loanRequests (fst (takeLoanRequest db id financeId now))
                  = update_where (at_version id (version t)) (take_set financeId now)
                                 (loanRequests db)).
  { unfold takeLoanRequest. rewrite Hsel, Hnone. simpl.
    now rewrite (returning_at_version db id (version t) _ t Hpk Hcur), Z.eqb_refl. }
  cbv zeta.
  unfold getFinanceLoanRequestStats, count_live. simpl. rewrite Hrows.
  assert (Hone : forall Q,
    length (List.filter Q (update_where (at_version id (version t))
                             (take_set financeId now) (loanRequests db)))
    + Nat.b2n (Q t)
    = length (List.filter Q (loanRequests db)) + Nat.b2n (Q (take_set financeId now t))).
  { intros Q. apply (count_update_one Q _ _ id); auto.
    - apply at_version_tid.
    - unfold at_version. rewrite (select_current_tid _ _ _ Hcur), Nat.eqb_refl.
      apply Z.eqb_refl. }
  split; [|split].
  - pose proof (Hone (fun t0 => is_null (deletedAt t0))) as H. simpl in H.
    rewrite Hlive in H. simpl in H. lia.
  - pose proof (Hone (fun t0 => bool_decide (assigneeId t0 = Some financeId)
                                && is_null (deletedAt t0))) as H.
    simpl in H. rewrite Hlive, Hnone in H. simpl in H.
    rewrite bool_decide_eq_true_2 in H by reflexivity. simpl in H. lia.
  - pose proof (Hone (fun t0 => is_null (assigneeId t0) && is_null (deletedAt t0))) as H.
    simpl in H. rewrite Hlive, Hnone in H. simpl in H. lia.
Qed.

(** The theorem for the finance employee 3 and two unassigned tickets. *)
Lemma take_moves_ticket_to_caller_witness :
  let a := mkLoanRequest 7 received None 1 "normal" false None 0 0 None in
  let b := mkLoanRequest 8 received None 1 "normal" false None 0 0 None in
  let asha := mkUser 3 (Some "Asha") "employee" "Finance" true in
  let db := mkDB [a; b] [asha] [] [] in
  getFinanceLoanRequestStats db 3 = mkFinanceStats 2 0 2 2 0 0 0
  /\ code (snd (takeLoanRequest db 7 3 50)) = 200
  /\ total (getFinanceLoanRequestStats (fst (takeLoanRequest db 7 3 50)) 3) = 2
  /\ myTickets (getFinanceLoanRequestStats (fst (takeLoanRequest db 7 3 50)) 3) = 0 + 1
  /\ unassigned (getFinanceLoanRequestStats (fst (takeLoanRequest db 7 3 50)) 3) + 1 = 2.
Proof.
  intros a b asha db. split; [reflexivity|]. split; [reflexivity|].
  apply (take_moves_ticket_to_caller db 7 3 50 a).
  - repeat constructor; simpl; intuition lia.
  - reflexivity.
  - reflexivity.
  - reflexivity.
Defined.

(** X14. The SLA setting.  With no stored row [getSlaConfig] answers the
    default of 24 hours, and [updateSlaConfig] (which only updates) answers
    success without a row and stores nothing, so the default stays.  With a
    stored row, an update with 1 to 168 hours is what [getSlaConfig]
    answers next, stamped with the admin and the time.  Hours outside 1 to
    168 are refused and nothing changes. *)
Theorem sla_update_then_get rows adminId h now :
  (hours_schema_ok h = false -> updateSlaConfig rows adminId h now = (rows, None))
  /\ (hours_schema_ok h = true ->
      (List.find is_sla_row rows = None ->
       getSlaConfig rows = SlaDefault "loan_request_sla_hours" (QArith_base.inject_Z 24)
       /\ updateSlaConfig rows adminId h now = (rows, Some None))
      /\ (forall config, List.find is_sla_row rows = Some config ->
          snd (updateSlaConfig rows adminId h now)
          = Some (Some (mkSlaConfig "loan_request_sla_hours" h (Some adminId) now))
          /\ getSlaConfig (fst (updateSlaConfig rows adminId h now))
             = SlaStored (mkSlaConfig "loan_request_sla_hours" h (Some adminId) now))).
Proof.
  unfold updateSlaConfig, getSlaConfig. split; [intros ->; reflexivity|].
  intros ->. simpl. split.
  - intros Hnone. rewrite Hnone. split; [reflexivity|].
    pose proof (List.find_none _ _ Hnone) as Hall.
    rewrite (update_where_same _ _ _ Hall).
    unfold returning. now rewrite (filter_none _ _ Hall).
  - intros config Hfind.
    assert (Hkey : configKey config = "loan_request_sla_hours").
    { apply List.find_some in Hfind as [_ H]. now apply bool_decide_eq_true in H. }
    split.
    + unfold returning. pose proof (find_head_filter is_sla_row rows) as Hhead.
      rewrite Hfind in Hhead.
      destruct (List.filter is_sla_row rows) as [|c l]; [discriminate|].
      simpl in Hhead. injection Hhead as <-. simpl. unfold sla_set. now rewrite Hkey.
    + change (update_where is_sla_row (sla_set h adminId now) rows)
        with (map (fun r => if is_sla_row r then sla_set h adminId now r else r) rows).
      rewrite find_map_inv.
      * rewrite Hfind. simpl.
        apply List.find_some in Hfind as [_ ->]. unfold sla_set. now rewrite Hkey.
      * intros r. now destruct (is_sla_row r) eqn:Hr.
Qed.

Lemma sla_update_then_get_witness :
  let seeded := mkSlaConfig "loan_request_sla_hours" (QArith_base.inject_Z 24) None 0 in
  let h := QArith_base.Qmake 97 2 in
  hours_schema_ok h = true
  /\ hours_schema_ok (QArith_base.inject_Z 200) = false
  /\ updateSlaConfig [] 1 h 50 = ([], Some None)
  /\ getSlaConfig (fst (updateSlaConfig [] 1 h 50))
     = SlaDefault "loan_request_sla_hours" (QArith_base.inject_Z 24)
  /\ getSlaConfig (fst (updateSlaConfig [seeded] 1 h 50))
     = SlaStored (mkSlaConfig "loan_request_sla_hours" h (Some 1) 50).
Proof.
  intros seeded h.
  split; [reflexivity|]. split; [reflexivity|].
  destruct (proj2 (sla_update_then_get [] 1 h 50) eq_refl) as [Hnone _].
  destruct (Hnone eq_refl) as [_ Hupd].
  destruct (proj2 (sla_update_then_get [seeded] 1 h 50) eq_refl) as [_ Hsome].
  destruct (Hsome seeded eq_refl) as [_ Hget].
  split; [exact Hupd|]. split; [reflexivity | exact Hget].
Defined.

End DeskFacts.

Module ModerationExtras.
Import Moderation ModerationViews ModerationFacts.

Lemma delete_changes_frame P db db' :
  delete_changes P db = Some db' ->
  properties db' = properties db /\ banners db' = banners db
  /\ bannerPendingChanges db' = bannerPendingChanges db
  /\ propertyEmployeeAssignments db' = propertyEmployeeAssignments db.
Proof.
  unfold delete_changes. destruct (existsb _ _); [discriminate|].
  intros [= <-]. now repeat split.
Qed.

Lemma step_keeps_canonical db op :
  is_approval op = false ->
  properties (fst (step db op)) = properties db
  /\ banners (fst (step db op)) = banners db.
Proof.
  destruct op as [id e data now | e f now | k e m | k e f | k e | k e
                  | k a req fl now | k a why now | k a why now];
    simpl; try discriminate; intros _.
  - unfold submitPendingChange.
    destruct (match given_key data with Some k => _ | None => None end) as [x|];
      [now destruct (select_change db x)|].
    destruct (negb (is_assigned db id e)); [now split|].
    destruct (live_property db id); [|now split].
    destruct (invalidFields (proposed_payload data)); [|now split].
    destruct (negb (uploads_valid db data e)); [now split|].
    destruct (if sr_isDraft data then None else _); [now split|].
    now destruct (uploadIds data), (given_key data).
  - unfold createProperty. now destruct (negb (form_ok f)).
  - unfold withdrawPendingChange.
    destruct (List.find _ (propertyPendingChanges db)); [|now split].
    destruct m; [now split|].
    destruct (delete_changes _ db) as [db'|] eqn:Hdel; [|now split].
    apply delete_changes_frame in Hdel as (Hp & Hb & _). now split.
  - unfold updateDraft. destruct (negb (form_ok f)); [now split|].
    now destruct (List.find _ (propertyPendingChanges db)).
  - unfold submitDraft.
    destruct (List.find _ (propertyPendingChanges db)) as [d|]; [|now split].
    now destruct (match propertyId d with Some t => _ | None => None end).
  - unfold discardDraft.
    destruct (delete_changes _ db) as [db'|] eqn:Hdel; [|now split].
    apply delete_changes_frame in Hdel as (Hp & Hb & _). now split.
  - unfold rejectPendingChange, review.
    destruct (bool_decide (why = "")); [now split|].
    destruct (select_change db k); [now split|].
    now destruct (select_bannerChange db k).
  - unfold requestChanges, review.
    destruct (bool_decide (why = "")); [now split|].
    destruct (select_change db k); [now split|].
    now destruct (select_bannerChange db k).
Qed.

(** X15. Nothing but an approval writes the canonical tables: over any sequence
    of submissions, creations, withdrawals, draft edits, rejections and
    requests for revision, [properties] and [banners] stay as they were. *)
Theorem only_approval_writes_canonical ops db :
  Forall (fun op => is_approval op = false) ops ->
  properties (run ops db) = properties db /\ banners (run ops db) = banners db.
Proof.
  revert db. induction ops as [|op ops IH]; intros db Hall; [now split|].
  inversion Hall as [|? ? Hop Hrest]; subst. simpl.
  destruct (step_keeps_canonical db op Hop) as [Hp Hb].
  destruct (IH (fst (step db op)) Hrest) as [Hp' Hb'].
  split; congruence.
Qed.

Lemma only_approval_writes_canonical_witness :
  let house := mkEntity 1 (<["title" := JStr "House"]> (<["deleted" := JBool false]> ∅)) in
  let db := mkDB [house] [] [] [] [] ∅ [mkEmployeeAssignment 1 5] 2 in
  let data := mkSubmitRequest (<["title" := JStr "New"]> ∅) None None None None false in
  let ops := [SubmitChange 1 5 data 100; Withdraw 2 5 true; SubmitDraft 2 5;
              Reject 2 9 "blurry" 120] in
  map code (responses ops db) = [201; 200; 200; 200]
  /\ properties (run ops db) = [house] /\ banners (run ops db) = [].
Proof.
  intros house db data ops. split; [vm_compute; reflexivity|].
  apply (only_approval_writes_canonical ops db). repeat constructor.
Defined.


(** X16. The nine handlers of property changes (submit, create, withdraw,
    update, submit and discard a draft, approve, reject, request a
    revision) write nothing when they refuse: whenever one of them answers
    neither 200 nor 201 the database is as before, with one exception among
    them, the 500 of an approval, whose canonical write may already have
    happened.  (The banner proposals of employees are other handlers, with
    an exception of their own: X23.) *)
Theorem refused_request_changes_nothing db op :
  code (snd (step db op)) <> 200 -> code (snd (step db op)) <> 201 ->
  (is_approval op = true -> code (snd (step db op)) <> 500) ->
  fst (step db op) = db.
Proof.
  destruct op as [id e data now | e f now | k e m | k e f | k e | k e
                  | k a req fl now | k a why now | k a why now]; simpl.
  - unfold submitPendingChange.
    destruct (match given_key data with Some k => _ | None => None end) as [x|];
      [now destruct (select_change db x)|].
    destruct (negb (is_assigned db id e)); [reflexivity|].
    destruct (live_property db id); [|reflexivity].
    destruct (invalidFields (proposed_payload data)); [|reflexivity].
    destruct (negb (uploads_valid db data e)); [reflexivity|].
    destruct (if sr_isDraft data then None else _); [reflexivity|].
    simpl. intros _ H. now contradiction H.
  - unfold createProperty. destruct (negb (form_ok f)); [reflexivity|].
    simpl. intros _ H. now contradiction H.
  - unfold withdrawPendingChange.
    destruct (List.find _ (propertyPendingChanges db)); [|reflexivity].
    destruct m; [simpl; intros H; now contradiction H|].
    destruct (delete_changes _ db); [|reflexivity].
    simpl. intros H. now contradiction H.
  - unfold updateDraft. destruct (negb (form_ok f)); [reflexivity|].
    destruct (List.find _ (propertyPendingChanges db)); [|reflexivity].
    simpl. intros H. now contradiction H.
  - unfold submitDraft.
    destruct (List.find _ (propertyPendingChanges db)) as [d|]; [|reflexivity].
    destruct (match propertyId d with Some t => _ | None => None end); [reflexivity|].
    simpl. intros H. now contradiction H.
  - unfold discardDraft. destruct (delete_changes _ db); [|reflexivity].
    simpl. intros H. now contradiction H.
  - intros H200 _ H500. specialize (H500 eq_refl). revert H200 H500.
    unfold approvePendingChange, approve_body.
    destruct (select_change db k) as [c|].
    + destruct (negb (reviewable (status c))); [reflexivity|].
      unfold approve_property, finalize.
      destruct (at_thrown _); [simpl; intros _ H; now contradiction H|].
      destruct (statusUpdateFails fl); [simpl; intros _ H; now contradiction H|].
      destruct (at_entity _); simpl.
      * intros H. now contradiction H.
      * intros _ H. now contradiction H.
    + destruct (select_bannerChange db k) as [c|]; [|reflexivity].
      destruct (negb (reviewable (bc_status c))); [reflexivity|].
      unfold approve_banner, finalize.
      destruct (at_thrown _); [simpl; intros _ H; now contradiction H|].
      destruct (statusUpdateFails fl); [simpl; intros _ H; now contradiction H|].
      destruct (at_entity _); simpl.
      * intros H. now contradiction H.
      * intros _ H. now contradiction H.
  - unfold rejectPendingChange, review.
    destruct (bool_decide (why = "")); [reflexivity|].
    destruct (select_change db k); [simpl; intros H; now contradiction H|].
    destruct (select_bannerChange db k); [simpl; intros H; now contradiction H|].
    reflexivity.
  - unfold requestChanges, review.
    destruct (bool_decide (why = "")); [reflexivity|].
    destruct (select_change db k); [simpl; intros H; now contradiction H|].
    destruct (select_bannerChange db k); [simpl; intros H; now contradiction H|].
    reflexivity.
Qed.

Lemma refused_request_changes_nothing_witness :
  let done := mkPendingChange 2 (Some 1) 5 (<["title" := JStr "Villa"]> ∅) None
                approved None false 10 (Some 20%Z) (Some 9) in
  let db := mkDB [] [] [done] [] [] ∅ [] 3 in
  code (snd (step db (Approve 2 9 (mkApproveRequest proposed None) no_faults 50))) = 400
  /\ fst (step db (Approve 2 9 (mkApproveRequest proposed None) no_faults 50)) = db
  /\ code (snd (step db (SubmitDraft 2 5))) = 404
  /\ fst (step db (SubmitDraft 2 5)) = db.
Proof.
  intros done db. split; [reflexivity|]. split; [|split; [reflexivity|]].
  - apply refused_request_changes_nothing; vm_compute; discriminate.
  - apply refused_request_changes_nothing; vm_compute; discriminate.
Defined.







Lemma set_tables_same db :
  set_idempotency (set_changes db (propertyPendingChanges db))
    (propertyPendingChangesIdempotency db) = db.
Proof. now destruct db. Qed.

(** A delete that matches no row is accepted and changes nothing. *)
Lemma delete_nothing P db :
  (forall c, In c (propertyPendingChanges db) -> P c = false) ->
  delete_changes P db = Some db.
Proof.
  intros Hnone. unfold delete_changes.
  rewrite (filter_none P _ Hnone). simpl.
  rewrite filter_all_true by (intros c Hc; now rewrite (Hnone c Hc)).
  rewrite map_filter_id; [now rewrite set_tables_same|].
  intros k c _. simpl. apply not_elem_of_nil.
Qed.

(** X18. The pending changes of others are out of reach.  When the change with
    the given id was proposed by someone else, the caller's withdrawal, draft
    update and draft submission are answered 404 and the discard is answered
    200, and none of them writes anything. *)
Theorem foreign_change_out_of_reach db k e c :
  changes_keyed db ->
  select_change db k = Some c -> proposerId c <> e ->
  (forall m, withdrawPendingChange db k e m
             = (db, mkResponse 404 (BMessage "Pending change not found")))
  /\ (forall f, form_ok f = true ->
        updateDraft db k e f = (db, mkResponse 404 (BMessage "Draft or revision not found")))
  /\ submitDraft db k e = (db, mkResponse 404 (BMessage "Draft or revision not found"))
  /\ discardDraft db k e = (db, mkResponse 200 BSuccess).
Proof.
  intros [Hnd _] Hsel Hother.
  destruct (select_change_cid _ _ _ Hsel) as [Hck Hcin].
  assert (Hmine : forall r, In r (propertyPendingChanges db) ->
                    (cid r =? k) && (proposerId r =? e) = false).
  { intros r Hr. destruct (cid r =? k) eqn:Hk; [|reflexivity]. simpl.
    apply Nat.eqb_eq in Hk.
    assert (r = c) by (apply (same_key_same_row cid (propertyPendingChanges db));
                       auto; congruence).
    subst r. now apply Nat.eqb_neq. }
  assert (Hedit : List.find (editable k e) (propertyPendingChanges db) = None).
  { apply find_all_false. intros r Hr. unfold editable. now rewrite (Hmine r Hr). }
  split; [|split; [|split]].
  - intros m. unfold withdrawPendingChange. now rewrite (find_all_false _ _ Hmine).
  - intros f Hf. unfold updateDraft. now rewrite Hf, Hedit.
  - unfold submitDraft. now rewrite Hedit.
  - unfold discardDraft. rewrite delete_nothing; [reflexivity|].
    intros r Hr. now rewrite (Hmine r Hr).
Qed.

Lemma foreign_change_out_of_reach_witness :
  let theirs := mkPendingChange 2 (Some 1) 5 (<["title" := JStr "Villa"]> ∅) None
                  draft None true 10 None None in
  let db := mkDB [] [] [theirs] [] [] ∅ [] 3 in
  withdrawPendingChange db 2 6 false
  = (db, mkResponse 404 (BMessage "Pending change not found"))
  /\ submitDraft db 2 6 = (db, mkResponse 404 (BMessage "Draft or revision not found"))
  /\ discardDraft db 2 6 = (db, mkResponse 200 BSuccess).
Proof.
  intros theirs db.
  assert (Hk : changes_keyed db).
  { split; [repeat constructor; simpl; tauto | repeat constructor]. }
  destruct (foreign_change_out_of_reach db 2 6 theirs Hk eq_refl ltac:(discriminate))
    as (Hw & _ & Hs & Hd).
  split; [apply Hw|]. split; [exact Hs | exact Hd].
Defined.


Lemma set_changes_back db rows :
  set_changes (set_changes db rows) (propertyPendingChanges db) = db.
Proof. now destruct db. Qed.

(** X19. Withdrawing a live pending change to a draft and submitting the draft
    again is a round trip: both requests are answered 200, in between the
    change is a draft, and afterwards the database is exactly as it was. *)
Theorem withdraw_to_draft_round_trip db k e c :
  changes_keyed db -> one_live_pending db ->
  select_change db k = Some c -> proposerId c = e ->
  status c = pending -> isDraft c = false ->
  let db1 := fst (withdrawPendingChange db k e true) in
  snd (withdrawPendingChange db k e true) = mkResponse 200 BSuccess
  /\ select_change db1 k = Some (to_draft c)
  /\ submitDraft db1 k e = (db, mkResponse 200 BSuccess).
Proof.
  intros [Hnd Hfresh] Hone Hsel He Hst Hdraft.
  destruct (select_change_cid _ _ _ Hsel) as [Hck Hcin].
  assert (Hfound : List.find (fun r => (cid r =? k) && (proposerId r =? e))
                     (propertyPendingChanges db) = Some c).
  { apply (find_by_key_and cid); [exact Hsel | now apply Nat.eqb_eq]. }
  unfold withdrawPendingChange. rewrite Hfound. cbn [fst snd].
  set (rows1 := update_where (fun r => cid r =? k) to_draft (propertyPendingChanges db)).
  assert (Hsel1 : List.find (fun r => cid r =? k) rows1 = Some (to_draft c)).
  { unfold rows1. rewrite (find_update_where cid) by reflexivity.
    unfold select_change in Hsel. rewrite Hsel. simpl.
    now rewrite Hck, Nat.eqb_refl. }
  split; [reflexivity|]. split; [exact Hsel1|].
  unfold submitDraft. simpl.
  assert (Hedit : List.find (editable k e) rows1 = Some (to_draft c)).
  { unfold editable.
    apply (find_by_key_and cid (fun r => (proposerId r =? e)
                                          && (isDraft r || bool_decide (status r = needs_revision)))
             k rows1 (to_draft c)) in Hsel1.
    - rewrite <- Hsel1. apply find_ext_eq. intros r. now rewrite andb_assoc.
    - simpl. rewrite He, Nat.eqb_refl. reflexivity. }
  rewrite Hedit. simpl.
  assert (Hback : update_where (fun r => cid r =? k) to_pending rows1
                  = propertyPendingChanges db).
  { unfold rows1, update_where. rewrite map_map.
    rewrite <- (map_id (propertyPendingChanges db)) at 2.
    apply map_ext_in. intros r Hr. destruct (cid r =? k) eqn:Hk.
    - simpl. rewrite Hk. apply Nat.eqb_eq in Hk.
      assert (r = c) by (apply (same_key_same_row cid (propertyPendingChanges db));
                         auto; congruence).
      subst r. destruct c; simpl in *; now subst.
    - now rewrite Hk. }
  assert (Hfree : forall target, propertyId c = Some target ->
            List.find (fun r => live_pending target e r && negb (cid r =? k)) rows1 = None).
  { intros target Ht. apply find_all_false. intros r1 Hr1.
    unfold rows1, update_where in Hr1. apply List.in_map_iff in Hr1 as (r & <- & Hr).
    destruct (cid r =? k) eqn:Hk.
    - simpl. rewrite Hk. apply andb_false_r.
    - rewrite Hk. simpl. rewrite andb_true_r.
      destruct (live_pending target e r) eqn:Hlive; [|reflexivity].
      exfalso.
      assert (Hc : live_pending target e c = true).
      { unfold live_pending. rewrite Ht, He, Hst, Hdraft, Nat.eqb_refl.
        now rewrite !bool_decide_eq_true_2. }
      pose proof (find_the_one _ _ c (Hone target e) Hcin Hc) as H1.
      pose proof (find_the_one _ _ r (Hone target e) Hr Hlive) as H2.
      rewrite H1 in H2. injection H2 as <-.
      rewrite Hck, Nat.eqb_refl in Hk. discriminate. }
  destruct (propertyId c) as [target|] eqn:Ht.
  - rewrite (Hfree target eq_refl). simpl. rewrite Hback.
    now rewrite set_changes_back.
  - simpl. rewrite Hback. now rewrite set_changes_back.
Qed.

Lemma withdraw_to_draft_round_trip_witness :
  let live := mkPendingChange 2 (Some 1) 5 (<["title" := JStr "Villa"]> ∅) None
                pending None false 10 None None in
  let db := mkDB [] [] [live] [] [] ∅ [] 3 in
  snd (withdrawPendingChange db 2 5 true) = mkResponse 200 BSuccess
  /\ select_change (fst (withdrawPendingChange db 2 5 true)) 2 = Some (to_draft live)
  /\ submitDraft (fst (withdrawPendingChange db 2 5 true)) 2 5
     = (db, mkResponse 200 BSuccess).
Proof.
  intros live db.
  apply (withdraw_to_draft_round_trip db 2 5 live).
  - split; [repeat constructor; simpl; tauto | repeat constructor].
  - intros t p. unfold live_count. simpl.
    destruct (live_pending t p live); simpl; lia.
  - reflexivity.
  - reflexivity.
  - reflexivity.
  - reflexivity.
Defined.


(** The idempotency records stay sound when the record table is kept and no
    change id disappears. *)
Lemma sound_when_ids_kept db db' :
  idempotency_sound db ->
  propertyPendingChangesIdempotency db' = propertyPendingChangesIdempotency db ->
  (forall row, In row (propertyPendingChanges db) ->
     exists row', In row' (propertyPendingChanges db') /\ cid row' = cid row) ->
  idempotency_sound db'.
Proof.
  intros Hsound Hidem Hids k c Hk. rewrite Hidem in Hk.
  destruct (Hsound k c Hk) as (row & Hin & <-). now apply Hids.
Qed.

Lemma ids_kept_by_update (P : PendingChange -> bool) f (rows : list PendingChange) row :
  (forall r, cid (f r) = cid r) -> In row rows ->
  exists row', In row' (update_where P f rows) /\ cid row' = cid row.
Proof.
  intros Hk Hin. exists (if P row then f row else row). split.
  - unfold update_where. apply List.in_map_iff. now exists row.
  - destruct (P row); [apply Hk | reflexivity].
Qed.

Lemma delete_keeps_sound P db db' :
  idempotency_sound db -> delete_changes P db = Some db' -> idempotency_sound db'.
Proof.
  unfold delete_changes. destruct (existsb _ _); [discriminate|].
  intros Hsound [= <-] k c. simpl. intros Hk.
  apply map_lookup_filter_Some in Hk as [Hk Hkeep]. simpl in Hkeep.
  destruct (Hsound k c Hk) as (row & Hin & <-).
  exists row. split; [|reflexivity]. apply List.filter_In. split; [exact Hin|].
  destruct (P row) eqn:HP; [|reflexivity].
  exfalso. apply Hkeep. apply list_elem_of_In. apply List.in_map.
  apply List.filter_In. auto.
Qed.

Lemma approve_tables db k a req fl now :
  propertyPendingChangesIdempotency (fst (approvePendingChange db k a req fl now))
  = propertyPendingChangesIdempotency db
  /\ map cid (propertyPendingChanges (fst (approvePendingChange db k a req fl now)))
     = map cid (propertyPendingChanges db).
Proof.
  set (same := fun d : DB =>
         propertyPendingChangesIdempotency d = propertyPendingChangesIdempotency db
         /\ map cid (propertyPendingChanges d) = map cid (propertyPendingChanges db)).
  assert (Hdb : same db) by (split; reflexivity).
  assert (Hroll : forall restore target a0,
            (forall t old d, same d -> same (restore t old d)) ->
            same (at_db a0) -> same (rollback restore target a0 fl)).
  { intros restore target a0 Hr Ha. unfold rollback.
    destruct (at_entity a0), target, (at_old a0); auto.
    destruct (rollbackFails fl); auto. }
  assert (Hfin : forall a0 mark,
            same (at_db a0) -> (forall d, same d -> same (mark d)) ->
            same (at_db (fst (finalize a0 mark fl)))).
  { intros a0 mark Ha Hm. unfold finalize.
    destruct (at_thrown a0); [exact Ha|].
    destruct (statusUpdateFails fl); [exact Ha|].
    destruct (at_entity a0); simpl; auto. }
  change (same (fst (approvePendingChange db k a req fl now))).
  unfold approvePendingChange, approve_body.
  destruct (select_change db k) as [c|].
  - destruct (negb (reviewable (status c))); [exact Hdb|].
    unfold approve_property.
    set (w := property_write db c _ fl now).
    assert (Hw : same (at_db w)).
    { unfold w, property_write.
      destruct (propertyId c), (canonicalWriteFails fl); split; reflexivity. }
    set (mark := fun d : DB => set_changes d _).
    assert (Hmark : forall d, same d -> same (mark d)).
    { intros d [Hi Hc]. split; [exact Hi|]. unfold mark. simpl.
      now rewrite (map_key_update_where cid). }
    pose proof (Hfin w mark Hw Hmark) as Ha'.
    destruct (finalize w mark fl) as [a' [err|resp]]; simpl in *; [|exact Ha'].
    apply Hroll; [|exact Ha']. intros t old d [Hi Hc]. split; assumption.
  - destruct (select_bannerChange db k) as [c|]; [|exact Hdb].
    destruct (negb (reviewable (bc_status c))); [exact Hdb|].
    unfold approve_banner.
    set (w := banner_write db c _ fl now).
    assert (Hw : same (at_db w)).
    { unfold w, banner_write.
      destruct (bannerId c), (canonicalWriteFails fl); split; reflexivity. }
    set (mark := fun d : DB => set_bannerChanges d _).
    assert (Hmark : forall d, same d -> same (mark d)).
    { intros d [Hi Hc]. split; assumption. }
    pose proof (Hfin w mark Hw Hmark) as Ha'.
    destruct (finalize w mark fl) as [a' [err|resp]]; simpl in *; [|exact Ha'].
    apply Hroll; [|exact Ha']. intros t old d [Hi Hc]. split; assumption.
Qed.

Lemma step_keeps_sound db op :
  idempotency_sound db -> idempotency_sound (fst (step db op)).
Proof.
  intros Hsound.
  destruct op as [id e data now | e f now | k e m | k e f | k e | k e
                  | k a req fl now | k a why now | k a why now]; simpl.
  - unfold submitPendingChange.
    destruct (match given_key data with Some k => _ | None => None end) as [x|];
      [now destruct (select_change db x)|].
    destruct (negb (is_assigned db id e)); [exact Hsound|].
    destruct (live_property db id); [|exact Hsound].
    destruct (invalidFields (proposed_payload data)); [|exact Hsound].
    destruct (negb (uploads_valid db data e)); [exact Hsound|].
    destruct (if sr_isDraft data then None else _); [exact Hsound|].
    set (pc := mkPendingChange (nextUuid db) _ _ _ _ _ _ _ _ _ _).
    assert (Hold : forall key c,
              propertyPendingChangesIdempotency db !! key = Some c ->
              exists row, In row (propertyPendingChanges db ++ [pc]) /\ cid row = c).
    { intros key c Hk. destruct (Hsound key c Hk) as (row & Hin & Hc).
      exists row. split; [apply List.in_or_app; now left | exact Hc]. }
    destruct (given_key data) as [key|], (uploadIds data); simpl; intros k0 c0; simpl.
    all: try exact (Hold k0 c0).
    all: destruct (decide (k0 = key)) as [->|Hne];
      [rewrite lookup_insert_eq; intros [= <-]; exists pc;
       split; [apply List.in_or_app; right; now left | reflexivity]
      |rewrite lookup_insert_ne by congruence; apply Hold].
  - unfold createProperty. destruct (negb (form_ok f)); [exact Hsound|].
    apply (sound_when_ids_kept db); [exact Hsound | reflexivity |].
    intros row Hin. exists row. split; [apply List.in_or_app; now left | reflexivity].
  - unfold withdrawPendingChange.
    destruct (List.find _ (propertyPendingChanges db)); [|exact Hsound].
    destruct m.
    + apply (sound_when_ids_kept db); [exact Hsound | reflexivity |].
      intros row Hin. now apply ids_kept_by_update.
    + destruct (delete_changes _ db) as [db'|] eqn:Hdel; [|exact Hsound].
      exact (delete_keeps_sound _ _ _ Hsound Hdel).
  - unfold updateDraft. destruct (negb (form_ok f)); [exact Hsound|].
    destruct (List.find _ (propertyPendingChanges db)); [|exact Hsound].
    apply (sound_when_ids_kept db); [exact Hsound | reflexivity |].
    intros row Hin. now apply ids_kept_by_update.
  - unfold submitDraft.
    destruct (List.find _ (propertyPendingChanges db)) as [d|]; [|exact Hsound].
    destruct (match propertyId d with Some t => _ | None => None end); [exact Hsound|].
    apply (sound_when_ids_kept db); [exact Hsound | reflexivity |].
    intros row Hin. now apply ids_kept_by_update.
  - unfold discardDraft.
    destruct (delete_changes _ db) as [db'|] eqn:Hdel; [|exact Hsound].
    exact (delete_keeps_sound _ _ _ Hsound Hdel).
  - destruct (approve_tables db k a req fl now) as [Hidem Hids].
    apply (sound_when_ids_kept db); [exact Hsound | exact Hidem |].
    intros row Hin.
    assert (Hc : In (cid row) (map cid (propertyPendingChanges
                                  (fst (approvePendingChange db k a req fl now)))))
      by (rewrite Hids; now apply List.in_map).
    apply List.in_map_iff in Hc as (row' & Hc & Hin'). now exists row'.
  - unfold rejectPendingChange, review.
    destruct (bool_decide (why = "")); [exact Hsound|].
    destruct (select_change db k).
    + apply (sound_when_ids_kept db); [exact Hsound | reflexivity |].
      intros row Hin. now apply ids_kept_by_update.
    + now destruct (select_bannerChange db k).
  - unfold requestChanges, review.
    destruct (bool_decide (why = "")); [exact Hsound|].
    destruct (select_change db k).
    + apply (sound_when_ids_kept db); [exact Hsound | reflexivity |].
      intros row Hin. now apply ids_kept_by_update.
    + now destruct (select_bannerChange db k).
Qed.

(** X20. A replay never meets a dangling record.  From a database whose
    idempotency records all name stored changes (the empty one, say), this
    stays so over any sequence of requests: a deleted change takes its
    records with it.  So a submission that carries a recorded key is always
    answered 200 with the recorded change, never with the 500 of the
    missing row. *)
Theorem replay_never_fails db ops :
  idempotency_sound db ->
  idempotency_sound (run ops db)
  /\ forall id e data now key c,
       given_key data = Some key ->
       propertyPendingChangesIdempotency (run ops db) !! key = Some c ->
       exists row, select_change (run ops db) c = Some row
         /\ submitPendingChange (run ops db) id e data now
            = (run ops db, mkResponse 200 (BChange c (status row) (createdAt row) true)).
Proof.
  intros Hsound.
  assert (Hrun : idempotency_sound (run ops db)).
  { revert db Hsound. induction ops as [|op ops IH]; intros db Hsound; [exact Hsound|].
    simpl. apply IH. now apply step_keeps_sound. }
  split; [exact Hrun|].
  intros id e data now key c Hkey Hrec.
  destruct (Hrun key c Hrec) as (row0 & Hin & Hc).
  destruct (select_change (run ops db) c) as [row|] eqn:Hsel.
  - exists row. split; [reflexivity|].
    unfold submitPendingChange. rewrite Hkey, Hrec, Hsel.
    now destruct (select_change_cid _ _ _ Hsel) as [-> _].
  - exfalso. unfold select_change in Hsel.
    pose proof (List.find_none _ _ Hsel row0 Hin) as Hn. simpl in Hn.
    rewrite Hc, Nat.eqb_refl in Hn. discriminate.
Qed.

Lemma replay_never_fails_witness :
  let house := mkEntity 1 (<["title" := JStr "House"]> (<["deleted" := JBool false]> ∅)) in
  let db := mkDB [house] [] [] [] [] ∅ [mkEmployeeAssignment 1 5] 2 in
  let data := mkSubmitRequest (<["title" := JStr "New"]> ∅) None None None (Some "3f2b8c1e-5a7d-4e9b-8c6f-1a2b3c4d5e6f") true in
  let other := mkSubmitRequest (<["title" := JStr "Old"]> ∅) None None None (Some "9d4e7a10-2b3c-4f5a-9b8c-7d6e5f4a3b2c") true in
  let ops := [SubmitChange 1 5 data 100; SubmitChange 1 5 other 101; DiscardDraft 2 5] in
  idempotency_sound db
  /\ propertyPendingChangesIdempotency (run ops db) !! "3f2b8c1e-5a7d-4e9b-8c6f-1a2b3c4d5e6f" = None
  /\ propertyPendingChangesIdempotency (run ops db) !! "9d4e7a10-2b3c-4f5a-9b8c-7d6e5f4a3b2c" = Some 3
  /\ exists row, select_change (run ops db) 3 = Some row
       /\ submitPendingChange (run ops db) 1 5 other 150
          = (run ops db, mkResponse 200 (BChange 3 (status row) (createdAt row) true)).
Proof.
  intros house db data other ops.
  assert (Hsound : idempotency_sound db) by (intros k c Hk; discriminate).
  split; [exact Hsound|]. split; [vm_compute; reflexivity|].
  split; [vm_compute; reflexivity|].
  apply (proj2 (replay_never_fails db ops Hsound) 1 5 other 150%Z "9d4e7a10-2b3c-4f5a-9b8c-7d6e5f4a3b2c" 3).
  - reflexivity.
  - vm_compute. reflexivity.
Defined.


(** What an accepted submission stores: one fresh row, appended, with the
    caller as proposer. *)
Lemma accepted_submission_row db id e data now c st created flag :
  snd (submitPendingChange db id e data now) = mkResponse 201 (BChange c st created flag) ->
  exists pc,
    propertyPendingChanges (fst (submitPendingChange db id e data now))
    = propertyPendingChanges db ++ [pc]
    /\ cid pc = c /\ c = nextUuid db /\ proposerId pc = e
    /\ isDraft pc = sr_isDraft data.
Proof.
  unfold submitPendingChange.
  destruct (match given_key data with Some k => _ | None => None end) as [x|];
    [destruct (select_change db x); discriminate|].
  destruct (negb (is_assigned db id e)); [discriminate|].
  destruct (live_property db id); [|discriminate].
  destruct (invalidFields (proposed_payload data)); [|discriminate].
  destruct (negb (uploads_valid db data e)); [discriminate|].
  destruct (if sr_isDraft data then None else _); [discriminate|].
  simpl. intros [= <- _ _ _]. eexists.
  split; [now destruct (uploadIds data), (given_key data)|].
  repeat split.
Qed.

(** X21. A change that consumed an upload cannot be deleted.  After a submission
    answered 201 that listed an existing upload, the proposer's withdrawal
    of the new change fails with 500 and leaves everything in place (the
    upload row still points at the change), and so does the discard when
    the change was submitted as a draft; moving it to a draft instead is
    accepted. *)
Theorem consumed_upload_blocks_withdrawal db id e data now c st created flag row :
  changes_keyed db ->
  snd (submitPendingChange db id e data now) = mkResponse 201 (BChange c st created flag) ->
  In row (uploads db) -> lists_upload data (upid row) ->
  let db1 := fst (submitPendingChange db id e data now) in
  withdrawPendingChange db1 c e false
  = (db1, mkResponse 500 (BMessage "Failed to withdraw change"))
  /\ (sr_isDraft data = true ->
      discardDraft db1 c e = (db1, mkResponse 500 (BMessage "Failed to discard draft")))
  /\ code (snd (withdrawPendingChange db1 c e true)) = 200.
Proof.
  intros [Hnd Hfresh] Hresp Hrow Hlisted db1.
  pose proof (accepted_uploads_marked db id e data now c st created flag row Hresp Hrow Hlisted)
    as Hmarked. fold db1 in Hmarked.
  destruct (accepted_submission_row db id e data now c st created flag Hresp)
    as (pc & Hrows & Hc & Hnext & He & Hd). fold db1 in Hrows.
  assert (Href : referenced_by_upload db1 c = true).
  { unfold referenced_by_upload. apply List.existsb_exists. eexists.
    split; [exact Hmarked|]. simpl. now apply bool_decide_eq_true. }
  assert (Hsel : List.find (fun r => cid r =? c) (propertyPendingChanges db1) = Some pc).
  { rewrite Hrows, <- Hc. apply select_appended. rewrite Hc, Hnext. exact Hfresh. }
  assert (Hfound : List.find (fun r => (cid r =? c) && (proposerId r =? e))
                     (propertyPendingChanges db1) = Some pc).
  { apply (find_by_key_and cid); [exact Hsel | now apply Nat.eqb_eq]. }
  assert (Hin : In pc (propertyPendingChanges db1))
    by (rewrite Hrows; apply List.in_or_app; right; now left).
  assert (Hblocked : forall P, P pc = true -> delete_changes P db1 = None).
  { intros P HP. unfold delete_changes.
    replace (existsb _ _) with true; [reflexivity|]. symmetry.
    apply List.existsb_exists. exists pc. split; [|now rewrite Hc].
    apply List.filter_In. auto. }
  split; [|split].
  - unfold withdrawPendingChange. rewrite Hfound.
    rewrite Hblocked; [reflexivity|]. rewrite Hc. apply Nat.eqb_refl.
  - intros Hdraft. unfold discardDraft. rewrite Hblocked; [reflexivity|].
    rewrite Hc, He, Hd, Hdraft, !Nat.eqb_refl. reflexivity.
  - unfold withdrawPendingChange. now rewrite Hfound.
Qed.

Lemma consumed_upload_blocks_withdrawal_witness :
  let house := mkEntity 1 (<["title" := JStr "House"]> (<["deleted" := JBool false]> ∅)) in
  let photo := mkUpload 9 5 uploaded None in
  let db := mkDB [house] [] [] [] [photo] ∅ [mkEmployeeAssignment 1 5] 2 in
  let asset := mkUploadedAsset 9 "property_image/5/1-a.png" "https://cdn/a.png" in
  let data := mkSubmitRequest (<["images" := JList ["https://cdn/a.png"]]> ∅) None
                (Some [asset]) None None true in
  let db1 := fst (submitPendingChange db 1 5 data 100) in
  snd (submitPendingChange db 1 5 data 100) = mkResponse 201 (BChange 2 draft 100 false)
  /\ withdrawPendingChange db1 2 5 false
     = (db1, mkResponse 500 (BMessage "Failed to withdraw change"))
  /\ discardDraft db1 2 5 = (db1, mkResponse 500 (BMessage "Failed to discard draft")).
Proof.
  intros house photo db asset data db1.
  assert (Hresp : snd (submitPendingChange db 1 5 data 100)
                  = mkResponse 201 (BChange 2 draft 100 false)) by (vm_compute; reflexivity).
  split; [exact Hresp|].
  destruct (consumed_upload_blocks_withdrawal db 1 5 data 100 2 draft 100 false photo)
    as (Hw & Hd & _).
  - split; constructor.
  - exact Hresp.
  - simpl. auto.
  - exists [9]. split; [reflexivity | simpl; auto].
  - split; [exact Hw | now apply Hd].
Defined.

Lemma updateData_lookup (payload : Payload) now :
  property_updateData payload now !! "updatedAt" = Some (JNum now)
  /\ (forall f, f <> "price" -> f <> "updatedAt" ->
        property_updateData payload now !! f = payload !! f)
  /\ (forall p, payload !! "price" = Some p ->
        property_updateData payload now !! "price"
        = Some (if bool_decide (p = JNull) || bool_decide (p = JStr "")
                then JNull else JStr (toString p))).
Proof.
  unfold property_updateData. destruct (payload !! "price") as [p|]; repeat split.
  - rewrite lookup_insert_ne by discriminate. apply lookup_insert_eq.
  - intros f Hp Hu. now rewrite !lookup_insert_ne by congruence.
  - intros p' [= <-]. apply lookup_insert_eq.
  - apply lookup_insert_eq.
  - intros f Hp Hu. now rewrite lookup_insert_ne by congruence.
  - discriminate.
Qed.

(** X22. What an approval stores for a change to an existing property.  When
    the approval is answered 200, the row sent back is the row now stored
    for the property, no other property has changed, and the change is
    marked approved with the reviewer and the time.  In that row
    [updatedAt] is the time of the approval; a text of the chosen payload
    (the admin's merged payload when given, else the proposal) under a
    [text] column, or under a [varchar] column whose length it respects, is
    stored as it is; so is a list under one of the [jsonb] columns; and a
    column that the payload does not name keeps its value. *)
Theorem approval_applies_payload db k a req fl now c target old e :
  List.NoDup (map eid (properties db)) ->
  select_change db k = Some c -> propertyId c = Some target ->
  select_entity (properties db) target = Some old ->
  let payload := chosen_payload req (proposedPayload c) in
  let out := approvePendingChange db k a req fl now in
  snd out = mkResponse 200 (BEntity e) ->
  select_entity (properties (fst out)) target = Some e
  /\ (forall j, j <> target ->
        select_entity (properties (fst out)) j = select_entity (properties db) j)
  /\ select_change (fst out) k
     = Some (mkPendingChange (cid c) (propertyId c) (proposerId c) (proposedPayload c)
               (diffSummary c) approved (reason c) (isDraft c) (createdAt c) (Some now)
               (Some a))
  /\ columns e !! "updatedAt" = Some (JNum now)
  /\ (forall f limit t, In (f, limit) text_columns ->
        payload !! f = Some (JStr t) -> fits limit t = true ->
        columns e !! f = Some (JStr t))
  /\ (forall f l, In f list_columns ->
        payload !! f = Some (JList l) -> columns e !! f = Some (JList l))
  /\ (forall f, f <> "updatedAt" -> payload !! f = None ->
        columns e !! f = columns old !! f).
Proof.
  intros Hnd Hsel Htarget Hold payload out.
  destruct (select_change_cid _ _ _ Hsel) as [Hck _].
  set (f := set_columns (property_updateData payload now)).
  assert (Hret : returning (fun x => eid x =? target) f (properties db) = [f old]).
  { unfold returning, select_entity in *.
    rewrite (filter_by_key eid (fun x => eid x =? target) target (properties db) old Hnd);
      [| intros r Hr; now apply Nat.eqb_eq | exact Hold].
    apply List.find_some in Hold as [_ Hold]. now rewrite Hold. }
  assert (Hout : snd out = mkResponse 200 (BEntity e) ->
                 e = f old
                 /\ fst out
                    = set_changes
                        (set_properties db
                           (update_where (fun x => eid x =? target) f (properties db)))
                        (update_where (fun x => cid x =? cid c) (approve_change a now)
                           (propertyPendingChanges db))).
  { unfold out, approvePendingChange, approve_body. rewrite Hsel.
    destruct (negb (reviewable (status c))); [discriminate|].
    unfold approve_property, property_write. rewrite Htarget.
    fold payload. destruct (canonicalWriteFails fl); [discriminate|].
    fold f. rewrite Hret. unfold finalize. cbn [at_thrown].
    destruct (statusUpdateFails fl); [discriminate|].
    cbn [at_entity head at_db fst snd]. intros [= <-]. split; reflexivity. }
  intros Hresp. destruct (Hout Hresp) as [-> Hdb]. rewrite Hdb. clear Hout Hresp Hdb.
  assert (Heid : eid old = target).
  { unfold select_entity in Hold. apply List.find_some in Hold as [_ H].
    now apply Nat.eqb_eq. }
  assert (Hnew : forall g w, g <> "price" -> g <> "updatedAt" ->
                   payload !! g = Some w -> columns (f old) !! g = Some w).
  { intros g w Hp Hu Hg. unfold f, set_columns, spread. simpl.
    apply lookup_union_Some_l.
    now rewrite (proj1 (proj2 (updateData_lookup payload now)) g Hp Hu). }
  split; [|split; [|split; [|split; [|split; [|split]]]]].
  - unfold select_entity. simpl. rewrite (find_update_where eid) by reflexivity.
    unfold select_entity in Hold. rewrite Hold. simpl.
    now rewrite Heid, Nat.eqb_refl.
  - intros j Hj. unfold select_entity. simpl.
    rewrite (find_update_where eid) by reflexivity.
    destruct (List.find _ (properties db)) as [r|] eqn:Hr; [|reflexivity]. simpl.
    destruct (eid r =? target) eqn:Hk; [|reflexivity].
    exfalso. apply Hj. apply List.find_some in Hr as [_ Hr].
    apply Nat.eqb_eq in Hr, Hk. congruence.
  - unfold select_change. simpl. rewrite (find_update_where cid) by reflexivity.
    unfold select_change in Hsel. rewrite Hsel. simpl. now rewrite Nat.eqb_refl.
  - unfold f, set_columns, spread. simpl.
    apply lookup_union_Some_l. apply updateData_lookup.
  - intros g limit t Hin Hg _. apply Hnew; [| |exact Hg].
    + intros ->. unfold text_columns in Hin. simpl in Hin.
      repeat (destruct Hin as [Hin|Hin]; [discriminate Hin|]). contradiction.
    + intros ->. unfold text_columns in Hin. simpl in Hin.
      repeat (destruct Hin as [Hin|Hin]; [discriminate Hin|]). contradiction.
  - intros g l Hin Hg. apply Hnew; [| |exact Hg].
    + intros ->. unfold list_columns in Hin. simpl in Hin.
      repeat (destruct Hin as [Hin|Hin]; [discriminate Hin|]). contradiction.
    + intros ->. unfold list_columns in Hin. simpl in Hin.
      repeat (destruct Hin as [Hin|Hin]; [discriminate Hin|]). contradiction.
  - intros g Hu Hg. unfold f, set_columns, spread. simpl.
    apply lookup_union_r.
    destruct (decide (g = "price")) as [->|Hp].
    + unfold property_updateData. rewrite Hg.
      now rewrite lookup_insert_ne by discriminate.
    + now rewrite (proj1 (proj2 (updateData_lookup payload now)) g Hp Hu).
Qed.

(** The theorem on a house in Pune whose title an employee proposes to
    change: after the approval the property has the new title, its old
    location, and the time of the approval. *)
Lemma approval_applies_payload_witness :
  let house := mkEntity 1 (<["title" := JStr "House"]> (<["location" := JStr "Pune"]>
                             (<["deleted" := JBool false]> ∅))) in
  let edit := mkPendingChange 3 (Some 1) 5 (<["title" := JStr "Villa"]> ∅) None
                pending None false 11 None None in
  let db := mkDB [house] [] [edit] [] [] ∅ [] 4 in
  let out := approvePendingChange db 3 9 (mkApproveRequest proposed None) no_faults 50 in
  code (snd out) = 200
  /\ option_map (fun x => (columns x !! "title", columns x !! "location",
                           columns x !! "updatedAt")) (select_entity (properties (fst out)) 1)
     = Some (Some (JStr "Villa"), Some (JStr "Pune"), Some (JNum 50))
  /\ option_map (fun x => (status x, reviewedAt x, reviewedByAdminId x))
       (select_change (fst out) 3)
     = Some (approved, Some 50%Z, Some 9).
Proof.
  intros house edit db out.
  set (e := set_columns (property_updateData (<["title" := JStr "Villa"]> ∅) 50) house).
  destruct (approval_applies_payload db 3 9 (mkApproveRequest proposed None) no_faults 50
              edit 1 house e)
    as (Hrow & _ & Hchange & Hupd & Htext & _ & Hkept).
  - repeat constructor; simpl; tauto.
  - reflexivity.
  - reflexivity.
  - reflexivity.
  - reflexivity.
  - fold out in Hrow, Hchange. split; [reflexivity|].
    split; [|now rewrite Hchange]. rewrite Hrow. cbn [option_map].
    rewrite Hupd.
    rewrite (Htext "title" (Some 255) "Villa") by (simpl; auto).
    rewrite (Hkept "location") by (discriminate || reflexivity).
    reflexivity.
Defined.

End ModerationExtras.

Module BannerFacts.
Import Moderation Banners.









End BannerFacts.

Module RateLimitExtras.
Import RateLimit RateLimitFacts.

(** The limiter reads and writes the entry of the caller only. *)
Lemma checkRateLimit_local m m' u v now :
  m !! u = m' !! u ->
  snd (checkRateLimit m u now) = snd (checkRateLimit m' u now)
  /\ fst (checkRateLimit m u now) !! u = fst (checkRateLimit m' u now) !! u
  /\ (v <> u -> fst (checkRateLimit m u now) !! v = m !! v).
Proof.
  intros Hu. unfold checkRateLimit. rewrite <- Hu.
  destruct (m !! u) as [l|] eqn:Hl.
  - destruct (resetAt l <? now)%Z.
    + simpl. rewrite !lookup_insert_eq. repeat split.
      intros Hv. now rewrite lookup_insert_ne by congruence.
    + destruct (15 <=? count l).
      * cbn [fst snd]. rewrite Hl, <- Hu. repeat split.
      * cbn [fst snd]. rewrite !lookup_insert_eq. repeat split.
        intros Hv. now rewrite lookup_insert_ne by congruence.
  - simpl. rewrite !lookup_insert_eq. repeat split.
    intros Hv. now rewrite lookup_insert_ne by congruence.
Qed.

Lemma create_keeps_others s u v b now :
  v <> u ->
  rateLimitMap (fst (createLoanRequest s u b now)) !! v = rateLimitMap s !! v
  /\ users (fst (createLoanRequest s u b now)) = users s.
Proof.
  intros Hv. unfold createLoanRequest.
  pose proof (checkRateLimit_local (rateLimitMap s) (rateLimitMap s) u v now eq_refl)
    as (_ & _ & Hother).
  destruct (checkRateLimit (rateLimitMap s) u now) as [m allowed]. simpl in Hother.
  destruct (negb allowed); [simpl; auto|].
  destruct (negb (loanRequestSchema_ok b)); [simpl; auto|]. simpl.
  destruct (List.find _ (users s)); [|simpl; auto].
  destruct (stored_details b); simpl; auto.
Qed.

Lemma serve_keeps_others u v calls : forall s,
  v <> u ->
  rateLimitMap (serve u calls s) !! v = rateLimitMap s !! v
  /\ users (serve u calls s) = users s.
Proof.
  induction calls as [|c calls IH]; intros s Hv; [now split|].
  rewrite serve_cons.
  destruct (IH (fst (createLoanRequest s u (c_body c) (c_now c))) Hv) as [Hm Hu].
  destruct (create_keeps_others s u v (c_body c) (c_now c) Hv) as [Hm' Hu'].
  split; congruence.
Qed.

(** The answer to a call depends on the limiter through the caller's entry
    only. *)
Lemma create_code_local s s' v b now :
  rateLimitMap s !! v = rateLimitMap s' !! v -> users s = users s' ->
  code (snd (createLoanRequest s v b now)) = code (snd (createLoanRequest s' v b now)).
Proof.
  intros Hm Hu. unfold createLoanRequest.
  pose proof (checkRateLimit_local (rateLimitMap s) (rateLimitMap s') v v now Hm)
    as (Hallowed & _).
  destruct (checkRateLimit (rateLimitMap s) v now) as [m allowed].
  destruct (checkRateLimit (rateLimitMap s') v now) as [m' allowed'].
  simpl in Hallowed. subst allowed'.
  destruct (negb allowed); [reflexivity|].
  destruct (negb (loanRequestSchema_ok b)); [reflexivity|]. simpl. rewrite Hu.
  destruct (List.find _ (users s')); [|reflexivity].
  now destruct (stored_details b).
Qed.

(** X25. The limit is per user.  Whatever another user has sent before, and
    however often, a call is answered with the status code it would have
    got without those calls: nobody can use up the allowance of someone
    else. *)
Theorem limit_is_per_user s u v calls b now :
  v <> u ->
  rateLimitMap (serve u calls s) !! v = rateLimitMap s !! v
  /\ code (snd (createLoanRequest (serve u calls s) v b now))
     = code (snd (createLoanRequest s v b now)).
Proof.
  intros Hv. destruct (serve_keeps_others u v calls s Hv) as [Hm Hu].
  split; [exact Hm|]. now apply create_code_local.
Qed.

Lemma limit_is_per_user_witness :
  let body := mkLoanRequestBody "Home Loan" "Apartment" 1000000 800000 "Salaried" 90000
                "20 Years" false None "Morning (9–12)" None in
  let s := mkServer ∅ [mkUser 5 (Some "Ravi") None "9000000000" None;
                       mkUser 6 (Some "Mira") None "9000000001" None] [] 0 in
  let burst := repeat (mkCall 1000 body) 20 in
  code (snd (createLoanRequest (serve 5 burst s) 5 body 2000)) = 429
  /\ code (snd (createLoanRequest s 6 body 2000)) = 201
  /\ code (snd (createLoanRequest (serve 5 burst s) 6 body 2000)) = 201.
Proof.
  intros body s burst. split; [vm_compute; reflexivity|]. split; [vm_compute; reflexivity|].
  refine (eq_trans (proj2 (limit_is_per_user s 5 6 burst body 2000 _)) _).
  - discriminate.
  - vm_compute. reflexivity.
Defined.

(** The values that the insert stores pass the schema when the body did. *)
Lemma stored_keeps_schema b stored :
  loanRequestSchema_ok b = true -> stored_details b = Some stored ->
  loanRequestSchema_ok stored = true.
Proof.
  unfold stored_details. destruct (_ || _); [discriminate|].
  destruct (varchar 50 (propertyCategory b)) as [category|] eqn:Hcat; [|discriminate].
  intros Hok [= <-]. unfold loanRequestSchema_ok in *.
  cbn [loanType propertyCategory propertyValue loanAmountNeeded employmentType
       monthlyIncome preferredTenure existingLoans existingLoanDetails
       preferredContactTime additionalNotes].
  apply andb_prop in Hok as [Hok Hloans]. apply andb_prop in Hok as [Hok Hle].
  apply andb_prop in Hok as [Hok Hnotes]. apply andb_prop in Hok as [Hok Htime].
  apply andb_prop in Hok as [Hok Htenure]. apply andb_prop in Hok as [Hok Hincome].
  apply andb_prop in Hok as [Hok Hemp]. apply andb_prop in Hok as [Hok Hneeded].
  apply andb_prop in Hok as [Hok Hvalue]. apply andb_prop in Hok as [Htype Hcategory].
  rewrite Htype, Hvalue, Hneeded, Hemp, Hincome, Htenure, Htime, Hle.
  assert (Hc : negb (bool_decide (category = "")) = true).
  { apply negb_true_iff, bool_decide_eq_false.
    apply (varchar_nonempty 50 (propertyCategory b)); [exact Hcat | | lia].
    apply negb_true_iff, bool_decide_eq_false in Hcategory. exact Hcategory. }
  rewrite Hc.
  assert (Hn : match or_null (additionalNotes b) with
               | Some n => js_length n <=? 1000
               | None => true
               end = true).
  { destruct (additionalNotes b) as [n|]; [|reflexivity]. unfold or_null.
    now destruct (decide (n = "")). }
  rewrite Hn.
  assert (Hl : negb (existingLoans b)
               || match or_null (existingLoanDetails b) with
                  | Some d => has_text d
                  | None => false
                  end = true).
  { destruct (existingLoans b); [|reflexivity]. cbn [negb orb] in *.
    destruct (existingLoanDetails b) as [d0|]; [|discriminate]. unfold or_null.
    destruct (decide (d0 = "")) as [->|_]; [discriminate | exact Hloans]. }
  rewrite Hl. reflexivity.
Qed.

(** What one call adds to [loan_requests]: nothing, or one row of the
    caller with a validated body, status [received] and an SLA of 24 hours
    from its creation. *)
Lemma create_appends s u b now :
  loanRequests (fst (createLoanRequest s u b now)) = loanRequests s
  \/ exists row,
       loanRequests (fst (createLoanRequest s u b now)) = loanRequests s ++ [row]
       /\ code (snd (createLoanRequest s u b now)) = 201
       /\ userId row = u /\ loanRequestSchema_ok (details row) = true
       /\ status row = "received" /\ slaDueAt row = (lastActivityAt row + DAY_MS)%Z.
Proof.
  unfold createLoanRequest.
  destruct (checkRateLimit (rateLimitMap s) u now) as [m allowed].
  destruct (negb allowed); [now left|].
  destruct (negb (loanRequestSchema_ok b)) eqn:Hok; [now left|]. simpl.
  destruct (List.find _ (users s)); [|now left].
  destruct (stored_details b) as [stored|] eqn:Hstored; [|now left].
  right. eexists. split; [reflexivity|]. simpl.
  apply negb_false_iff in Hok. repeat split; auto.
  now apply (stored_keeps_schema b).
Qed.

(** X26. Only validated requests are stored.  Over any sequence of calls of a
    user the table only grows, by at most one row per call; every new row
    belongs to the caller, is in status [received] with an SLA of 24 hours
    from its creation, and carries a body that passed the schema, so its
    loan amount does not exceed the property value. *)
Theorem only_validated_requests_stored s u calls :
  exists new,
    loanRequests (serve u calls s) = loanRequests s ++ new
    /\ length new <= length calls
    /\ Forall (fun row =>
                 userId row = u /\ loanRequestSchema_ok (details row) = true
                 /\ (loanAmountNeeded (details row) <= propertyValue (details row))%Z
                 /\ status row = "received"
                 /\ slaDueAt row = (lastActivityAt row + DAY_MS)%Z) new.
Proof.
  revert s. induction calls as [|c calls IH]; intros s.
  - exists []. rewrite app_nil_r. repeat split; [simpl; lia | constructor].
  - rewrite serve_cons.
    destruct (IH (fst (createLoanRequest s u (c_body c) (c_now c)))) as (new & Hrows & Hlen & Hall).
    destruct (create_appends s u (c_body c) (c_now c))
      as [Hsame | (row & Hrow & _ & Hu & Hok & Hst & Hsla)].
    + exists new. rewrite Hrows, Hsame. repeat split; [simpl; lia | exact Hall].
    + exists (row :: new). rewrite Hrows, Hrow, <- app_assoc.
      repeat split; [simpl; lia|]. constructor; [|exact Hall].
      repeat split; auto.
      unfold loanRequestSchema_ok in Hok.
      apply andb_prop in Hok as [Hok _]. apply andb_prop in Hok as [_ Hle].
      now apply Z.leb_le.
Qed.

End RateLimitExtras.

Module AccountFacts.
Import Accounts.

Lemma soft_delete_not_live pat admin now u : live pat (soft_delete admin now u) = false.
Proof. unfold live. simpl. apply andb_false_r. Qed.

Lemma has_account_select pat db id :
  has_account pat db id = true <-> select_account pat db id <> None.
Proof.
  unfold has_account, select_account. split.
  - intros H. apply List.existsb_exists in H as (u & Hin & Hu).
    destruct (List.find _ (users db)) eqn:Hf; [discriminate|].
    pose proof (List.find_none _ _ Hf u Hin) as Hn. simpl in Hn.
    unfold by_id in Hu. congruence.
  - intros H. destruct (List.find _ (users db)) as [u|] eqn:Hf; [|contradiction].
    apply List.find_some in Hf as [Hin Hu]. apply List.existsb_exists. now exists u.
Qed.

(** Once every row of an id is marked deleted, no handler finds it. *)
Lemma gone_after_update pat db id admin now :
  List.find (fun u => (uid u =? id) && live pat u)
    (update_where (by_id id) (soft_delete admin now) (users db)) = None.
Proof.
  apply find_all_false. intros u1 Hu1. unfold update_where in Hu1.
  apply List.in_map_iff in Hu1 as (u & <- & Hu). unfold by_id.
  destruct (uid u =? id) eqn:Hk.
  - rewrite soft_delete_not_live. apply andb_false_r.
  - now rewrite Hk.
Qed.

Lemma not_found_everywhere db id :
  select_account "agent" db id = None ->
  (forall admin now, deleteAgent db (Some id) admin now
                     = (db, mkResponse 404 (BMessage "Agent not found")))
  /\ (forall admin assign now, approveAgent db (Some id) admin assign now
                               = (db, mkResponse 404 (BMessage "Agent not found")))
  /\ (forall admin reason action now, reason <> "" ->
        rejectAgent db (Some id) admin reason action now
        = (db, mkResponse 404 (BMessage "Agent not found")))
  /\ getAgentById db (Some id) = mkResponse 404 (BMessage "Agent not found").
Proof.
  intros Hnone. unfold deleteAgent, delete_account, approveAgent, rejectAgent, getAgentById.
  simpl. rewrite Hnone. repeat split.
  intros admin reason action now Hr. now rewrite bool_decide_eq_false_2.
Qed.

(** X27. A deleted agent is gone for good.  After [deleteAgent] has answered
    200 the row is still in the table, marked deleted, one audit entry names
    it, and every agent handler (details, approval, rejection, a second
    deletion) answers 404 for that id and writes nothing. *)
Theorem deleted_agent_is_gone db id admin now :
  code (snd (deleteAgent db (Some id) admin now)) = 200 ->
  let db1 := fst (deleteAgent db (Some id) admin now) in
  map uid (users db1) = map uid (users db)
  /\ (forall u, In u (users db1) -> uid u = id -> deleted u = Some true)
  /\ (exists entry, adminAuditLogs db1 = adminAuditLogs db ++ [entry]
        /\ actionType entry = "delete_agent" /\ targetId entry = Some id
        /\ Accounts.adminId entry = admin)
  /\ (forall admin' now', deleteAgent db1 (Some id) admin' now'
                          = (db1, mkResponse 404 (BMessage "Agent not found")))
  /\ (forall admin' assign now', approveAgent db1 (Some id) admin' assign now'
                                 = (db1, mkResponse 404 (BMessage "Agent not found")))
  /\ (forall admin' reason action now', reason <> "" ->
        rejectAgent db1 (Some id) admin' reason action now'
        = (db1, mkResponse 404 (BMessage "Agent not found")))
  /\ getAgentById db1 (Some id) = mkResponse 404 (BMessage "Agent not found").
Proof.
  unfold deleteAgent at 1 2, delete_account.
  destruct (select_account (pattern agent_kind) db id) as [agent|]; [|discriminate].
  intros _. cbn [fst].
  split; [|split; [|split]].
  - simpl. now apply (map_key_update_where uid).
  - simpl. intros u1 Hu1 Hid. unfold update_where in Hu1.
    apply List.in_map_iff in Hu1 as (u & <- & Hu). unfold by_id in *.
    destruct (uid u =? id) eqn:Hk; [reflexivity|].
    apply Nat.eqb_neq in Hk. contradiction.
  - eexists. split; [reflexivity|]. now repeat split.
  - apply not_found_everywhere. unfold select_account. simpl.
    now apply (gone_after_update "agent" db id admin now).
Qed.

Lemma deleted_agent_is_gone_witness :
  let agent := mkUser 7 (Some "Dev") None "9000000007" (Some "Agent") (Some true) None
                 None None None None (Some false) None None in
  let db := mkDB [agent] [] in
  let db1 := fst (deleteAgent db (Some 7) 1 50) in
  users db1 = [soft_delete 1 50 agent]
  /\ deleteAgent db1 (Some 7) 1 60 = (db1, mkResponse 404 (BMessage "Agent not found"))
  /\ getAgentById db1 (Some 7) = mkResponse 404 (BMessage "Agent not found").
Proof.
  intros agent db db1. split; [reflexivity|].
  destruct (deleted_agent_is_gone db 7 1 50 eq_refl) as (_ & _ & _ & Hdel & _ & _ & Hget).
  split; [apply Hdel | exact Hget].
Defined.


Lemma soft_delete_twice admin now u :
  soft_delete admin now (soft_delete admin now u) = soft_delete admin now u.
Proof. reflexivity. Qed.

(** The loop of the bulk deletion, from any state of its three variables. *)
Lemma bulk_fold k admin now snapshot validIds ids : forall db deleted failed,
  let valid := fun id => existsb (Nat.eqb id) validIds in
  let out := fold_left (bulk_turn k admin now snapshot validIds) ids (db, deleted, failed) in
  snd (fst out) = deleted ++ List.filter valid ids
  /\ snd out = failed ++ map (fun id => (id, bulk_reason k))
                           (List.filter (fun id => negb (valid id)) ids)
  /\ users (fst (fst out))
     = update_where (fun u => existsb (Nat.eqb (uid u)) (List.filter valid ids))
                    (soft_delete admin now) (users db)
  /\ exists entries,
       adminAuditLogs (fst (fst out)) = adminAuditLogs db ++ entries
       /\ length entries = length (List.filter valid ids)
       /\ Forall (fun e => actionType e = bulk_action k /\ Accounts.adminId e = admin
                           /\ exists id, targetId e = Some id /\ valid id = true /\ In id ids)
                 entries.
Proof.
  induction ids as [|id ids IH]; intros db deleted failed valid out.
  - subst out. simpl. rewrite !app_nil_r. split; [reflexivity|]. split; [reflexivity|].
    split; [now rewrite update_where_same|].
    exists []. rewrite app_nil_r. repeat split. constructor.
  - subst out.
    change (fold_left (bulk_turn k admin now snapshot validIds) (id :: ids)
              (db, deleted, failed))
      with (fold_left (bulk_turn k admin now snapshot validIds) ids
              (if negb (valid id)
               then (db, deleted, failed ++ [(id, bulk_reason k)])
               else (log (set_users db (update_where (by_id id) (soft_delete admin now)
                                          (users db)))
                       admin (bulk_action k) id
                       (bulk_details k (List.find (by_id id) snapshot)),
                     deleted ++ [id], failed))).
    destruct (valid id) eqn:Hv; cbn [negb].
    + specialize (IH (log (set_users db (update_where (by_id id) (soft_delete admin now)
                                           (users db)))
                        admin (bulk_action k) id
                        (bulk_details k (List.find (by_id id) snapshot)))
                     (deleted ++ [id]) failed).
      cbv zeta in IH. fold valid in IH.
      destruct IH as (Hd & Hf & Hu & entries & Hlogs & Hlen & Hall).
      cbn [List.filter]. rewrite Hv. cbn [negb].
      split; [now rewrite Hd, <- app_assoc|]. split; [exact Hf|]. split.
      * rewrite Hu. simpl users.
        rewrite update_where_twice; [|reflexivity|reflexivity].
        unfold update_where. apply map_ext. intros u. reflexivity.
      * eexists (_ :: entries). simpl in Hlogs. rewrite Hlogs, <- app_assoc.
        split; [reflexivity|]. split; [simpl; now rewrite Hlen|].
        constructor.
        -- simpl. repeat split. exists id. simpl. auto.
        -- eapply List.Forall_impl; [|exact Hall]. simpl.
           intros e (Ha & Hb & id' & Ht & Hv' & Hin). repeat split; auto.
           exists id'. auto.
    + specialize (IH db deleted (failed ++ [(id, bulk_reason k)])).
      cbv zeta in IH. fold valid in IH.
      destruct IH as (Hd & Hf & Hu & entries & Hlogs & Hlen & Hall).
      cbn [List.filter]. rewrite Hv. cbn [negb].
      split; [exact Hd|]. split; [now rewrite Hf, <- app_assoc|]. split; [exact Hu|].
      exists entries. split; [exact Hlogs|]. split; [exact Hlen|].
      eapply List.Forall_impl; [|exact Hall]. simpl.
      intros e (Ha & Hb & id' & Ht & Hv' & Hin). repeat split; auto.
      exists id'. auto.
Qed.

(** For a requested id, being among [validIds] is having a live account. *)
Lemma valid_is_has_account pat db ids id :
  In id ids ->
  existsb (Nat.eqb id)
    (map uid (List.filter (fun a => existsb (Nat.eqb (uid a)) ids)
                (List.filter (live pat) (users db))))
  = has_account pat db id.
Proof.
  intros Hid. apply eq_true_iff_eq. unfold has_account.
  rewrite !List.existsb_exists. split.
  - intros (x & Hx & Heq). apply Nat.eqb_eq in Heq. subst x.
    apply List.in_map_iff in Hx as (a & Ha & Hin).
    apply List.filter_In in Hin as [Hin _]. apply List.filter_In in Hin as [Hin Hlive].
    exists a. split; [exact Hin|]. unfold by_id. rewrite Ha, Nat.eqb_refl. exact Hlive.
  - intros (a & Hin & Ha). apply andb_prop in Ha as [Hk Hlive].
    unfold by_id in Hk. apply Nat.eqb_eq in Hk.
    exists id. split; [|apply Nat.eqb_refl].
    apply List.in_map_iff. exists a. split; [exact Hk|].
    apply List.filter_In. split; [apply List.filter_In; auto|].
    apply List.existsb_exists. exists id. split; [exact Hid|].
    rewrite Hk. apply Nat.eqb_refl.
Qed.

Lemma filter_ext_on {A} (P Q : A -> bool) (l : list A) :
  (forall x, In x l -> P x = Q x) -> List.filter P l = List.filter Q l.
Proof.
  induction l as [|x l IH]; simpl; intros H; [reflexivity|].
  rewrite (H x (or_introl eq_refl)), IH; [reflexivity|]. intros y Hy. apply H. now right.
Qed.

(** X28. The bulk deletions split the request.  When [bulkDeleteAgents] or
    [bulkDeleteCustomers] (the instances of [bulk_delete]) answers 200,
    [deleted] holds the requested ids that named a live account of the
    role, [failed] the others, each in request order and as often as
    requested; afterwards no deleted id names a live account, one audit
    entry was written per deleted id, and, ids being unique, users that were
    no live account of the role are as they were. *)
Theorem bulk_delete_partition k db ids admin now deleted failed :
  snd (bulk_delete k db ids admin now) = mkResponse 200 (BBulk deleted failed) ->
  let db' := fst (bulk_delete k db ids admin now) in
  deleted = List.filter (has_account (pattern k) db) ids
  /\ failed = map (fun id => (id, bulk_reason k))
                  (List.filter (fun id => negb (has_account (pattern k) db id)) ids)
  /\ length deleted + length failed = length ids
  /\ (forall id pat, In id deleted -> select_account pat db' id = None)
  /\ length (adminAuditLogs db') = length (adminAuditLogs db) + length deleted
  /\ (users_keyed db ->
      forall u, In u (users db) -> live (pattern k) u = false -> In u (users db')).
Proof.
  unfold bulk_delete.
  destruct (100 <? length ids); [discriminate|].
  destruct ids as [|i0 ids0] eqn:Hids; [discriminate|]. rewrite <- Hids. clear Hids.
  set (snapshot := List.filter (live (pattern k)) (users db)).
  set (validIds := map uid (List.filter (fun a => existsb (Nat.eqb (uid a)) ids) snapshot)).
  pose proof (bulk_fold k admin now snapshot validIds ids db [] []) as Hfold.
  cbv zeta in Hfold.
  destruct (fold_left _ ids (db, [], [])) as [[db' del] fl]. cbn [fst snd] in *.
  destruct Hfold as (Hd & Hf & Hu & entries & Hlogs & Hlen & _).
  intros [= <- <-].
  assert (Hvalid : List.filter (fun id => existsb (Nat.eqb id) validIds) ids
                   = List.filter (has_account (pattern k) db) ids).
  { apply filter_ext_on. intros id Hid. now apply valid_is_has_account. }
  assert (Hinvalid : List.filter (fun id => negb (existsb (Nat.eqb id) validIds)) ids
                     = List.filter (fun id => negb (has_account (pattern k) db id)) ids).
  { apply filter_ext_on. intros id Hid. f_equal. now apply valid_is_has_account. }
  rewrite Hvalid in Hd, Hu, Hlen. rewrite Hinvalid in Hf. simpl in Hd, Hf.
  split; [exact Hd|]. split; [exact Hf|]. split; [|split; [|split]].
  - rewrite Hd, Hf, length_map.
    clear. induction ids as [|i ids IH]; simpl; [reflexivity|].
    destruct (has_account (pattern k) db i); simpl; lia.
  - intros id pat Hin. unfold select_account. rewrite Hu.
    apply find_all_false. intros u1 Hu1. unfold update_where in Hu1.
    apply List.in_map_iff in Hu1 as (u & <- & Hin').
    destruct (uid u =? id) eqn:Hk.
    + apply Nat.eqb_eq in Hk.
      assert (Hex : existsb (Nat.eqb (uid u))
                      (List.filter (has_account (pattern k) db) ids) = true).
      { apply List.existsb_exists. exists id. rewrite <- Hd.
        split; [exact Hin | rewrite Hk; apply Nat.eqb_refl]. }
      rewrite Hex, soft_delete_not_live. apply andb_false_r.
    + destruct (existsb _ _); simpl; now rewrite Hk.
  - rewrite Hlogs, List.length_app, Hlen, Hd. reflexivity.
  - intros Hkeyed u Hin Hnot. rewrite Hu. unfold update_where.
    apply List.in_map_iff. exists u. split; [|exact Hin].
    destruct (existsb _ _) eqn:Hex; [|reflexivity]. exfalso.
    apply List.existsb_exists in Hex as (id & Hid & Heq).
    apply Nat.eqb_eq in Heq. apply List.filter_In in Hid as [_ Hacc].
    unfold has_account in Hacc. apply List.existsb_exists in Hacc as (a & Ha & Hlive).
    apply andb_prop in Hlive as [Hk Hlive]. unfold by_id in Hk. apply Nat.eqb_eq in Hk.
    assert (a = u) by (apply (same_key_same_row uid (users db)); auto; congruence).
    subst a. congruence.
Qed.

Lemma bulk_delete_partition_witness :
  let agent := mkUser 7 (Some "Dev") None "9000000007" (Some "agent") (Some true) None
                 None None None None (Some false) None None in
  let customer := mkUser 8 (Some "Kiran") None "9000000008" (Some "customer") (Some true)
                    None None None None (Some 7) (Some false) None None in
  let db := mkDB [agent; customer] [] in
  snd (bulkDeleteAgents db [7; 8; 7; 9] 1 50)
  = mkResponse 200
      (BBulk [7; 7] [(8, "Agent not found or already deleted");
                     (9, "Agent not found or already deleted")])
  /\ In customer (users (fst (bulkDeleteAgents db [7; 8; 7; 9] 1 50)))
  /\ select_account "agent" (fst (bulkDeleteAgents db [7; 8; 7; 9] 1 50)) 7 = None
  /\ length (adminAuditLogs (fst (bulkDeleteAgents db [7; 8; 7; 9] 1 50))) = 0 + 2.
Proof.
  intros agent customer db.
  assert (Hresp : snd (bulkDeleteAgents db [7; 8; 7; 9] 1 50)
                  = mkResponse 200
                      (BBulk [7; 7] [(8, "Agent not found or already deleted");
                                     (9, "Agent not found or already deleted")]))
    by (vm_compute; reflexivity).
  split; [exact Hresp|].
  destruct (bulk_delete_partition agent_kind db [7; 8; 7; 9] 1 50 _ _ Hresp)
    as (_ & _ & _ & Hgone & Hlogs & Hkept).
  split; [|split; [|exact Hlogs]].
  - apply Hkept.
    + repeat constructor; simpl; intuition lia.
    + simpl. auto.
    + reflexivity.
  - apply Hgone. simpl. auto.
Defined.


Lemma no_account_of_other_role pat db id u :
  users_keyed db -> In u (users db) -> uid u = id -> live pat u = false ->
  select_account pat db id = None.
Proof.
  intros Hkeyed Hin Hid Hnot. unfold select_account. apply find_all_false.
  intros r Hr. destruct (uid r =? id) eqn:Hk; [|reflexivity]. simpl.
  apply Nat.eqb_eq in Hk.
  assert (r = u) by (apply (same_key_same_row uid (users db)); auto; congruence).
  now subst r.
Qed.

(** X29. The handlers keep to their role.  With unique ids, an id that names a
    user who is no live agent (a customer, an employee, an agent already
    deleted) is "not found" for every agent handler, and an id that names
    no live customer is "not found" for the customer handlers; none of them
    writes anything. *)
Theorem other_roles_not_found db id u :
  users_keyed db -> In u (users db) -> uid u = id ->
  (live "agent" u = false ->
   (forall admin now, deleteAgent db (Some id) admin now
                      = (db, mkResponse 404 (BMessage "Agent not found")))
   /\ (forall admin assign now, approveAgent db (Some id) admin assign now
                                = (db, mkResponse 404 (BMessage "Agent not found")))
   /\ (forall admin reason action now, reason <> "" ->
         rejectAgent db (Some id) admin reason action now
         = (db, mkResponse 404 (BMessage "Agent not found")))
   /\ getAgentById db (Some id) = mkResponse 404 (BMessage "Agent not found"))
  /\ (live "customer" u = false ->
      (forall admin now, deleteCustomer db (Some id) admin now
                         = (db, mkResponse 404 (BMessage "Customer not found")))
      /\ getCustomerById db (Some id) = mkResponse 404 (BMessage "Customer not found")).
Proof.
  intros Hkeyed Hin Hid. split; intros Hnot.
  - apply not_found_everywhere. now apply (no_account_of_other_role "agent" db id u).
  - pose proof (no_account_of_other_role "customer" db id u Hkeyed Hin Hid Hnot) as Hnone.
    unfold deleteCustomer, delete_account, getCustomerById. simpl. now rewrite Hnone.
Qed.

Lemma other_roles_not_found_witness :
  let customer := mkUser 8 (Some "Kiran") None "9000000008" (Some "Customer") (Some true)
                    None None None None None (Some false) None None in
  let db := mkDB [customer] [] in
  deleteAgent db (Some 8) 1 50 = (db, mkResponse 404 (BMessage "Agent not found"))
  /\ code (snd (deleteCustomer db (Some 8) 1 50)) = 200.
Proof.
  intros customer db. split; [|reflexivity].
  assert (Hkeyed : users_keyed db) by (repeat constructor; simpl; tauto).
  exact (proj1 (proj1 (other_roles_not_found db 8 customer Hkeyed (or_introl eq_refl) eq_refl)
                  eq_refl) 1 50%Z).
Defined.




End AccountFacts.
